(** * Date field sections: format parser and field state engine

    A shallow embedding of two files of the date pickers' [useField] hook:

    - the format parser ([buildSectionsFromFormat] and the functions it is
      made of), module [FormatParser];
    - the state engine of the hook ([useFieldState.ts]), module [FieldState].

    JavaScript strings are modelled as [string] (one character per code
    unit), arrays as lists, [null]/[undefined] as [None], a thrown error as
    the [Throw] branch of a result type. *)

From Stdlib Require Import ZArith List String Ascii Bool Arith Lia.
Import ListNotations.
Open Scope string_scope.

Set Implicit Arguments.

(* ================================================================== *)
(** * Part I. The format parser *)
(* ================================================================== *)

Module FormatParser.

(** ** Data model *)

Inductive FieldSectionType : Type :=
| year | month | day | weekDay | hours | minutes | seconds | meridiem | empty.

Inductive FieldSectionContentType : Type :=
| digit | digit_with_letter | letter.

Definition contentType_eqb (a b : FieldSectionContentType) : bool :=
  match a, b with
  | digit, digit | digit_with_letter, digit_with_letter | letter, letter => true
  | _, _ => false
  end.

Record FieldSection : Type := {
  type : FieldSectionType;
  contentType : FieldSectionContentType;
  maxLength : option nat;
  format : string;
  value : string;
  placeholder : string;
  hasLeadingZerosInFormat : bool;
  hasLeadingZerosInInput : bool;
  startSeparator : string;
  endSeparator : string;
  modified : bool
}.

(** What [getDateSectionConfigFromFormatToken] returns: the part of a
    section that only depends on the token. *)
Record SectionConfig : Type := {
  cfg_type : FieldSectionType;
  cfg_contentType : FieldSectionContentType;
  cfg_maxLength : option nat
}.

Inductive FormatDensity : Type := dense | spacious.

Definition PickersTimezone : Type := string.

(** The errors the parser throws. *)
Inductive ParserError : Type :=
| FormatExpansionOverflow
| EmptyToken
| MissingMaxLength (token : string).

Inductive Result (A : Type) : Type :=
| Ok (a : A)
| Throw (e : ParserError).
Arguments Ok {A} a.
Arguments Throw {A} e.

(** [FormatEscapedParts]: the escaped runs of a format, both ends inclusive. *)
Record EscapedPart : Type := { start : nat; end_ : nat }.
Definition FormatEscapedParts : Type := list EscapedPart.

(** ** External collaborators *)

(** The calendar adapter ([MuiPickersAdapter]), restricted to the members
    the parser calls.  [utils.date(undefined, timezone)] reads the current
    date: the reading is a function of an explicit clock value. *)
Module utils.
Record t (TDate Clock : Type) : Type := {
  expandFormat : string -> string;
  escapedCharacters : ascii * ascii;
  formatTokenMap_keys : list string;
  isValid : TDate -> bool;
  formatByString : TDate -> string -> string;
  date_undefined : Clock -> option PickersTimezone -> TDate
}.
End utils.

(** The locale text ([PickersLocaleText]): one placeholder function per
    section type. *)
Module localeText.
Record t : Type := {
  fieldYearPlaceholder : nat -> string -> string;
  fieldMonthPlaceholder : FieldSectionContentType -> string -> string;
  fieldDayPlaceholder : string -> string;
  fieldWeekDayPlaceholder : FieldSectionContentType -> string -> string;
  fieldHoursPlaceholder : string -> string;
  fieldMinutesPlaceholder : string -> string;
  fieldSecondsPlaceholder : string -> string;
  fieldMeridiemPlaceholder : string -> string
}.
End localeText.

(** The helpers imported from [useField.utils], whose code is not part of
    the files embedded here: they stay parameters of the parser. *)
Module fieldUtils.
Record t (TDate Clock : Type) : Type := {
  getDateSectionConfigFromFormatToken :
    utils.t TDate Clock -> string -> SectionConfig;
  doesSectionFormatHaveLeadingZeros :
    utils.t TDate Clock -> PickersTimezone -> FieldSectionContentType ->
    FieldSectionType -> string -> bool;
  cleanLeadingZeros : string -> nat -> string;
  applyLocalizedDigits : string -> list string -> string;
  removeLocalizedDigits : string -> list string -> string
}.
End fieldUtils.

(** [BuildSectionsFromFormatParams]. *)
Module Params.
Record t (TDate Clock : Type) : Type := {
  utils : utils.t TDate Clock;
  format : string;
  formatDensity : FormatDensity;
  isRTL : bool;
  timezone : PickersTimezone;
  shouldRespectLeadingZeros : bool;
  localeText : localeText.t;
  localizedDigits : list string;
  date : option TDate;
  enableAccessibleFieldDOMStructure : bool
}.
End Params.

(** ** Strings, the way the parser uses them *)

Definition isEmptyString (s : string) : bool :=
  match s with EmptyString => true | String _ _ => false end.

(** [char.match(/([A-Za-z]+)/)] on a one-character string. *)
Definition isLetter (c : ascii) : bool :=
  let n := nat_of_ascii c in
  (((65 <=? n) && (n <=? 90)) || ((97 <=? n) && (n <=? 122)))%nat.

(** [s.includes(c)] for a one-character needle. *)
Fixpoint includesChar (c : ascii) (s : string) : bool :=
  match s with
  | EmptyString => false
  | String c' s' => Ascii.eqb c c' || includesChar c s'
  end.

(** [s.split(' ')]: the pieces between the separators, empty ones kept. *)
Fixpoint split (sep : ascii) (s : string) : list string :=
  match s with
  | EmptyString => [""]
  | String c s' =>
      if Ascii.eqb c sep then "" :: split sep s'
      else match split sep s' with
           | [] => [String c ""]
           | piece :: pieces => String c piece :: pieces
           end
  end.

(** [pieces.join(' ')]. *)
Fixpoint join (sep : string) (pieces : list string) : string :=
  match pieces with
  | [] => ""
  | [piece] => piece
  | piece :: pieces' => piece ++ sep ++ join sep pieces'
  end.

(** ** expandFormat *)

Section Parser.
Variables TDate Clock : Type.
Variable helpers : fieldUtils.t TDate Clock.

(** The [while] loop of [expandFormat].  [formatExpansionOverflow] is the
    counter of the source on entry of the loop body: the body decrements it
    and throws when it gets below zero, that is, when it was [0] on entry. *)
Fixpoint expandFormat_loop (expand : string -> string)
    (formatExpansionOverflow : nat) (prevFormat nextFormat : string)
    : Result string :=
  if (nextFormat =? prevFormat)%string then Ok nextFormat
  else
    match formatExpansionOverflow with
    | O => Throw FormatExpansionOverflow
    | S overflow' =>
        expandFormat_loop expand overflow' nextFormat (expand nextFormat)
    end.

Definition expandFormat (params : Params.t TDate Clock) : Result string :=
  let expand := utils.expandFormat (Params.utils params) in
  expandFormat_loop expand 10 (Params.format params)
    (expand (Params.format params)).

(** ** getEscapedPartsFromFormat *)

(** The regular expression [(\start[^\end]*\end)+] matched at the head of
    [s]: the number of characters the longest match takes, if there is one.
    A group opens on the start marker, runs over every character that is
    not the end marker ([[^\end]*] cannot step over it) and closes on the
    end marker; [+] is greedy, so groups are taken as long as the next
    character opens one and the group closes.  [taken] counts the
    characters read so far and [best] is the length at the last closed
    group. *)
Fixpoint matchEscapedRun_from (startChar endChar : ascii) (inGroup : bool)
    (taken : nat) (best : option nat) (s : string) : option nat :=
  match s with
  | EmptyString => best
  | String c s' =>
      if inGroup then
        if Ascii.eqb c endChar
        then matchEscapedRun_from startChar endChar false (S taken)
               (Some (S taken)) s'
        else matchEscapedRun_from startChar endChar true (S taken) best s'
      else
        if Ascii.eqb c startChar
        then matchEscapedRun_from startChar endChar true (S taken) best s'
        else best
  end.

Definition matchEscapedRun (startChar endChar : ascii) (s : string)
    : option nat :=
  matchEscapedRun_from startChar endChar false 0 None s.

(** The [regExp.exec] loop: [index] is the position of the head of [s] in
    the format and [skip] the number of characters a match has yet to
    step over before the search resumes ([regExp.lastIndex]). *)
Fixpoint getEscapedParts_scan (startChar endChar : ascii)
    (skip index : nat) (s : string) : FormatEscapedParts :=
  match s with
  | EmptyString => []
  | String _ s' =>
      match skip with
      | S skip' => getEscapedParts_scan startChar endChar skip' (S index) s'
      | O =>
          match matchEscapedRun startChar endChar s with
          | Some len =>
              {| start := index; end_ := index + len - 1 |}
              :: getEscapedParts_scan startChar endChar (len - 1) (S index) s'
          | None => getEscapedParts_scan startChar endChar 0 (S index) s'
          end
      end
  end.

(** The escape markers are one character each and, once escaped by the
    backslash the source puts before them, stand for themselves in the
    regular expression (quotes or brackets in the adapters). *)
Definition getEscapedPartsFromFormat (params : Params.t TDate Clock)
    (expandedFormat : string) : FormatEscapedParts :=
  let '(startChar, endChar) := utils.escapedCharacters (Params.utils params) in
  getEscapedParts_scan startChar endChar 0 0 expandedFormat.

(** ** getSectionPlaceholder *)

Definition getSectionPlaceholder (clock : Clock)
    (utils : utils.t TDate Clock) (timezone : PickersTimezone)
    (localeText : localeText.t) (sectionConfig : SectionConfig)
    (sectionFormat : string) : string :=
  match cfg_type sectionConfig with
  | year =>
      localeText.fieldYearPlaceholder localeText
        (String.length
           (utils.formatByString utils
              (utils.date_undefined utils clock (Some timezone))
              sectionFormat))
        sectionFormat
  | month =>
      localeText.fieldMonthPlaceholder localeText
        (cfg_contentType sectionConfig) sectionFormat
  | day => localeText.fieldDayPlaceholder localeText sectionFormat
  | weekDay =>
      localeText.fieldWeekDayPlaceholder localeText
        (cfg_contentType sectionConfig) sectionFormat
  | hours => localeText.fieldHoursPlaceholder localeText sectionFormat
  | minutes => localeText.fieldMinutesPlaceholder localeText sectionFormat
  | seconds => localeText.fieldSecondsPlaceholder localeText sectionFormat
  | meridiem => localeText.fieldMeridiemPlaceholder localeText sectionFormat
  | empty => sectionFormat
  end.

(** ** createSection *)

Definition createSection (clock : Clock) (params : Params.t TDate Clock)
    (now : TDate) (token startSeparator : string) : Result FieldSection :=
  let utils := Params.utils params in
  if isEmptyString token then Throw EmptyToken
  else
    let sectionConfig :=
      fieldUtils.getDateSectionConfigFromFormatToken helpers utils token in
    let hasLeadingZerosInFormat :=
      fieldUtils.doesSectionFormatHaveLeadingZeros helpers utils
        (Params.timezone params) (cfg_contentType sectionConfig)
        (cfg_type sectionConfig) token in
    let hasLeadingZerosInInput :=
      if Params.shouldRespectLeadingZeros params
      then hasLeadingZerosInFormat
      else contentType_eqb (cfg_contentType sectionConfig) digit in
    let isValidDate :=
      match Params.date params with
      | Some date => utils.isValid utils date
      | None => false
      end in
    let sectionValue :=
      match Params.date params with
      | Some date =>
          if utils.isValid utils date
          then utils.formatByString utils date token
          else ""
      | None => ""
      end in
    let finish (maxLength : option nat) (sectionValue : string) :=
      Ok {| type := cfg_type sectionConfig;
            contentType := cfg_contentType sectionConfig;
            format := token;
            maxLength := maxLength;
            value := sectionValue;
            placeholder :=
              getSectionPlaceholder clock utils (Params.timezone params)
                (Params.localeText params) sectionConfig token;
            hasLeadingZerosInFormat := hasLeadingZerosInFormat;
            hasLeadingZerosInInput := hasLeadingZerosInInput;
            startSeparator := startSeparator;
            endSeparator := "";
            modified := false |} in
    if hasLeadingZerosInInput then
      if hasLeadingZerosInFormat then
        finish
          (Some (if isEmptyString sectionValue
                 then String.length (utils.formatByString utils now token)
                 else String.length sectionValue))
          sectionValue
      else
        match cfg_maxLength sectionConfig with
        | None => Throw (MissingMaxLength token)
        | Some maxLength =>
            finish (Some maxLength)
              (if isValidDate
               then
                 fieldUtils.applyLocalizedDigits helpers
                   (fieldUtils.cleanLeadingZeros helpers
                      (fieldUtils.removeLocalizedDigits helpers sectionValue
                         (Params.localizedDigits params))
                      maxLength)
                   (Params.localizedDigits params)
               else sectionValue)
        end
    else finish None sectionValue.

(** ** buildSections *)

(** [Object.keys(utils.formatTokenMap).sort((a, b) => b.length - a.length)]:
    a stable sort, longest token first. *)
Fixpoint insertByLength (token : string) (sorted : list string)
    : list string :=
  match sorted with
  | [] => [token]
  | t :: sorted' =>
      if (String.length t <? String.length token)%nat
      then token :: sorted
      else t :: insertByLength token sorted'
  end.

Definition sortLongestFirst (keys : list string) : list string :=
  fold_left (fun sorted token => insertByLength token sorted) keys [].

(** The alternatives of [isTokenStartRegExp], in the order the expression
    tries them.  The format tokens are words of letters, so each one stands
    for itself in the expression; with no token at all the group is empty
    and matches the empty word. *)
Definition tokenAlternatives (utils : utils.t TDate Clock) : list string :=
  match sortLongestFirst (utils.formatTokenMap_keys utils) with
  | [] => [""]
  | alternatives => alternatives
  end.

(** [isTokenStartRegExp.test(s)]: the answer and the new [lastIndex].  The
    expression is global, so the search starts at [lastIndex]; it is
    anchored by [^], so it can only match at position [0]: from any other
    [lastIndex] the test fails, and a failed test resets [lastIndex]. *)
Definition isTokenStartRegExp_test (alternatives : list string)
    (lastIndex : nat) (s : string) : bool * nat :=
  match lastIndex with
  | O =>
      match find (fun token => prefix token s) alternatives with
      | Some token => (true, String.length token)
      | None => (false, 0)
      end
  | S _ => (false, 0)
  end.

(** The variables the [for] loop of [buildSections] updates, and the
    [lastIndex] of [isTokenStartRegExp]. *)
Record LoopState : Type := {
  sections : list FieldSection;
  pendingStartSeparator : string;
  currentTokenValue : string;
  lastIndex : nat
}.

Definition appendToEndSeparator (char : ascii) (section : FieldSection)
    : FieldSection :=
  {| type := type section;
     contentType := contentType section;
     maxLength := maxLength section;
     format := format section;
     value := value section;
     placeholder := placeholder section;
     hasLeadingZerosInFormat := hasLeadingZerosInFormat section;
     hasLeadingZerosInInput := hasLeadingZerosInInput section;
     startSeparator := startSeparator section;
     endSeparator := endSeparator section ++ String char "";
     modified := modified section |}.

(** [sections[sections.length - 1].endSeparator += char]. *)
Fixpoint appendToLastEndSeparator (char : ascii)
    (sections : list FieldSection) : list FieldSection :=
  match sections with
  | [] => []
  | [section] => [appendToEndSeparator char section]
  | section :: sections' =>
      section :: appendToLastEndSeparator char sections'
  end.

Definition findEscapedPart (escapedParts : FormatEscapedParts) (i : nat)
    : option EscapedPart :=
  find (fun escapeIndex =>
          (start escapeIndex <=? i)%nat && (i <=? end_ escapeIndex)%nat)
       escapedParts.

(** The [for] loop.  [rest] is [expandedFormat.slice(i)]; [skip] counts the
    characters a token match jumps over ([i += lastIndex - 1]).  The answer
    is [None] when the loop never ends: a match of the empty word leaves
    [i] and every variable as they were. *)
Fixpoint buildSections_loop (clock : Clock) (params : Params.t TDate Clock)
    (now : TDate) (alternatives : list string)
    (escapedParts : FormatEscapedParts)
    (skip i : nat) (rest : string) (st : LoopState)
    : option (Result LoopState) :=
  match rest with
  | EmptyString => Some (Ok st)
  | String char rest' =>
      match skip with
      | S skip' =>
          buildSections_loop clock params now alternatives escapedParts
            skip' (S i) rest' st
      | O =>
          let escapedPartOfCurrentChar := findEscapedPart escapedParts i in
          let isEscapedChar :=
            match escapedPartOfCurrentChar with
            | Some _ => true
            | None => false
            end in
          let potentialToken := currentTokenValue st ++ rest in
          let '(regExpMatch, lastIndex') :=
            isTokenStartRegExp_test alternatives (lastIndex st)
              potentialToken in
          if negb isEscapedChar && isLetter char && regExpMatch then
            match lastIndex' with
            | O => None
            | S skip' =>
                buildSections_loop clock params now alternatives
                  escapedParts skip' (S i) rest'
                  {| sections := sections st;
                     pendingStartSeparator := pendingStartSeparator st;
                     currentTokenValue :=
                       substring 0 lastIndex' potentialToken;
                     lastIndex := lastIndex' |}
            end
          else
            let isEscapeBoundary :=
              match escapedPartOfCurrentChar with
              | Some part => (start part =? i)%nat || (end_ part =? i)%nat
              | None => false
              end in
            if isEscapeBoundary then
              buildSections_loop clock params now alternatives escapedParts
                0 (S i) rest'
                {| sections := sections st;
                   pendingStartSeparator := pendingStartSeparator st;
                   currentTokenValue := currentTokenValue st;
                   lastIndex := lastIndex' |}
            else
              let flushed :=
                if isEmptyString (currentTokenValue st)
                then Ok (sections st)
                else
                  match createSection clock params now
                          (currentTokenValue st) (pendingStartSeparator st)
                  with
                  | Ok section => Ok (sections st ++ [section])%list
                  | Throw e => Throw e
                  end in
              match flushed with
              | Throw e => Some (Throw e)
              | Ok sections' =>
                  buildSections_loop clock params now alternatives
                    escapedParts 0 (S i) rest'
                    (match sections' with
                     | [] =>
                         {| sections := [];
                            pendingStartSeparator :=
                              pendingStartSeparator st ++ String char "";
                            currentTokenValue := "";
                            lastIndex := lastIndex' |}
                     | _ :: _ =>
                         {| sections :=
                              appendToLastEndSeparator char sections';
                            pendingStartSeparator := "";
                            currentTokenValue := "";
                            lastIndex := lastIndex' |}
                     end)
              end
      end
  end.

(** The section pushed when the format holds no token. *)
Definition emptySection (startSeparator : string) : FieldSection :=
  {| type := empty;
     contentType := letter;
     maxLength := None;
     format := "";
     value := "";
     placeholder := "";
     hasLeadingZerosInFormat := false;
     hasLeadingZerosInInput := false;
     startSeparator := startSeparator;
     endSeparator := "";
     modified := false |}.

Definition buildSections (clock : Clock) (params : Params.t TDate Clock)
    (expandedFormat : string) (escapedParts : FormatEscapedParts)
    : option (Result (list FieldSection)) :=
  let utils := Params.utils params in
  let now := utils.date_undefined utils clock None in
  match
    buildSections_loop clock params now (tokenAlternatives utils)
      escapedParts 0 0 expandedFormat
      {| sections := [];
         pendingStartSeparator := "";
         currentTokenValue := "";
         lastIndex := 0 |}
  with
  | None => None
  | Some (Throw e) => Some (Throw e)
  | Some (Ok st) =>
      let pushed :=
        if isEmptyString (currentTokenValue st)
        then Ok (sections st)
        else
          match createSection clock params now (currentTokenValue st)
                  (pendingStartSeparator st)
          with
          | Ok section => Ok (sections st ++ [section])%list
          | Throw e => Throw e
          end in
      match pushed with
      | Throw e => Some (Throw e)
      | Ok [] =>
          if (0 <? String.length (pendingStartSeparator st))%nat
          then Some (Ok [emptySection (pendingStartSeparator st)])
          else Some (Ok [])
      | Ok sections' => Some (Ok sections')
      end
  end.

(** ** postProcessSections *)

(** The two isolation marks put around a separator in a right-to-left
    layout, U+2069 and U+2066, by their UTF-8 bytes. *)
Definition popDirectionalIsolate : string :=
  String (ascii_of_nat 226) (String (ascii_of_nat 129)
    (String (ascii_of_nat 169) "")).
Definition leftToRightIsolate : string :=
  String (ascii_of_nat 226) (String (ascii_of_nat 129)
    (String (ascii_of_nat 166) "")).

Definition cleanSeparator (isRTL : bool) (formatDensity : FormatDensity)
    (separator : string) : string :=
  let cleanedSeparator :=
    if isRTL && includesChar " "%char separator
    then popDirectionalIsolate ++ separator ++ leftToRightIsolate
    else separator in
  match formatDensity with
  | spacious =>
      if (cleanedSeparator =? "/") || (cleanedSeparator =? ".")
         || (cleanedSeparator =? "-")
      then " " ++ cleanedSeparator ++ " "
      else cleanedSeparator
  | dense => cleanedSeparator
  end.

Definition postProcessSections (params : Params.t TDate Clock)
    (sections : list FieldSection) : list FieldSection :=
  map (fun section =>
         let clean :=
           cleanSeparator (Params.isRTL params)
             (Params.formatDensity params) in
         {| type := type section;
            contentType := contentType section;
            maxLength := maxLength section;
            format := format section;
            value := value section;
            placeholder := placeholder section;
            hasLeadingZerosInFormat := hasLeadingZerosInFormat section;
            hasLeadingZerosInInput := hasLeadingZerosInInput section;
            startSeparator := clean (startSeparator section);
            endSeparator := clean (endSeparator section);
            modified := modified section |})
      sections.

(** ** buildSectionsFromFormat *)

(** [clock] is what the calls of [utils.date(undefined, ...)] made during
    the parse read. *)
Definition buildSectionsFromFormat (clock : Clock)
    (params : Params.t TDate Clock) : option (Result (list FieldSection)) :=
  match expandFormat params with
  | Throw e => Some (Throw e)
  | Ok expandedFormat0 =>
      let expandedFormat :=
        if Params.isRTL params
           && Params.enableAccessibleFieldDOMStructure params
        then join " " (rev (split " "%char expandedFormat0))
        else expandedFormat0 in
      let escapedParts := getEscapedPartsFromFormat params expandedFormat in
      match buildSections clock params expandedFormat escapedParts with
      | None => None
      | Some (Throw e) => Some (Throw e)
      | Some (Ok sections) => Some (Ok (postProcessSections params sections))
      end
  end.

End Parser.
End FormatParser.

(* ================================================================== *)
(** * Part I, continued. The parser and the objects it creates *)
(* ================================================================== *)

(** The parser once more, with the two [RegExp] objects it creates made
    explicit.  A [RegExp] object with the flag [g] keeps a [lastIndex]
    from one call of [exec] or [test] to the next; the objects that exist
    when the parser is called, left by earlier parses or by any other
    code, are handed to the run, which hands back the objects that exist
    when it ends. *)
Module ParserRun.
Import FormatParser.

(** The [RegExp] objects, in the order of their creation, each by its
    [lastIndex].  An object is named by its rank. *)
Definition RegExps : Type := list nat.
Definition RegExpRef : Type := nat.

(** [new RegExp(..., 'g')]: one more object, whose [lastIndex] is [0]. *)
Definition newRegExp (objects : RegExps) : RegExpRef * RegExps :=
  (List.length objects, (objects ++ [0%nat])%list).

(** [regExp.lastIndex]. *)
Definition lastIndexOf (objects : RegExps) (regExp : RegExpRef) : nat :=
  nth regExp objects 0%nat.

(** [regExp.lastIndex = lastIndex], as [exec] and [test] write it. *)
Fixpoint setLastIndex (objects : RegExps) (regExp : RegExpRef)
    (lastIndex : nat) : RegExps :=
  match objects, regExp with
  | [], _ => []
  | _ :: objects', O => lastIndex :: objects'
  | object :: objects', S regExp' =>
      object :: setLastIndex objects' regExp' lastIndex
  end.

(** The variables of the [for] loop of [buildSections]. *)
Record LoopVariables : Type := {
  sectionsVar : list FieldSection;
  startSeparatorVar : string;
  currentTokenValueVar : string
}.

Section Run.
Variables TDate Clock : Type.
Variable helpers : fieldUtils.t TDate Clock.

(** ** getEscapedPartsFromFormat *)

(** The search [exec] makes: the first position, from [lastIndex] on, at
    which the expression matches, with the length of the match.  [s] is
    the text from position [index] on. *)
Fixpoint searchEscapedRun (startChar endChar : ascii)
    (lastIndex index : nat) (s : string) : option (nat * nat) :=
  match s with
  | EmptyString => None
  | String _ s' =>
      if (index <? lastIndex)%nat
      then searchEscapedRun startChar endChar lastIndex (S index) s'
      else
        match matchEscapedRun startChar endChar s with
        | Some len => Some (index, len)
        | None => searchEscapedRun startChar endChar lastIndex (S index) s'
        end
  end.

(** [regExp.exec(expandedFormat)]: the index of the match, when there is
    one.  The search starts at the [lastIndex] of the object, which
    becomes the end of the match, or [0] when nothing matches. *)
Definition execEscapedRun (startChar endChar : ascii) (regExp : RegExpRef)
    (expandedFormat : string) (objects : RegExps) : option nat * RegExps :=
  match
    searchEscapedRun startChar endChar (lastIndexOf objects regExp) 0
      expandedFormat
  with
  | Some (index, len) =>
      (Some index, setLastIndex objects regExp (index + len))
  | None => (None, setLastIndex objects regExp 0)
  end.

(** The [while] loop; [turns] bounds the number of its turns, and the
    answer is [None] when the bound is met. *)
Fixpoint getEscapedParts_while (startChar endChar : ascii)
    (regExp : RegExpRef) (expandedFormat : string) (turns : nat)
    (escapedParts : FormatEscapedParts) (objects : RegExps)
    : option (FormatEscapedParts * RegExps) :=
  match turns with
  | O => None
  | S turns' =>
      match execEscapedRun startChar endChar regExp expandedFormat objects with
      | (Some index, objects') =>
          getEscapedParts_while startChar endChar regExp expandedFormat
            turns'
            (escapedParts
             ++ [{| start := index;
                    end_ := lastIndexOf objects' regExp - 1 |}])%list
            objects'
      | (None, objects') => Some (escapedParts, objects')
      end
  end.

(** Every match takes a character at least, so that the loop has fewer
    turns than the format has characters, plus the one that ends it. *)
Definition getEscapedPartsFromFormat (params : Params.t TDate Clock)
    (expandedFormat : string) (objects : RegExps)
    : option (FormatEscapedParts * RegExps) :=
  let '(startChar, endChar) := utils.escapedCharacters (Params.utils params) in
  let '(regExp, objects) := newRegExp objects in
  getEscapedParts_while startChar endChar regExp expandedFormat
    (S (String.length expandedFormat)) [] objects.

(** ** buildSections *)

(** [isTokenStartRegExp.test(s)]. *)
Definition testTokenStart (alternatives : list string) (regExp : RegExpRef)
    (s : string) (objects : RegExps) : bool * RegExps :=
  let '(regExpMatch, lastIndex') :=
    isTokenStartRegExp_test alternatives (lastIndexOf objects regExp) s in
  (regExpMatch, setLastIndex objects regExp lastIndex').

(** The [for] loop, as in [FormatParser.buildSections_loop], the
    [lastIndex] of [isTokenStartRegExp] being read from the object. *)
Fixpoint buildSections_loop (clock : Clock) (params : Params.t TDate Clock)
    (now : TDate) (alternatives : list string)
    (escapedParts : FormatEscapedParts) (isTokenStartRegExp : RegExpRef)
    (skip i : nat) (rest : string) (vars : LoopVariables)
    (objects : RegExps) : option (Result LoopVariables * RegExps) :=
  match rest with
  | EmptyString => Some (Ok vars, objects)
  | String char rest' =>
      match skip with
      | S skip' =>
          buildSections_loop clock params now alternatives escapedParts
            isTokenStartRegExp skip' (S i) rest' vars objects
      | O =>
          let escapedPartOfCurrentChar := findEscapedPart escapedParts i in
          let isEscapedChar :=
            match escapedPartOfCurrentChar with
            | Some _ => true
            | None => false
            end in
          let potentialToken := currentTokenValueVar vars ++ rest in
          let '(regExpMatch, objects') :=
            testTokenStart alternatives isTokenStartRegExp potentialToken
              objects in
          if negb isEscapedChar && isLetter char && regExpMatch then
            match lastIndexOf objects' isTokenStartRegExp with
            | O => None
            | S skip' =>
                buildSections_loop clock params now alternatives
                  escapedParts isTokenStartRegExp skip' (S i) rest'
                  {| sectionsVar := sectionsVar vars;
                     startSeparatorVar := startSeparatorVar vars;
                     currentTokenValueVar :=
                       substring 0 (lastIndexOf objects' isTokenStartRegExp)
                         potentialToken |}
                  objects'
            end
          else
            let isEscapeBoundary :=
              match escapedPartOfCurrentChar with
              | Some part => (start part =? i)%nat || (end_ part =? i)%nat
              | None => false
              end in
            if isEscapeBoundary then
              buildSections_loop clock params now alternatives escapedParts
                isTokenStartRegExp 0 (S i) rest' vars objects'
            else
              let flushed :=
                if isEmptyString (currentTokenValueVar vars)
                then Ok (sectionsVar vars)
                else
                  match createSection helpers clock params now
                          (currentTokenValueVar vars)
                          (startSeparatorVar vars)
                  with
                  | Ok section => Ok (sectionsVar vars ++ [section])%list
                  | Throw e => Throw e
                  end in
              match flushed with
              | Throw e => Some (Throw e, objects')
              | Ok sections' =>
                  buildSections_loop clock params now alternatives
                    escapedParts isTokenStartRegExp 0 (S i) rest'
                    (match sections' with
                     | [] =>
                         {| sectionsVar := [];
                            startSeparatorVar :=
                              startSeparatorVar vars ++ String char "";
                            currentTokenValueVar := "" |}
                     | _ :: _ =>
                         {| sectionsVar :=
                              appendToLastEndSeparator char sections';
                            startSeparatorVar := "";
                            currentTokenValueVar := "" |}
                     end)
                    objects'
              end
      end
  end.

Definition buildSections (clock : Clock) (params : Params.t TDate Clock)
    (expandedFormat : string) (escapedParts : FormatEscapedParts)
    (objects : RegExps) : option (Result (list FieldSection) * RegExps) :=
  let utils := Params.utils params in
  let now := utils.date_undefined utils clock None in
  let '(isTokenStartRegExp, objects) := newRegExp objects in
  match
    buildSections_loop clock params now (tokenAlternatives utils)
      escapedParts isTokenStartRegExp 0 0 expandedFormat
      {| sectionsVar := [];
         startSeparatorVar := "";
         currentTokenValueVar := "" |}
      objects
  with
  | None => None
  | Some (Throw e, objects') => Some (Throw e, objects')
  | Some (Ok vars, objects') =>
      let pushed :=
        if isEmptyString (currentTokenValueVar vars)
        then Ok (sectionsVar vars)
        else
          match createSection helpers clock params now
                  (currentTokenValueVar vars) (startSeparatorVar vars)
          with
          | Ok section => Ok (sectionsVar vars ++ [section])%list
          | Throw e => Throw e
          end in
      match pushed with
      | Throw e => Some (Throw e, objects')
      | Ok [] =>
          if (0 <? String.length (startSeparatorVar vars))%nat
          then Some (Ok [emptySection (startSeparatorVar vars)], objects')
          else Some (Ok [], objects')
      | Ok sections' => Some (Ok sections', objects')
      end
  end.

(** ** buildSectionsFromFormat *)

Definition buildSectionsFromFormat (clock : Clock)
    (params : Params.t TDate Clock) (objects : RegExps)
    : option (Result (list FieldSection) * RegExps) :=
  match expandFormat params with
  | Throw e => Some (Throw e, objects)
  | Ok expandedFormat0 =>
      let expandedFormat :=
        if Params.isRTL params
           && Params.enableAccessibleFieldDOMStructure params
        then join " " (rev (split " "%char expandedFormat0))
        else expandedFormat0 in
      match getEscapedPartsFromFormat params expandedFormat objects with
      | None => None
      | Some (escapedParts, objects') =>
          match
            buildSections clock params expandedFormat escapedParts objects'
          with
          | None => None
          | Some (Throw e, objects'') => Some (Throw e, objects'')
          | Some (Ok sections, objects'') =>
              Some (Ok (postProcessSections params sections), objects'')
          end
      end
  end.

(** Two parses, one after the other: the second is handed the objects
    the first leaves. *)
Definition parseTwice (clock1 : Clock) (params1 : Params.t TDate Clock)
    (clock2 : Clock) (params2 : Params.t TDate Clock) (objects : RegExps)
    : option (Result (list FieldSection) * RegExps) :=
  match buildSectionsFromFormat clock1 params1 objects with
  | None => None
  | Some (_, objects') => buildSectionsFromFormat clock2 params2 objects'
  end.

End Run.
End ParserRun.

(* ================================================================== *)
(** * Part II. The field state engine ([useFieldState.ts]) *)
(* ================================================================== *)

Module FieldState.

(** ** Data model *)

Inductive MuiDateSectionName : Type :=
| day | month | year | hour | minute | second | meridiem.

Definition MuiDateSectionName_eqb (a b : MuiDateSectionName) : bool :=
  match a, b with
  | day, day | month, month | year, year | hour, hour
  | minute, minute | second, second | meridiem, meridiem => true
  | _, _ => false
  end.

Inductive Meridiem : Type := AM | PM.

(** A section object ([TSection extends FieldSection]) as the hook sees it:
    the three properties the hook reads or writes, and [other] for the
    rest (format, separators, positions).  [dateSectionName] and [other]
    are [None] on an object that lacks them, as the one that
    [{...undefined, value, edited: true}] builds. *)
Record FieldSection (Other : Type) : Type := {
  dateSectionName : option MuiDateSectionName;
  value : string;
  edited : bool;
  other : option Other
}.

(** [FieldSelectedSectionsIndexes]. *)
Record FieldSelectedSectionsIndexes : Type := {
  startIndex : Z;
  endIndex : Z
}.

(** [FieldSelectedSections] without its [null], which is the [None] of an
    option: an index, the name of a section, or a range. *)
Inductive SelectedSections : Type :=
| SelectedIndex (index : Z)
| SelectedName (name : MuiDateSectionName)
| SelectedRange (range : FieldSelectedSectionsIndexes).

Definition FieldSelectedSections : Type := option SelectedSections.

(** [UseFieldState]. *)
Module State.
Record t (TValue Other Query : Type) : Type := {
  sections : list (FieldSection Other);
  value : TValue;
  referenceValue : TValue;
  tempValueStrAndroid : option string;
  selectedSectionQuery : option Query
}.
End State.

(** What the hook tells the outside. *)
Inductive Notification (TValue : Type) : Type :=
| OnChange (value : TValue)
| OnSelectedSectionsChange (newSelectedSections : FieldSelectedSections).
Arguments OnSelectedSectionsChange {TValue} newSelectedSections.

(** The errors thrown while the hook runs. *)
Inductive Exn : Type :=
| TypeError          (* a property read on [null] *)
| InvalidSections.   (* thrown by [validateSections] *)

(** ** External collaborators *)

(** The calendar adapter ([MuiPickerFieldAdapter]), restricted to the
    members the hook and [applySectionValueToDate] call.  [isValid] and
    the result of [parse] accept [null]. *)
Module utils.
Record t (TDate : Type) : Type := {
  isValid : option TDate -> bool;
  parse : string -> string -> option TDate;
  getYear : TDate -> Z;
  getMonth : TDate -> Z;
  getDate : TDate -> Z;
  getHours : TDate -> Z;
  getMinutes : TDate -> Z;
  getSeconds : TDate -> Z;
  setYear : TDate -> Z -> TDate;
  setMonth : TDate -> Z -> TDate;
  setDate : TDate -> Z -> TDate;
  setHours : TDate -> Z -> TDate;
  setMinutes : TDate -> Z -> TDate;
  setSeconds : TDate -> Z -> TDate
}.
End utils.

(** [valueManager]. *)
Module valueManager.
Record t (TValue : Type) : Type := {
  emptyValue : TValue;
  areValuesEqual : TValue -> TValue -> bool;
  getTodayValue : TValue
}.
End valueManager.

(** What [fieldValueManager.getActiveDateManager] returns.
    [getNewValueFromNewActiveDate] gives the [value] and the
    [referenceValue] of the state, in this order. *)
Module activeDateManager.
Record t (TValue TDate : Type) : Type := {
  activeDate : option TDate;
  referenceActiveDate : TDate;
  getNewValueFromNewActiveDate : option TDate -> TValue * TValue
}.
End activeDateManager.

(** [fieldValueManager].  The adapter it is given is the one of the hook
    and is left out of its functions. *)
Module fieldValueManager.
Record t (TValue TDate Other Query : Type) : Type := {
  getSectionsFromValue :
    option (list (FieldSection Other)) -> TValue -> string ->
    list (FieldSection Other);
  updateReferenceValue : TValue -> TValue -> TValue;
  getActiveDateManager :
    State.t TValue Other Query -> option (FieldSection Other) ->
    activeDateManager.t TValue TDate;
  getActiveDateSections :
    list (FieldSection Other) -> FieldSection Other ->
    list (FieldSection Other)
}.
End fieldValueManager.

(** The helpers imported from [useField.utils], whose code is not part of
    the files embedded here, but for [applySectionValueToDate], which is
    modelled below.  [addPositionPropertiesToSections] is given the array
    [setSectionValue] has written to: [None] is a hole of that array. *)
Module fieldUtils.
Record t (TDate Other Boundaries Supported : Type) : Type := {
  addPositionPropertiesToSections :
    list (option (FieldSection Other)) -> list (FieldSection Other);
  clampDaySection :
    utils.t TDate -> list (FieldSection Other) -> Boundaries -> string ->
    option (list (FieldSection Other));
  createDateStrFromSections : list (FieldSection Other) -> bool -> string;
  getSectionBoundaries : utils.t TDate -> Boundaries;
  validateSections : list (FieldSection Other) -> Supported -> bool
}.
End fieldUtils.

(** [UseFieldParams], with its [internalProps] flattened.  A callback
    that may be left out ([onChange?.(value)]) is the boolean that says
    whether it was given; [selectedSections] is [None] when the selection
    is not controlled from the outside. *)
Module Params.
Record t (TValue TDate Other Query Supported : Type) : Type := {
  valueManager : valueManager.t TValue;
  fieldValueManager : fieldValueManager.t TValue TDate Other Query;
  supportedDateSections : Supported;
  value : option TValue;
  defaultValue : option TValue;
  onChange : bool;
  format : string;
  selectedSections : option FieldSelectedSections;
  onSelectedSectionsChange : bool
}.
End Params.

(** [UpdateSectionValueParams]. *)
Module UpdateSectionValueParams.
Record t (TDate Other Boundaries : Type) : Type := {
  activeSection : FieldSection Other;
  setSectionValueOnDate : TDate -> Boundaries -> TDate;
  setSectionValueOnSections : Boundaries -> string
}.
End UpdateSectionValueParams.

(** ** What the hook keeps between two renders, and its effects *)

(** The memory of one instance of the hook: the [state] of [useState], the
    selection [useControlled] holds when it is not controlled, and the
    [firstDefaultValue] reference. *)
Module Hook.
Record t (TValue Other Query : Type) : Type := {
  state : State.t TValue Other Query;
  innerSelectedSections : FieldSelectedSections;
  firstDefaultValue : option TValue
}.
End Hook.

(** An event handler reads the hook as it was rendered and leaves updates
    behind: the memory of the hook once the queued [setState] updaters have
    run, in the order of the calls, and the notifications sent, oldest
    first. *)
Module World.
Record t (TValue Other Query : Type) : Type := {
  pending : Hook.t TValue Other Query;
  notifications : list (Notification TValue)
}.
End World.

Inductive Outcome (A : Type) : Type :=
| Returned (a : A)
| Thrown (e : Exn).
Arguments Returned {A} a.
Arguments Thrown {A} e.

Section Effects.
Variables TValue Other Query : Type.

Definition M (A : Type) : Type :=
  World.t TValue Other Query -> Outcome A * World.t TValue Other Query.

Definition ret {A : Type} (a : A) : M A := fun w => (Returned a, w).

Definition bind {A B : Type} (c : M A) (k : A -> M B) : M B :=
  fun w =>
    match c w with
    | (Returned a, w') => k a w'
    | (Thrown e, w') => (Thrown e, w')
    end.

Definition throw {A : Type} (e : Exn) : M A := fun w => (Thrown e, w).

(** [setState((prevState) => ...)]. *)
Definition setState
    (updater : State.t TValue Other Query -> State.t TValue Other Query)
    : M unit :=
  fun w =>
    (Returned tt,
     {| World.pending :=
          {| Hook.state := updater (Hook.state (World.pending w));
             Hook.innerSelectedSections :=
               Hook.innerSelectedSections (World.pending w);
             Hook.firstDefaultValue :=
               Hook.firstDefaultValue (World.pending w) |};
        World.notifications := World.notifications w |}).

(** The setter [useControlled] returns: it stores the selection unless the
    selection is controlled. *)
Definition innerSetSelectedSections (controlled : bool)
    (newSelectedSections : FieldSelectedSections) : M unit :=
  fun w =>
    (Returned tt,
     {| World.pending :=
          {| Hook.state := Hook.state (World.pending w);
             Hook.innerSelectedSections :=
               if controlled
               then Hook.innerSelectedSections (World.pending w)
               else newSelectedSections;
             Hook.firstDefaultValue :=
               Hook.firstDefaultValue (World.pending w) |};
        World.notifications := World.notifications w |}).

(** [callback?.(argument)]: the call of a callback that may be left out. *)
Definition notify (given : bool) (n : Notification TValue) : M unit :=
  fun w =>
    (Returned tt,
     {| World.pending := World.pending w;
        World.notifications :=
          if given then (World.notifications w ++ [n])%list
          else World.notifications w |}).

End Effects.

Arguments ret {TValue Other Query A} a.
Arguments throw {TValue Other Query A} e.
Arguments bind {TValue Other Query A B} c k.

Notation "x <- c ;; k" := (bind c (fun x => k))
  (at level 61, c at next level, right associativity).
Notation "c ;;; k" := (bind c (fun _ => k))
  (at level 61, right associativity).

(** ** JavaScript arrays *)

(** The greatest index of an array: an integer from [0] to [2^32 - 2]
    names an element, and any other number names a property that is no
    element of the array. *)
Definition maxArrayIndex : Z := 4294967294.

Definition isArrayIndex (index : Z) : bool :=
  ((0 <=? index) && (index <=? maxArrayIndex))%Z.

(** [array[index]]: [undefined] outside of the array. *)
Definition arrayGet {A : Type} (array : list A) (index : Z) : option A :=
  if isArrayIndex index then nth_error array (Z.to_nat index) else None.

(** [array[index] = x] at an array index: past the end the array grows,
    with holes up to the index. *)
Fixpoint arraySet_at {A : Type} (array : list (option A)) (index : nat)
    (x : A) : list (option A) :=
  match index, array with
  | O, [] => [Some x]
  | O, _ :: array' => Some x :: array'
  | S index', [] => None :: arraySet_at [] index' x
  | S index', y :: array' => y :: arraySet_at array' index' x
  end.

(** [array[index] = x] on a copy of [array].  A number that is no array
    index, a negative one or one past [2^32 - 2], names a property that is
    no element of the array: the elements and the length stay. *)
Definition arraySet {A : Type} (array : list A) (index : Z) (x : A)
    : list (option A) :=
  if isArrayIndex index
  then arraySet_at (map Some array) (Z.to_nat index) x
  else map Some array.

(** [array.findIndex(f)]: [-1] when no element satisfies [f]. *)
Fixpoint findIndex_from {A : Type} (f : A -> bool) (array : list A)
    (index : Z) : Z :=
  match array with
  | [] => (-1)%Z
  | x :: array' =>
      if f x then index else findIndex_from f array' (index + 1)%Z
  end.

Definition findIndex {A : Type} (f : A -> bool) (array : list A) : Z :=
  findIndex_from f array 0%Z.

(** ** applySectionValueToDate *)

Section ApplySectionValueToDate.
Variable TDate : Type.
Variable utils : utils.t TDate.

(** Modelled from the spec: [applySectionValueToDate] of [useField.utils],
    whose code is not part of the files embedded here.  It writes onto
    [date] the component the section stands for: the year, month, day,
    hour, minute or second that [getNumericSectionValue] reads with the
    getter of that component, or the half of the day that
    [getMeridiemSectionValue] names, the hour being compared against 12.
    A name it does not know leaves the date as it is. *)
Definition applySectionValueToDate (date : TDate)
    (dateSectionName : option MuiDateSectionName)
    (getNumericSectionValue : (TDate -> Z) -> Z)
    (getMeridiemSectionValue : unit -> Meridiem) : TDate :=
  match dateSectionName with
  | Some day =>
      utils.setDate utils date (getNumericSectionValue (utils.getDate utils))
  | Some month =>
      utils.setMonth utils date
        (getNumericSectionValue (utils.getMonth utils))
  | Some year =>
      utils.setYear utils date (getNumericSectionValue (utils.getYear utils))
  | Some hour =>
      utils.setHours utils date
        (getNumericSectionValue (utils.getHours utils))
  | Some minute =>
      utils.setMinutes utils date
        (getNumericSectionValue (utils.getMinutes utils))
  | Some second =>
      utils.setSeconds utils date
        (getNumericSectionValue (utils.getSeconds utils))
  | Some meridiem =>
      let hours := utils.getHours utils date in
      match getMeridiemSectionValue tt with
      | AM =>
          if (12 <=? hours)%Z then utils.setHours utils date (hours - 12)%Z
          else date
      | PM =>
          if (hours <? 12)%Z then utils.setHours utils date (hours + 12)%Z
          else date
      end
  | None => date
  end.

End ApplySectionValueToDate.

(** ** useFieldState *)

Section UseFieldState.
Variables TValue TDate Other Query Boundaries Supported : Type.

(** [useUtils()], the imports from [useField.utils], the parameters of the
    hook, and the hook as it was rendered. *)
Variable utils : utils.t TDate.
Variable helpers : fieldUtils.t TDate Other Boundaries Supported.
Variable params : Params.t TValue TDate Other Query Supported.
Variable hook : Hook.t TValue Other Query.

Let valueManager := Params.valueManager params.
Let fieldValueManager := Params.fieldValueManager params.
Let format := Params.format params.
Let state := Hook.state hook.

(** [valueProp ?? firstDefaultValue.current ?? valueManager.emptyValue]. *)
Definition valueFromTheOutside : TValue :=
  match Params.value params with
  | Some valueProp => valueProp
  | None =>
      match Hook.firstDefaultValue hook with
      | Some defaultValue => defaultValue
      | None => valueManager.emptyValue valueManager
      end
  end.

Definition boundaries : Boundaries :=
  fieldUtils.getSectionBoundaries helpers utils.

(** The initializer of [useState]. *)
Definition initialState : Outcome (State.t TValue Other Query) :=
  let sections :=
    fieldValueManager.getSectionsFromValue fieldValueManager None
      valueFromTheOutside format in
  if fieldUtils.validateSections helpers sections
       (Params.supportedDateSections params)
  then
    Returned
      {| State.sections := sections;
         State.value := valueFromTheOutside;
         State.referenceValue :=
           fieldValueManager.updateReferenceValue fieldValueManager
             valueFromTheOutside
             (valueManager.getTodayValue valueManager);
         State.tempValueStrAndroid := None;
         State.selectedSectionQuery := None |}
  else Thrown InvalidSections.

(** The selection [useControlled] gives: the one of the parameters when
    it is controlled, the one the hook holds otherwise. *)
Definition selectedSections : FieldSelectedSections :=
  match Params.selectedSections params with
  | Some selectedSectionsProp => selectedSectionsProp
  | None => Hook.innerSelectedSections hook
  end.

Definition selectedSectionsControlled : bool :=
  match Params.selectedSections params with
  | Some _ => true
  | None => false
  end.

Definition hasDateSectionName (name : MuiDateSectionName)
    (section : FieldSection Other) : bool :=
  match dateSectionName section with
  | Some name' => MuiDateSectionName_eqb name' name
  | None => false
  end.

Definition selectedSectionIndexes : option FieldSelectedSectionsIndexes :=
  match selectedSections with
  | None => None
  | Some (SelectedIndex index) =>
      Some {| startIndex := index; endIndex := index |}
  | Some (SelectedName name) =>
      let selectedSectionIndex :=
        findIndex (hasDateSectionName name) (State.sections state) in
      Some {| startIndex := selectedSectionIndex;
              endIndex := selectedSectionIndex |}
  | Some (SelectedRange range) => Some range
  end.

Definition setSelectedSections (newSelectedSections : FieldSelectedSections)
    : M TValue Other Query unit :=
  innerSetSelectedSections selectedSectionsControlled newSelectedSections ;;;
  notify (Params.onSelectedSectionsChange params)
    (OnSelectedSectionsChange newSelectedSections) ;;;
  setState (fun prevState =>
    {| State.sections := State.sections prevState;
       State.value := State.value prevState;
       State.referenceValue := State.referenceValue prevState;
       State.tempValueStrAndroid := State.tempValueStrAndroid prevState;
       State.selectedSectionQuery := None |}).

(** [publishValue({ value, referenceValue })]. *)
Definition publishValue (newValue : TValue * TValue)
    : M TValue Other Query unit :=
  let '(value, referenceValue) := newValue in
  let newSections :=
    fieldValueManager.getSectionsFromValue fieldValueManager
      (Some (State.sections state)) value format in
  setState (fun prevState =>
    {| State.sections := newSections;
       State.value := value;
       State.referenceValue := referenceValue;
       State.tempValueStrAndroid := None;
       State.selectedSectionQuery := State.selectedSectionQuery prevState |})
  ;;;
  notify (Params.onChange params) (OnChange value).

(** [{ ...section, value: newSectionValue, edited: true }], where
    [section] may be [undefined]. *)
Definition withEditedValue (section : option (FieldSection Other))
    (newSectionValue : string) : FieldSection Other :=
  match section with
  | Some section =>
      {| dateSectionName := dateSectionName section;
         value := newSectionValue;
         edited := true;
         other := other section |}
  | None =>
      {| dateSectionName := None;
         value := newSectionValue;
         edited := true;
         other := None |}
  end.

Definition setSectionValue (sectionIndex : Z) (newSectionValue : string)
    : list (FieldSection Other) :=
  fieldUtils.addPositionPropertiesToSections helpers
    (arraySet (State.sections state) sectionIndex
       (withEditedValue (arrayGet (State.sections state) sectionIndex)
          newSectionValue)).

Definition clearValue : M TValue Other Query unit :=
  publishValue
    (valueManager.emptyValue valueManager, State.referenceValue state).

Definition clearActiveSection : M TValue Other Query unit :=
  match selectedSectionIndexes with
  | None => ret tt
  | Some indexes =>
      let activeSection :=
        arrayGet (State.sections state) (startIndex indexes) in
      let activeDateManager :=
        fieldValueManager.getActiveDateManager fieldValueManager state
          activeSection in
      let newSections := setSectionValue (startIndex indexes) "" in
      let '(value, referenceValue) :=
        activeDateManager.getNewValueFromNewActiveDate activeDateManager
          None in
      setState (fun prevState =>
        {| State.sections := newSections;
           State.value := value;
           State.referenceValue := referenceValue;
           State.tempValueStrAndroid := State.tempValueStrAndroid prevState;
           State.selectedSectionQuery :=
             State.selectedSectionQuery prevState |})
  end.

(** *** updateSectionValue *)

Definition hasNonEmptyValue (section : FieldSection Other) : bool :=
  negb (value section =? "").

(** The test that guards the day clamp: the date is not valid, every
    section is filled and one of them is the day. *)
Definition dayClampApplies (newDate : option TDate)
    (activeDateSections : list (FieldSection Other)) : bool :=
  negb (utils.isValid utils newDate)
  && forallb hasNonEmptyValue activeDateSections
  && existsb (hasDateSectionName day) activeDateSections.

(** [newDate] once the day clamp has been tried. *)
Definition candidateDate (activeDateSections : list (FieldSection Other))
    : option TDate :=
  let newDate :=
    utils.parse utils
      (fieldUtils.createDateStrFromSections helpers activeDateSections false)
      format in
  if dayClampApplies newDate activeDateSections then
    match
      fieldUtils.clampDaySection helpers utils activeDateSections boundaries
        format
    with
    | Some cleanSections =>
        utils.parse utils
          (fieldUtils.createDateStrFromSections helpers cleanSections false)
          format
    | None => newDate
    end
  else newDate.

(** One turn of the [forEach] that builds [mergedDate]. *)
Definition mergeSection (newDate : TDate) (mergedDate : TDate)
    (section : FieldSection Other) : TDate :=
  if edited section then
    applySectionValueToDate utils mergedDate (dateSectionName section)
      (fun getter => getter newDate)
      (fun _ =>
         if (utils.getHours utils mergedDate <? 12)%Z then AM else PM)
  else mergedDate.

Definition mergeDate (referenceActiveDate newDate : TDate)
    (activeDateSections : list (FieldSection Other)) : TDate :=
  fold_left (mergeSection newDate) activeDateSections referenceActiveDate.

Definition updateSectionValue
    (args : UpdateSectionValueParams.t TDate Other Boundaries)
    : M TValue Other Query unit :=
  let activeSection := UpdateSectionValueParams.activeSection args in
  let activeDateManager :=
    fieldValueManager.getActiveDateManager fieldValueManager state
      (Some activeSection) in
  match selectedSectionIndexes with
  | Some indexes =>
      if negb (startIndex indexes =? endIndex indexes)%Z
      then setSelectedSections (Some (SelectedIndex (startIndex indexes)))
      else ret tt
  | None => ret tt
  end ;;;
  let invalidDate : M TValue Other Query unit :=
    let newSectionValue :=
      UpdateSectionValueParams.setSectionValueOnSections args boundaries in
    match selectedSectionIndexes with
    | None => throw TypeError
    | Some indexes =>
        let newSections :=
          setSectionValue (startIndex indexes) newSectionValue in
        let activeDateSections :=
          fieldValueManager.getActiveDateSections fieldValueManager
            newSections activeSection in
        let newDate := candidateDate activeDateSections in
        let keepEditing : M TValue Other Query unit :=
          let '(value, referenceValue) :=
            activeDateManager.getNewValueFromNewActiveDate activeDateManager
              newDate in
          setState (fun prevState =>
            {| State.sections := newSections;
               State.value := value;
               State.referenceValue := referenceValue;
               State.tempValueStrAndroid := None;
               State.selectedSectionQuery :=
                 State.selectedSectionQuery prevState |}) in
        match newDate with
        | Some date =>
            if utils.isValid utils (Some date) then
              let mergedDate :=
                mergeDate
                  (activeDateManager.referenceActiveDate activeDateManager)
                  date activeDateSections in
              publishValue
                (activeDateManager.getNewValueFromNewActiveDate
                   activeDateManager (Some mergedDate))
            else keepEditing
        | None => keepEditing
        end
    end in
  match activeDateManager.activeDate activeDateManager with
  | Some activeDate =>
      if utils.isValid utils (Some activeDate) then
        let newDate :=
          UpdateSectionValueParams.setSectionValueOnDate args activeDate
            boundaries in
        publishValue
          (activeDateManager.getNewValueFromNewActiveDate activeDateManager
             (Some newDate))
      else invalidDate
  | None => invalidDate
  end.

Definition setTempAndroidValueStr (tempValueStrAndroid : string)
    : M TValue Other Query unit :=
  setState (fun prev =>
    {| State.sections := State.sections prev;
       State.value := State.value prev;
       State.referenceValue := State.referenceValue prev;
       State.tempValueStrAndroid := Some tempValueStrAndroid;
       State.selectedSectionQuery := State.selectedSectionQuery prev |}).

(** *** The two effects *)

(** The effect that follows [valueFromTheOutside]. *)
Definition syncValueFromTheOutside : M TValue Other Query unit :=
  if negb (valueManager.areValuesEqual valueManager (State.value state)
             valueFromTheOutside)
  then
    let sections :=
      fieldValueManager.getSectionsFromValue fieldValueManager
        (Some (State.sections state)) valueFromTheOutside format in
    setState (fun prevState =>
      {| State.sections := sections;
         State.value := valueFromTheOutside;
         State.referenceValue :=
           fieldValueManager.updateReferenceValue fieldValueManager
             valueFromTheOutside (State.referenceValue prevState);
         State.tempValueStrAndroid := State.tempValueStrAndroid prevState;
         State.selectedSectionQuery :=
           State.selectedSectionQuery prevState |})
  else ret tt.

(** The effect that follows [format]. *)
Definition syncFormat : M TValue Other Query unit :=
  let sections :=
    fieldValueManager.getSectionsFromValue fieldValueManager
      (Some (State.sections state)) (State.value state) format in
  if fieldUtils.validateSections helpers sections
       (Params.supportedDateSections params)
  then
    setState (fun prevState =>
      {| State.sections := sections;
         State.value := State.value prevState;
         State.referenceValue := State.referenceValue prevState;
         State.tempValueStrAndroid := State.tempValueStrAndroid prevState;
         State.selectedSectionQuery :=
           State.selectedSectionQuery prevState |})
  else throw InvalidSections.

(** *** Running the hook *)

(** Whatever may happen to a rendered hook: a call of one of the functions
    it returns, or one of its effects. *)
Inductive Action : Type :=
| SetSelectedSections (newSelectedSections : FieldSelectedSections)
| ClearValue
| ClearActiveSection
| UpdateSectionValue
    (args : UpdateSectionValueParams.t TDate Other Boundaries)
| SetTempAndroidValueStr (tempValueStrAndroid : string)
| SyncValueFromTheOutside
| SyncFormat.

Definition perform (action : Action) : M TValue Other Query unit :=
  match action with
  | SetSelectedSections newSelectedSections =>
      setSelectedSections newSelectedSections
  | ClearValue => clearValue
  | ClearActiveSection => clearActiveSection
  | UpdateSectionValue args => updateSectionValue args
  | SetTempAndroidValueStr tempValueStrAndroid =>
      setTempAndroidValueStr tempValueStrAndroid
  | SyncValueFromTheOutside => syncValueFromTheOutside
  | SyncFormat => syncFormat
  end.

(** An action on the hook as it was rendered: nothing is queued and
    nothing was sent when it starts. *)
Definition run {A : Type} (c : M TValue Other Query A)
    : Outcome A * World.t TValue Other Query :=
  c {| World.pending := hook; World.notifications := [] |}.

End UseFieldState.
End FieldState.

(* ================================================================== *)
(** * Part III. A plain calendar, to run the two parts on *)
(* ================================================================== *)

(** The adapter, the value managers and the helpers of [useField.utils] are
    parameters of the two embeddings.  This module gives each of them one
    small instance, a field for one date written [MM/dd/yyyy] or
    [hh:mm aa], on which the examples below are evaluated. *)
Module PlainCalendar.

(** ** Dates *)

(** A date is its six components; nothing forces them to name a day of the
    calendar, [isValid] tells. *)
Record PlainDate : Type := {
  pd_year : Z;
  pd_month : Z;
  pd_day : Z;
  pd_hours : Z;
  pd_minutes : Z;
  pd_seconds : Z
}.

Definition isLeapYear (y : Z) : bool :=
  ((y mod 4 =? 0) && negb (y mod 100 =? 0) || (y mod 400 =? 0))%Z.

Definition daysInMonth (y m : Z) : Z :=
  if (m =? 2)%Z then (if isLeapYear y then 29 else 28)%Z
  else if ((m =? 4) || (m =? 6) || (m =? 9) || (m =? 11))%Z then 30%Z
  else 31%Z.

Definition isValidDate (d : PlainDate) : bool :=
  ((1 <=? pd_month d) && (pd_month d <=? 12)
   && (1 <=? pd_day d) && (pd_day d <=? daysInMonth (pd_year d) (pd_month d))
   && (0 <=? pd_hours d) && (pd_hours d <=? 23)
   && (0 <=? pd_minutes d) && (pd_minutes d <=? 59)
   && (0 <=? pd_seconds d) && (pd_seconds d <=? 59))%Z.

(** ** Numbers and text *)

Definition digitOfChar (c : ascii) : option Z :=
  let n := nat_of_ascii c in
  if ((48 <=? n) && (n <=? 57))%nat then Some (Z.of_nat (n - 48)) else None.

Definition charOfDigit (d : Z) : ascii :=
  ascii_of_nat (48 + Z.to_nat (d mod 10)).

(** The last [width] decimal digits of [n]. *)
Fixpoint digits (width : nat) (n : Z) : string :=
  match width with
  | O => ""
  | S width' => digits width' (n / 10) ++ String (charOfDigit n) ""
  end.

Fixpoint numberOfString_from (acc : Z) (s : string) : option Z :=
  match s with
  | EmptyString => Some acc
  | String c s' =>
      match digitOfChar c with
      | Some d => numberOfString_from (acc * 10 + d) s'
      | None => None
      end
  end.

Definition numberOfString (s : string) : option Z :=
  match s with
  | EmptyString => None
  | _ => numberOfString_from 0 s
  end.

(** The components read so far while a text is parsed. *)
Record Parsed : Type := {
  p_year : option Z;
  p_month : option Z;
  p_day : option Z;
  p_hours : option Z;
  p_minutes : option Z;
  p_afternoon : bool
}.

Definition pushDigit (acc : option Z) (d : Z) : option Z :=
  match acc with
  | Some n => Some (n * 10 + d)%Z
  | None => Some d
  end.

(** The component a letter of a format stands for. *)
Inductive Letter : Type := Ly | LM | Ld | Lh | Lm.

Definition letterOfChar (f : ascii) : option Letter :=
  if Ascii.eqb f "y" then Some Ly
  else if Ascii.eqb f "M" then Some LM
  else if Ascii.eqb f "d" then Some Ld
  else if Ascii.eqb f "h" then Some Lh
  else if Ascii.eqb f "m" then Some Lm
  else None.

Definition pushLetter (acc : Parsed) (l : Letter) (d : Z) : Parsed :=
  {| p_year := match l with Ly => pushDigit (p_year acc) d | _ => p_year acc end;
     p_month :=
       match l with LM => pushDigit (p_month acc) d | _ => p_month acc end;
     p_day := match l with Ld => pushDigit (p_day acc) d | _ => p_day acc end;
     p_hours :=
       match l with Lh => pushDigit (p_hours acc) d | _ => p_hours acc end;
     p_minutes :=
       match l with Lm => pushDigit (p_minutes acc) d | _ => p_minutes acc end;
     p_afternoon := p_afternoon acc |}.

(** [text] read against [format], one character for one character: [y],
    [M], [d], [h] and [m] stand for a digit of the year, the month, the
    day, the hour on the dial and the minute, [aa] for [AM] or [PM], and
    any other character for itself. *)
Fixpoint parse_from (acc : Parsed) (text format : string) : option Parsed :=
  match format, text with
  | EmptyString, EmptyString => Some acc
  | String f format', String c text' =>
      match letterOfChar f with
      | Some l =>
          match digitOfChar c with
          | Some d => parse_from (pushLetter acc l d) text' format'
          | None => None
          end
      | None =>
          if Ascii.eqb f "a" then
            if Ascii.eqb c "P" then
              parse_from {| p_year := p_year acc; p_month := p_month acc;
                            p_day := p_day acc; p_hours := p_hours acc;
                            p_minutes := p_minutes acc;
                            p_afternoon := true |} text' format'
            else if Ascii.eqb c "A" || Ascii.eqb c "M"
            then parse_from acc text' format'
            else None
          else if Ascii.eqb f c then parse_from acc text' format'
          else None
      end
  | _, _ => None
  end.

Definition orDefault (default : Z) (n : option Z) : Z :=
  match n with Some n => n | None => default end.

(** [null] for a text that does not fit the format, and a date, valid or
    not, for one that does. *)
Definition parse (text format : string) : option PlainDate :=
  match
    parse_from {| p_year := None; p_month := None; p_day := None;
                  p_hours := None; p_minutes := None;
                  p_afternoon := false |}
      text format
  with
  | Some parsed =>
      Some {| pd_year := orDefault 1970 (p_year parsed);
              pd_month := orDefault 1 (p_month parsed);
              pd_day := orDefault 1 (p_day parsed);
              pd_hours :=
                match p_hours parsed with
                | Some h =>
                    (h mod 12 + (if p_afternoon parsed then 12 else 0))%Z
                | None => 0%Z
                end;
              pd_minutes := orDefault 0 (p_minutes parsed);
              pd_seconds := 0 |}
  | None => None
  end.

(** ** The adapter *)

Definition utils : FieldState.utils.t PlainDate := {|
  FieldState.utils.isValid := fun date =>
    match date with Some d => isValidDate d | None => false end;
  FieldState.utils.parse := parse;
  FieldState.utils.getYear := pd_year;
  FieldState.utils.getMonth := pd_month;
  FieldState.utils.getDate := pd_day;
  FieldState.utils.getHours := pd_hours;
  FieldState.utils.getMinutes := pd_minutes;
  FieldState.utils.getSeconds := pd_seconds;
  FieldState.utils.setYear := fun d v =>
    {| pd_year := v; pd_month := pd_month d; pd_day := pd_day d;
       pd_hours := pd_hours d; pd_minutes := pd_minutes d;
       pd_seconds := pd_seconds d |};
  FieldState.utils.setMonth := fun d v =>
    {| pd_year := pd_year d; pd_month := v; pd_day := pd_day d;
       pd_hours := pd_hours d; pd_minutes := pd_minutes d;
       pd_seconds := pd_seconds d |};
  FieldState.utils.setDate := fun d v =>
    {| pd_year := pd_year d; pd_month := pd_month d; pd_day := v;
       pd_hours := pd_hours d; pd_minutes := pd_minutes d;
       pd_seconds := pd_seconds d |};
  FieldState.utils.setHours := fun d v =>
    {| pd_year := pd_year d; pd_month := pd_month d; pd_day := pd_day d;
       pd_hours := v; pd_minutes := pd_minutes d;
       pd_seconds := pd_seconds d |};
  FieldState.utils.setMinutes := fun d v =>
    {| pd_year := pd_year d; pd_month := pd_month d; pd_day := pd_day d;
       pd_hours := pd_hours d; pd_minutes := v;
       pd_seconds := pd_seconds d |};
  FieldState.utils.setSeconds := fun d v =>
    {| pd_year := pd_year d; pd_month := pd_month d; pd_day := pd_day d;
       pd_hours := pd_hours d; pd_minutes := pd_minutes d;
       pd_seconds := v |}
|}.

(** An adapter that keeps to the calendar, as the setters of the date
    libraries do: when a month or a year is written on a date whose day
    the new month does not have, the day becomes the last day of that
    month.  The getters, the other setters, [parse] and [isValid] are the
    ones of [utils]. *)
Definition clampDay (y m d : Z) : Z := Z.min d (daysInMonth y m).

Definition calendarUtils : FieldState.utils.t PlainDate := {|
  FieldState.utils.isValid := FieldState.utils.isValid utils;
  FieldState.utils.parse := FieldState.utils.parse utils;
  FieldState.utils.getYear := pd_year;
  FieldState.utils.getMonth := pd_month;
  FieldState.utils.getDate := pd_day;
  FieldState.utils.getHours := pd_hours;
  FieldState.utils.getMinutes := pd_minutes;
  FieldState.utils.getSeconds := pd_seconds;
  FieldState.utils.setYear := fun d v =>
    {| pd_year := v; pd_month := pd_month d;
       pd_day := clampDay v (pd_month d) (pd_day d);
       pd_hours := pd_hours d; pd_minutes := pd_minutes d;
       pd_seconds := pd_seconds d |};
  FieldState.utils.setMonth := fun d v =>
    {| pd_year := pd_year d; pd_month := v;
       pd_day := clampDay (pd_year d) v (pd_day d);
       pd_hours := pd_hours d; pd_minutes := pd_minutes d;
       pd_seconds := pd_seconds d |};
  FieldState.utils.setDate := FieldState.utils.setDate utils;
  FieldState.utils.setHours := FieldState.utils.setHours utils;
  FieldState.utils.setMinutes := FieldState.utils.setMinutes utils;
  FieldState.utils.setSeconds := FieldState.utils.setSeconds utils
|}.

(** ** The sections of a field *)

(** What a section has besides its name, value and [edited] mark: the text
    that follows it. *)
Definition Separator : Type := string.

Definition section (name : FieldState.MuiDateSectionName) (value : string)
    (edited : bool) (separator : Separator)
    : FieldState.FieldSection Separator :=
  {| FieldState.dateSectionName := Some name;
     FieldState.value := value;
     FieldState.edited := edited;
     FieldState.other := Some separator |}.

(** The sections of the two formats of the examples. *)
Definition layout (format : string)
    : list (FieldState.MuiDateSectionName * Separator) :=
  if format =? "hh:mm aa"
  then [(FieldState.hour, ":"); (FieldState.minute, " ");
        (FieldState.meridiem, "")]
  else [(FieldState.month, "/"); (FieldState.day, "/");
        (FieldState.year, "")].

Definition formatComponent (name : FieldState.MuiDateSectionName)
    (d : PlainDate) : string :=
  match name with
  | FieldState.year => digits 4 (pd_year d)
  | FieldState.month => digits 2 (pd_month d)
  | FieldState.day => digits 2 (pd_day d)
  | FieldState.hour =>
      digits 2 (if (pd_hours d mod 12 =? 0)%Z then 12 else pd_hours d mod 12)
  | FieldState.minute => digits 2 (pd_minutes d)
  | FieldState.second => digits 2 (pd_seconds d)
  | FieldState.meridiem => if (pd_hours d <? 12)%Z then "AM" else "PM"
  end.

(** ** The helpers of [useField.utils] *)

(** Modelled from the spec: [createDateStrFromSections], the concatenation
    of the sections of one date, each with the text that follows it. *)
Definition createDateStrFromSections
    (sections : list (FieldState.FieldSection Separator))
    (willBeRenderedInInput : bool) : string :=
  String.concat ""
    (map (fun s =>
            FieldState.value s
            ++ match FieldState.other s with
               | Some separator => separator
               | None => ""
               end)
       sections).

(** The boundaries the examples need: the last day of a month. *)
Definition Boundaries : Type := Z -> Z -> Z.

Definition isDaySection (s : FieldState.FieldSection Separator) : bool :=
  match FieldState.dateSectionName s with
  | Some FieldState.day => true
  | _ => false
  end.

(** Modelled from the spec: [clampDaySection].  The sections are read as a
    date with the day set to the first of the month; when that date is
    valid, a day past the maximum the boundaries give for its month and
    year is forced down to this maximum. *)
Definition clampDaySection (utils : FieldState.utils.t PlainDate)
    (sections : list (FieldState.FieldSection Separator))
    (boundaries : Boundaries) (format : string)
    : option (list (FieldState.FieldSection Separator)) :=
  let firstOfMonth :=
    map (fun s =>
           if isDaySection s
           then section FieldState.day "01" (FieldState.edited s)
                  (match FieldState.other s with
                   | Some separator => separator
                   | None => ""
                   end)
           else s)
      sections in
  match
    FieldState.utils.parse utils
      (createDateStrFromSections firstOfMonth false) format
  with
  | Some date =>
      if FieldState.utils.isValid utils (Some date) then
        let maximum :=
          boundaries (FieldState.utils.getYear utils date)
            (FieldState.utils.getMonth utils date) in
        Some
          (map (fun s =>
                  if isDaySection s then
                    match numberOfString (FieldState.value s) with
                    | Some n =>
                        if (maximum <? n)%Z
                        then
                          {| FieldState.dateSectionName :=
                               FieldState.dateSectionName s;
                             FieldState.value := digits 2 maximum;
                             FieldState.edited := FieldState.edited s;
                             FieldState.other := FieldState.other s |}
                        else s
                    | None => s
                    end
                  else s)
             sections)
      else None
  | None => None
  end.

(** The elements of an array, its holes left out. *)
Definition keepSections {A : Type} (array : list (option A)) : list A :=
  flat_map (fun x => match x with Some a => [a] | None => [] end) array.

(** The helpers of [useField.utils], for the plain calendar: the sections
    of the plain calendar bear no position, the boundaries are the lengths
    of the months, and every section is supported. *)
Definition helpers
    : FieldState.fieldUtils.t PlainDate Separator Boundaries unit := {|
  FieldState.fieldUtils.addPositionPropertiesToSections :=
    @keepSections (FieldState.FieldSection Separator);
  FieldState.fieldUtils.clampDaySection := clampDaySection;
  FieldState.fieldUtils.createDateStrFromSections :=
    createDateStrFromSections;
  FieldState.fieldUtils.getSectionBoundaries := fun _ => daysInMonth;
  FieldState.fieldUtils.validateSections := fun _ _ => true
|}.

(** ** The value managers of a field for one date *)

Definition Value : Type := option PlainDate.

Definition today : PlainDate :=
  {| pd_year := 2026; pd_month := 11; pd_day := 2;
     pd_hours := 0; pd_minutes := 0; pd_seconds := 0 |}.

(** The value of the field is a date or [null], and [null] is its empty
    value. *)
Definition valueManager : FieldState.valueManager.t Value := {|
  FieldState.valueManager.emptyValue := None;
  FieldState.valueManager.areValuesEqual := fun a b =>
    match a, b with
    | None, None => true
    | Some a, Some b =>
        ((pd_year a =? pd_year b) && (pd_month a =? pd_month b)
         && (pd_day a =? pd_day b) && (pd_hours a =? pd_hours b)
         && (pd_minutes a =? pd_minutes b)
         && (pd_seconds a =? pd_seconds b))%Z
    | _, _ => false
    end;
  FieldState.valueManager.getTodayValue := Some today
|}.

Definition isValidValue (value : Value) : bool :=
  match value with Some d => isValidDate d | None => false end.

(** The field value manager of a field for one date.  The sections are
    the ones of the format, with the text of the components of a valid
    date and no text otherwise; a valid value becomes the reference value
    and any other value leaves the reference value as it was; the active
    date is the value of the field, and every section belongs to it. *)
Definition fieldValueManager
    : FieldState.fieldValueManager.t Value PlainDate Separator unit := {|
  FieldState.fieldValueManager.getSectionsFromValue :=
    fun prevSections value format =>
      map (fun '(name, separator) =>
             section name
               (match value with
                | Some d => if isValidDate d then formatComponent name d else ""
                | None => ""
                end)
               false separator)
        (layout format);
  FieldState.fieldValueManager.updateReferenceValue :=
    fun value prevReferenceValue =>
      if isValidValue value then value else prevReferenceValue;
  FieldState.fieldValueManager.getActiveDateManager := fun state _ =>
    {| FieldState.activeDateManager.activeDate := FieldState.State.value state;
       FieldState.activeDateManager.referenceActiveDate :=
         match FieldState.State.referenceValue state with
         | Some d => d
         | None => today
         end;
       FieldState.activeDateManager.getNewValueFromNewActiveDate :=
         fun newActiveDate =>
           (newActiveDate,
            if isValidValue newActiveDate then newActiveDate
            else FieldState.State.referenceValue state) |};
  FieldState.fieldValueManager.getActiveDateSections :=
    fun sections _ => sections
|}.

(** The parameters of a field that is not controlled from the outside
    and is given the two callbacks. *)
Definition params (format : string)
    : FieldState.Params.t Value PlainDate Separator unit unit := {|
  FieldState.Params.valueManager := valueManager;
  FieldState.Params.fieldValueManager := fieldValueManager;
  FieldState.Params.supportedDateSections := tt;
  FieldState.Params.value := None;
  FieldState.Params.defaultValue := None;
  FieldState.Params.onChange := true;
  FieldState.Params.format := format;
  FieldState.Params.selectedSections := None;
  FieldState.Params.onSelectedSectionsChange := true
|}.

(** A rendered hook: its sections, its value, its reference value and the
    index of the one section that is selected. *)
Definition hook (sections : list (FieldState.FieldSection Separator))
    (value referenceValue : Value) (selected : FieldState.FieldSelectedSections)
    : FieldState.Hook.t Value Separator unit := {|
  FieldState.Hook.state :=
    {| FieldState.State.sections := sections;
       FieldState.State.value := value;
       FieldState.State.referenceValue := referenceValue;
       FieldState.State.tempValueStrAndroid := None;
       FieldState.State.selectedSectionQuery := None |};
  FieldState.Hook.innerSelectedSections := selected;
  FieldState.Hook.firstDefaultValue := None
|}.

(** The edit of a section by the text typed in it.  The examples take the
    invalid-date path, on which the date of the field is not edited. *)
Definition typed (activeSection : FieldState.FieldSection Separator)
    (text : string)
    : FieldState.UpdateSectionValueParams.t PlainDate Separator Boundaries :=
  {| FieldState.UpdateSectionValueParams.activeSection := activeSection;
     FieldState.UpdateSectionValueParams.setSectionValueOnDate :=
       fun activeDate _ => activeDate;
     FieldState.UpdateSectionValueParams.setSectionValueOnSections :=
       fun _ => text |}.

(** ** Fields in the middle of an edit *)

(** An empty field [MM/dd/yyyy], its day selected. *)
Definition emptyDateField : FieldState.Hook.t Value Separator unit :=
  hook [section FieldState.month "" false "/";
        section FieldState.day "" false "/";
        section FieldState.year "" false ""]
    None (Some today) (Some (FieldState.SelectedIndex 1)).

(** A field [MM/dd/yyyy] that never had a date, in which [02] was typed
    as the month and [2023] as the year: its day, still empty, is
    selected. *)
Definition februaryField : FieldState.Hook.t Value Separator unit :=
  hook [section FieldState.month "02" true "/";
        section FieldState.day "" false "/";
        section FieldState.year "2023" true ""]
    None (Some today) (Some (FieldState.SelectedIndex 1)).

Definition halfPastTen : PlainDate :=
  {| pd_year := 2023; pd_month := 1; pd_day := 15;
     pd_hours := 10; pd_minutes := 30; pd_seconds := 0 |}.

(** A field [hh:mm aa] that shows [10:30 AM], its meridiem selected. *)
Definition halfPastTenField : FieldState.Hook.t Value Separator unit :=
  hook [section FieldState.hour "10" false ":";
        section FieldState.minute "30" false " ";
        section FieldState.meridiem "AM" false ""]
    (Some halfPastTen) (Some halfPastTen) (Some (FieldState.SelectedIndex 2)).

(** The same field after its meridiem was cleared: the date of the field
    is unset, the reference date is the one it showed, and the meridiem,
    still selected, is the one section that was edited. *)
Definition morningField : FieldState.Hook.t Value Separator unit :=
  hook [section FieldState.hour "10" false ":";
        section FieldState.minute "30" false " ";
        section FieldState.meridiem "" true ""]
    None (Some halfPastTen) (Some (FieldState.SelectedIndex 2)).

(** The same field with no section selected. *)
Definition unselectedField : FieldState.Hook.t Value Separator unit :=
  hook [section FieldState.hour "10" false ":";
        section FieldState.minute "30" false " ";
        section FieldState.meridiem "" true ""]
    None (Some halfPastTen) None.

(** A field [MM/dd/yyyy] that showed the fifteenth of January 2023, at
    half past ten, after its month was cleared: the month, still selected,
    is the one section that was edited. *)
Definition monthClearedField : FieldState.Hook.t Value Separator unit :=
  hook [section FieldState.month "" true "/";
        section FieldState.day "15" false "/";
        section FieldState.year "2023" false ""]
    None (Some halfPastTen) (Some (FieldState.SelectedIndex 0)).

Definition lastOfFebruary2023 : PlainDate :=
  {| pd_year := 2023; pd_month := 2; pd_day := 28;
     pd_hours := 0; pd_minutes := 0; pd_seconds := 0 |}.

Definition lastOfJanuary2023 : PlainDate :=
  {| pd_year := 2023; pd_month := 1; pd_day := 31;
     pd_hours := 10; pd_minutes := 30; pd_seconds := 0 |}.

(** A field [MM/dd/yyyy] that shows the thirty-first of January 2023, at
    half past ten, its month selected. *)
Definition lastOfJanuaryField : FieldState.Hook.t Value Separator unit :=
  hook [section FieldState.month "01" false "/";
        section FieldState.day "31" false "/";
        section FieldState.year "2023" false ""]
    (Some lastOfJanuary2023) (Some lastOfJanuary2023)
    (Some (FieldState.SelectedIndex 0)).

(** The same field after its month was cleared: the month, still
    selected, is the one section that was edited. *)
Definition monthClearedOnThe31stField
    : FieldState.Hook.t Value Separator unit :=
  hook [section FieldState.month "" true "/";
        section FieldState.day "31" false "/";
        section FieldState.year "2023" false ""]
    None (Some lastOfJanuary2023) (Some (FieldState.SelectedIndex 0)).

Definition midFebruary2023 : PlainDate :=
  {| pd_year := 2023; pd_month := 2; pd_day := 15;
     pd_hours := 10; pd_minutes := 30; pd_seconds := 0 |}.

(** A field [MM/dd/yyyy] that shows the fifteenth of February 2023, at
    half past ten, its day selected. *)
Definition midFebruaryField : FieldState.Hook.t Value Separator unit :=
  hook [section FieldState.month "02" false "/";
        section FieldState.day "15" false "/";
        section FieldState.year "2023" false ""]
    (Some midFebruary2023) (Some midFebruary2023)
    (Some (FieldState.SelectedIndex 1)).

(** The same field after its day was cleared: the day, still selected, is
    the one section that was edited. *)
Definition dayClearedField : FieldState.Hook.t Value Separator unit :=
  hook [section FieldState.month "02" false "/";
        section FieldState.day "" true "/";
        section FieldState.year "2023" false ""]
    None (Some midFebruary2023) (Some (FieldState.SelectedIndex 1)).

(** ** The format parser on the plain calendar *)

(** The tokens of the plain calendar, with the configuration of the
    section each one makes. *)
Definition formatTokenMap : list (string * FormatParser.SectionConfig) :=
  let config type maxLength :=
    {| FormatParser.cfg_type := type;
       FormatParser.cfg_contentType := FormatParser.digit;
       FormatParser.cfg_maxLength := Some maxLength |} in
  [("y", config FormatParser.year 4);
   ("yyyy", config FormatParser.year 4);
   ("M", config FormatParser.month 2);
   ("MM", config FormatParser.month 2);
   ("d", config FormatParser.day 2);
   ("dd", config FormatParser.day 2)].

(** A number in as few digits as it takes. *)
Definition decimal (n : Z) : string :=
  if (n <? 10)%Z then digits 1 n
  else if (n <? 100)%Z then digits 2 n
  else if (n <? 1000)%Z then digits 3 n
  else digits 4 n.

Definition formatByString (d : PlainDate) (token : string) : string :=
  if token =? "yyyy" then digits 4 (pd_year d)
  else if token =? "y" then decimal (pd_year d)
  else if token =? "MM" then digits 2 (pd_month d)
  else if token =? "M" then decimal (pd_month d)
  else if token =? "dd" then digits 2 (pd_day d)
  else if token =? "d" then decimal (pd_day d)
  else token.

(** The clock of the plain calendar reads a date. *)
Definition parserUtils : FormatParser.utils.t PlainDate PlainDate := {|
  FormatParser.utils.expandFormat := fun format => format;
  FormatParser.utils.escapedCharacters := ("'"%char, "'"%char);
  FormatParser.utils.formatTokenMap_keys := map fst formatTokenMap;
  FormatParser.utils.isValid := isValidDate;
  FormatParser.utils.formatByString := formatByString;
  FormatParser.utils.date_undefined := fun clock _ => clock
|}.

Definition localeText : FormatParser.localeText.t := {|
  FormatParser.localeText.fieldYearPlaceholder := fun digitAmount _ =>
    String.concat "" (repeat "Y" digitAmount);
  FormatParser.localeText.fieldMonthPlaceholder := fun _ _ => "MM";
  FormatParser.localeText.fieldDayPlaceholder := fun _ => "DD";
  FormatParser.localeText.fieldWeekDayPlaceholder := fun _ _ => "EEEE";
  FormatParser.localeText.fieldHoursPlaceholder := fun _ => "hh";
  FormatParser.localeText.fieldMinutesPlaceholder := fun _ => "mm";
  FormatParser.localeText.fieldSecondsPlaceholder := fun _ => "ss";
  FormatParser.localeText.fieldMeridiemPlaceholder := fun _ => "aa"
|}.

Definition firstDayOfYearOne : PlainDate :=
  {| pd_year := 1; pd_month := 1; pd_day := 1;
     pd_hours := 0; pd_minutes := 0; pd_seconds := 0 |}.

(** Modelled from the spec: the helpers of [useField.utils] the parser
    imports.  The configuration of a token is looked up in the token map;
    a token has leading zeros when the adapter renders a one-digit
    component with more than one character; cleaning the leading zeros
    writes the number again on the length asked for; the digits of the
    plain calendar are the ASCII ones, so that localizing them changes
    nothing. *)
Definition parserHelpers : FormatParser.fieldUtils.t PlainDate PlainDate := {|
  FormatParser.fieldUtils.getDateSectionConfigFromFormatToken :=
    fun _ token =>
      match find (fun entry => fst entry =? token) formatTokenMap with
      | Some entry => snd entry
      | None =>
          {| FormatParser.cfg_type := FormatParser.empty;
             FormatParser.cfg_contentType := FormatParser.letter;
             FormatParser.cfg_maxLength := None |}
      end;
  FormatParser.fieldUtils.doesSectionFormatHaveLeadingZeros :=
    fun utils _ _ _ token =>
      (1 <? String.length
              (FormatParser.utils.formatByString utils firstDayOfYearOne
                 token))%nat;
  FormatParser.fieldUtils.cleanLeadingZeros := fun valueStr size =>
    match numberOfString valueStr with
    | Some n => if (size <? String.length (decimal n))%nat
                then decimal n else digits size n
    | None => valueStr
    end;
  FormatParser.fieldUtils.applyLocalizedDigits := fun valueStr _ => valueStr;
  FormatParser.fieldUtils.removeLocalizedDigits := fun valueStr _ => valueStr
|}.

Definition parserParams (format : string) (date : option PlainDate)
    (shouldRespectLeadingZeros : bool)
    : FormatParser.Params.t PlainDate PlainDate := {|
  FormatParser.Params.utils := parserUtils;
  FormatParser.Params.format := format;
  FormatParser.Params.formatDensity := FormatParser.dense;
  FormatParser.Params.isRTL := false;
  FormatParser.Params.timezone := "default";
  FormatParser.Params.shouldRespectLeadingZeros := shouldRespectLeadingZeros;
  FormatParser.Params.localeText := localeText;
  FormatParser.Params.localizedDigits := [];
  FormatParser.Params.date := date;
  FormatParser.Params.enableAccessibleFieldDOMStructure := false
|}.

End PlainCalendar.

(* ================================================================== *)
(** * Part IV. The notions the properties are stated with *)
(* ================================================================== *)

Module ParserNotions.
Import FormatParser.

(** The character at position [i] opens or closes an escaped run. *)
Definition isEscapeBoundary (escapedParts : FormatEscapedParts) (i : nat)
    : bool :=
  match findEscapedPart escapedParts i with
  | Some part => (start part =? i)%nat || (end_ part =? i)%nat
  | None => false
  end.

(** The literal text of a format: its characters, from position [i] on,
    but for the ones that open or close an escaped run. *)
Fixpoint literalText (escapedParts : FormatEscapedParts) (i : nat)
    (rest : string) : string :=
  match rest with
  | EmptyString => ""
  | String char rest' =>
      if isEscapeBoundary escapedParts i
      then literalText escapedParts (S i) rest'
      else String char (literalText escapedParts (S i) rest')
  end.

(** A token starts at position [i]: a letter outside of the escaped runs
    at which one of the tokens can be read. *)
Definition tokenStartsAt (alternatives : list string)
    (escapedParts : FormatEscapedParts) (i : nat) (rest : string) : bool :=
  match rest with
  | EmptyString => false
  | String char _ =>
      match findEscapedPart escapedParts i with
      | Some _ => false
      | None =>
          isLetter char && existsb (fun token => prefix token rest) alternatives
      end
  end.

(** The format holds no section: no token starts at any of its
    positions. *)
Fixpoint noTokenStarts (alternatives : list string)
    (escapedParts : FormatEscapedParts) (i : nat) (rest : string) : bool :=
  match rest with
  | EmptyString => true
  | String _ rest' =>
      negb (tokenStartsAt alternatives escapedParts i rest)
      && noTokenStarts alternatives escapedParts (S i) rest'
  end.

End ParserNotions.

Module FieldNotions.
Import FieldState.

Section Notions.
Variables TValue TDate Other Query Boundaries Supported : Type.
Variable utils : utils.t TDate.
Variable helpers : fieldUtils.t TDate Other Boundaries Supported.
Variable params : Params.t TValue TDate Other Query Supported.
Variable hook : Hook.t TValue Other Query.
Variable args : UpdateSectionValueParams.t TDate Other Boundaries.

(** The manager of the date the edited section belongs to. *)
Definition activeDateManagerOf : activeDateManager.t TValue TDate :=
  fieldValueManager.getActiveDateManager (Params.fieldValueManager params)
    (Hook.state hook)
    (Some (UpdateSectionValueParams.activeSection args)).

(** The active date is set and valid: [updateSectionValue] takes its
    valid-date path.  Otherwise it takes the invalid-date path. *)
Definition activeDateIsValid : bool :=
  match activeDateManager.activeDate activeDateManagerOf with
  | Some activeDate => utils.isValid utils (Some activeDate)
  | None => false
  end.

(** The sections of the invalid-date path, once the edited one has been
    given its new text, and the ones of them that make the active date. *)
Definition editedSections (indexes : FieldSelectedSectionsIndexes)
    : list (FieldSection Other) :=
  setSectionValue helpers hook (startIndex indexes)
    (UpdateSectionValueParams.setSectionValueOnSections args
       (boundaries utils helpers)).

Definition editedDateSections (indexes : FieldSelectedSectionsIndexes)
    : list (FieldSection Other) :=
  fieldValueManager.getActiveDateSections (Params.fieldValueManager params)
    (editedSections indexes) (UpdateSectionValueParams.activeSection args).

(** The text of the sections of the active date, parsed as it is. *)
Definition directParse (activeDateSections : list (FieldSection Other))
    : option TDate :=
  utils.parse utils
    (fieldUtils.createDateStrFromSections helpers activeDateSections false)
    (Params.format params).

(** The first step of [updateSectionValue]: a selection of several
    sections is narrowed to its first section. *)
Definition collapseSelection : M TValue Other Query unit :=
  match selectedSectionIndexes params hook with
  | Some indexes =>
      if negb (startIndex indexes =? endIndex indexes)%Z
      then setSelectedSections params
             (Some (SelectedIndex (startIndex indexes)))
      else ret tt
  | None => ret tt
  end.

(** The updates this first step leaves behind. *)
Definition afterCollapse : World.t TValue Other Query :=
  snd (run hook collapseSelection).

(** The values the hook has told of through [onChange], oldest first. *)
Fixpoint changes (notifications : list (Notification TValue))
    : list TValue :=
  match notifications with
  | [] => []
  | OnChange value :: notifications' => value :: changes notifications'
  | OnSelectedSectionsChange _ :: notifications' => changes notifications'
  end.

End Notions.

(** The helpers with another [clampDaySection] in the place of theirs. *)
Definition withClampDaySection (TDate Other Boundaries Supported : Type)
    (helpers : fieldUtils.t TDate Other Boundaries Supported)
    (clampDaySection' :
       utils.t TDate -> list (FieldSection Other) -> Boundaries -> string ->
       option (list (FieldSection Other)))
    : fieldUtils.t TDate Other Boundaries Supported :=
  {| fieldUtils.addPositionPropertiesToSections :=
       fieldUtils.addPositionPropertiesToSections helpers;
     fieldUtils.clampDaySection := clampDaySection';
     fieldUtils.createDateStrFromSections :=
       fieldUtils.createDateStrFromSections helpers;
     fieldUtils.getSectionBoundaries :=
       fieldUtils.getSectionBoundaries helpers;
     fieldUtils.validateSections := fieldUtils.validateSections helpers |}.

(** The six components of a date, with the getter and the setter the
    adapter has for each. *)
Inductive Component : Type :=
| Year | Month | Day | Hours | Minutes | Seconds.

Definition sectionNameOf (c : Component) : MuiDateSectionName :=
  match c with
  | Year => year | Month => month | Day => day
  | Hours => hour | Minutes => minute | Seconds => second
  end.

Section Components.
Variable TDate : Type.
Variable utils : utils.t TDate.

Definition getComponent (c : Component) : TDate -> Z :=
  match c with
  | Year => utils.getYear utils
  | Month => utils.getMonth utils
  | Day => utils.getDate utils
  | Hours => utils.getHours utils
  | Minutes => utils.getMinutes utils
  | Seconds => utils.getSeconds utils
  end.

Definition setComponent (c : Component) : TDate -> Z -> TDate :=
  match c with
  | Year => utils.setYear utils
  | Month => utils.setMonth utils
  | Day => utils.setDate utils
  | Hours => utils.setHours utils
  | Minutes => utils.setMinutes utils
  | Seconds => utils.setSeconds utils
  end.

(** The component a section name stands for: the meridiem stands for
    none. *)
Definition componentOf (name : MuiDateSectionName) : option Component :=
  match name with
  | year => Some Year
  | month => Some Month
  | day => Some Day
  | hour => Some Hours
  | minute => Some Minutes
  | second => Some Seconds
  | meridiem => None
  end.

(** The merge in the words of the specification: section after section,
    a section that is marked as modified writes on the date the component
    it stands for, as the candidate date has it, with the setter of the
    adapter; a section that is not marked writes nothing. *)
Fixpoint writeEditedComponents (Other : Type) (date newDate : TDate)
    (sections : list (FieldSection Other)) : TDate :=
  match sections with
  | [] => date
  | section :: sections' =>
      writeEditedComponents
        (if edited section then
           match dateSectionName section with
           | Some name =>
               match componentOf name with
               | Some c => setComponent c date (getComponent c newDate)
               | None => date
               end
           | None => date
           end
         else date)
        newDate sections'
  end.

(** The setter of [c], when it writes the [c] of [newDate], keeps the
    component [c'] of a date on which this component is [expected]. *)
Definition setterKeeps (newDate : TDate) (c c' : Component) (expected : Z)
    : Prop :=
  forall date : TDate,
    getComponent c' date = expected ->
    getComponent c' (setComponent c date (getComponent c newDate)) = expected.

End Components.

End FieldNotions.

Module HookNotions.
Import FieldState.

Section Notions.
Variables TValue Other Query : Type.

(** The selections the hook has told of through
    [onSelectedSectionsChange], oldest first. *)
Fixpoint selections (notifications : list (Notification TValue))
    : list FieldSelectedSections :=
  match notifications with
  | [] => []
  | OnChange _ :: notifications' => selections notifications'
  | OnSelectedSectionsChange newSelectedSections :: notifications' =>
      newSelectedSections :: selections notifications'
  end.

(** The hook as its next render finds it, once an action has run. *)
Definition hookAfter (outcome : Outcome unit * World.t TValue Other Query)
    : Hook.t TValue Other Query :=
  World.pending (snd outcome).

(** The array [setSectionValue] hands to
    [addPositionPropertiesToSections]. *)
Definition writtenSections (hook : Hook.t TValue Other Query)
    (sectionIndex : Z) (newSectionValue : string)
    : list (option (FieldSection Other)) :=
  arraySet (State.sections (Hook.state hook)) sectionIndex
    (withEditedValue
       (arrayGet (State.sections (Hook.state hook)) sectionIndex)
       newSectionValue).

End Notions.
End HookNotions.

Module SectionNotions.
Import FormatParser.

(** Longest first: every token is at least as long as the ones after
    it. *)
Inductive LongestFirst : list string -> Prop :=
| LongestFirst_nil : LongestFirst []
| LongestFirst_cons (token : string) (tokens : list string) :
    (forall other, In other tokens ->
                   (String.length other <= String.length token)%nat) ->
    LongestFirst tokens ->
    LongestFirst (token :: tokens).

(** The text of a section: its format between its two separators. *)
Definition sectionText (section : FieldSection) : string :=
  startSeparator section ++ format section ++ endSeparator section.

Fixpoint textOfSections (sections : list FieldSection) : string :=
  match sections with
  | [] => ""
  | section :: sections' => sectionText section ++ textOfSections sections'
  end.

(** A word: letters, and one at least. *)
Fixpoint allLetters (s : string) : bool :=
  match s with
  | EmptyString => true
  | String c s' => isLetter c && allLetters s'
  end.

Definition isWord (token : string) : bool :=
  negb (isEmptyString token) && allLetters token.

(** [s.slice(n)]. *)
Fixpoint dropString (n : nat) (s : string) : string :=
  match n, s with
  | O, _ => s
  | S _, EmptyString => ""
  | S n', String _ s' => dropString n' s'
  end.

(** The text the loop of [buildSections] holds: the sections pushed, the
    start separator that waits for the first section and the token that
    waits to be pushed. *)
Definition textSoFar (st : LoopState) : string :=
  textOfSections (sections st)
  ++ pendingStartSeparator st ++ currentTokenValue st.

(** Where the loop stands, at position [i], when a token waits to be
    pushed: either [isTokenStartRegExp] has just read it, its [lastIndex]
    is not 0 and no escaped part ends at [i]; or the character before [i]
    opened an escaped part that holds [i], and [lastIndex] is 0. *)
Definition waitingToken (alternatives : list string)
    (escapedParts : FormatEscapedParts) (i : nat) (st : LoopState) : Prop :=
  currentTokenValue st = ""
  \/ (In (currentTokenValue st) alternatives
      /\ ((lastIndex st <> 0%nat
           /\ forall part, In part escapedParts -> end_ part <> i)
          \/ (lastIndex st = 0%nat
              /\ exists part,
                   In part escapedParts
                   /\ S (start part) = i /\ (i <= end_ part)%nat))).

End SectionNotions.

Module RunNotions.
Import FormatParser.

(** The state of the loop of [FormatParser.buildSections] that the
    variables of the loop and the [lastIndex] of [isTokenStartRegExp]
    make. *)
Definition loopState (vars : ParserRun.LoopVariables) (lastIndex : nat)
    : LoopState :=
  {| sections := ParserRun.sectionsVar vars;
     pendingStartSeparator := ParserRun.startSeparatorVar vars;
     currentTokenValue := ParserRun.currentTokenValueVar vars;
     lastIndex := lastIndex |}.

Definition variablesOf (st : LoopState) : ParserRun.LoopVariables :=
  {| ParserRun.sectionsVar := sections st;
     ParserRun.startSeparatorVar := pendingStartSeparator st;
     ParserRun.currentTokenValueVar := currentTokenValue st |}.

(** What a run answers, the objects it leaves aside: [None] for a run
    that does not end. *)
Definition answerOf (A : Type)
    (outcome : option (Result A * ParserRun.RegExps)) : option (Result A) :=
  option_map fst outcome.

(** The objects a run leaves, when it ends. *)
Definition objectsAfter (A : Type)
    (outcome : option (Result A * ParserRun.RegExps))
    : option ParserRun.RegExps :=
  option_map snd outcome.

End RunNotions.

(* ================================================================== *)
(** * Part V. Properties of the format parser *)
(* ================================================================== *)

(* ================================================================== *)

Section ExpandFormatProperties.
Import FormatParser.
Variable expand : string -> string.

(** The loop either runs out of its eleven turns, no text met so far being
    a fixed point, or stops on the first fixed point. *)
Lemma expandFormat_loop_cases (overflow : nat) :
  forall prev : string,
    (expandFormat_loop expand overflow prev (expand prev)
       = Throw FormatExpansionOverflow
     /\ forall j, j <= overflow ->
          expand (Nat.iter j expand prev) <> Nat.iter j expand prev)
    \/ exists k,
         k <= overflow
         /\ expandFormat_loop expand overflow prev (expand prev)
              = Ok (Nat.iter k expand prev)
         /\ expand (Nat.iter k expand prev) = Nat.iter k expand prev
         /\ forall i, i < k ->
              expand (Nat.iter i expand prev) <> Nat.iter i expand prev.
Proof.
  induction overflow as [|overflow IH]; intros prev; cbn [expandFormat_loop].
  - destruct (String.eqb_spec (expand prev) prev) as [Heq|Hneq].
    + right. exists 0. cbn. repeat split; auto; try lia.
      now rewrite Heq.
    + left. split; [reflexivity|].
      intros j Hj. assert (j = 0) by lia. subst j. exact Hneq.
  - destruct (String.eqb_spec (expand prev) prev) as [Heq|Hneq].
    + right. exists 0. cbn. repeat split; auto; try lia.
      now rewrite Heq.
    + destruct (IH (expand prev)) as [[Hthrow Hnone]|(k & Hk & Hok & Hfix & Hleast)].
      * left. split; [exact Hthrow|].
        intros [|j] Hj; [exact Hneq|].
        rewrite !Nat.iter_succ_r. apply Hnone. lia.
      * right. exists (S k). rewrite !Nat.iter_succ_r.
        repeat split; auto; try lia.
        intros [|i] Hi; [exact Hneq|].
        rewrite !Nat.iter_succ_r. apply Hleast. lia.
Qed.

End ExpandFormatProperties.

(** C5.  [expandFormat] applies the adapter's [expandFormat] again and
    again from the format it is given.  It throws the overflow error
    exactly when none of the format and its first ten expansions is a fixed
    point of the adapter's rule; and when one of them is, reached after
    [j <= 10] expansions, it returns without error the first fixed point
    met, which the rule leaves unchanged. *)
Theorem expandFormat_fixed_point_or_overflow :
  forall (TDate Clock : Type) (params : FormatParser.Params.t TDate Clock),
    let expand :=
      FormatParser.utils.expandFormat (FormatParser.Params.utils params) in
    let expanded j := Nat.iter j expand (FormatParser.Params.format params) in
    (FormatParser.expandFormat params
       = FormatParser.Throw FormatParser.FormatExpansionOverflow
     <-> forall j, j <= 10 -> expand (expanded j) <> expanded j)
    /\ (forall j, j <= 10 -> expand (expanded j) = expanded j ->
        exists k,
          k <= j
          /\ FormatParser.expandFormat params = FormatParser.Ok (expanded k)
          /\ expand (expanded k) = expanded k
          /\ forall i, i < k -> expand (expanded i) <> expanded i)
    /\ (forall result,
          FormatParser.expandFormat params = FormatParser.Ok result ->
          expand result = result).
Proof.
  intros TDate Clock params expand expanded.
  unfold FormatParser.expandFormat. fold expand.
  destruct (expandFormat_loop_cases expand 10 (FormatParser.Params.format params))
    as [[Hthrow Hnone]|(k & Hk & Hok & Hfix & Hleast)].
  - split; [|split].
    + split; [intros _; exact Hnone | intros _; exact Hthrow].
    + intros j Hj Hjfix. exfalso. exact (Hnone j Hj Hjfix).
    + intros result Hres. rewrite Hthrow in Hres. discriminate.
  - split; [|split].
    + split.
      * intros Hthrow. rewrite Hok in Hthrow. discriminate.
      * intros Hnone. exfalso. exact (Hnone k Hk Hfix).
    + intros j Hj Hjfix. exists k.
      assert (k <= j).
      { destruct (Nat.le_gt_cases k j) as [Hle|Hgt]; [exact Hle|].
        exfalso. exact (Hleast j Hgt Hjfix). }
      repeat split; auto.
    + intros result Hres. rewrite Hok in Hres.
      injection Hres as <-. exact Hfix.
Qed.

Section BuildSectionsProperties.
Import FormatParser ParserNotions.
Variables TDate Clock : Type.
Variable helpers : fieldUtils.t TDate Clock.
Variable clock : Clock.
Variable params : Params.t TDate Clock.
Variable now : TDate.
Variable alternatives : list string.
Variable escapedParts : FormatEscapedParts.

Lemma find_some_existsb (A : Type) (f : A -> bool) (l : list A) (x : A) :
  find f l = Some x -> existsb f l = true.
Proof.
  induction l as [|y l IH]; cbn; [discriminate|].
  destruct (f y); [reflexivity|exact IH].
Qed.

(** A successful test of [isTokenStartRegExp] reads one of the tokens at
    the head of the text. *)
Lemma isTokenStartRegExp_test_true (lastIndex : nat) (s : string) (n : nat) :
  isTokenStartRegExp_test alternatives lastIndex s = (true, n) ->
  existsb (fun token => prefix token s) alternatives = true.
Proof.
  unfold isTokenStartRegExp_test.
  destruct lastIndex; [|discriminate].
  destruct (find _ alternatives) eqn:Hfind; [|discriminate].
  intros _. exact (find_some_existsb _ _ Hfind).
Qed.

Lemma append_assoc_char (s : string) (c : ascii) (t : string) :
  (s ++ String c "") ++ t = s ++ String c t.
Proof. induction s as [|a s IH]; cbn; [reflexivity|now rewrite IH]. Qed.

Lemma append_empty_r (s : string) : s ++ "" = s.
Proof. induction s as [|a s IH]; cbn; [reflexivity|now rewrite IH]. Qed.

(** While no token starts, the loop gathers the literal text as the start
    separator that waits for a section, and pushes no section. *)
Lemma buildSections_loop_literal (rest : string) :
  forall (i lastIndex0 : nat) (pending : string),
    noTokenStarts alternatives escapedParts i rest = true ->
    exists lastIndex1,
      buildSections_loop helpers clock params now alternatives escapedParts
        0 i rest
        {| sections := [];
           pendingStartSeparator := pending;
           currentTokenValue := "";
           lastIndex := lastIndex0 |}
      = Some (Ok {| sections := [];
                    pendingStartSeparator :=
                      pending ++ literalText escapedParts i rest;
                    currentTokenValue := "";
                    lastIndex := lastIndex1 |}).
Proof.
  induction rest as [|char rest' IH]; intros i lastIndex0 pending Hno.
  - exists lastIndex0. cbn. now rewrite append_empty_r.
  - cbn [noTokenStarts] in Hno. apply andb_prop in Hno as [Hhere Hrest].
    apply negb_true_iff in Hhere.
    cbn [buildSections_loop currentTokenValue lastIndex sections
         pendingStartSeparator append].
    cbn [literalText]. unfold isEscapeBoundary.
    unfold tokenStartsAt in Hhere.
    destruct (isTokenStartRegExp_test alternatives lastIndex0
                (String char rest')) as [regExpMatch lastIndex'] eqn:Htest.
    destruct (findEscapedPart escapedParts i) as [part|] eqn:Hpart.
    + cbn [negb andb].
      destruct ((start part =? i)%nat || (end_ part =? i)%nat).
      * destruct (IH (S i) lastIndex' pending Hrest) as [l1 Hl1].
        exists l1. exact Hl1.
      * cbn [isEmptyString].
        destruct (IH (S i) lastIndex' (pending ++ String char "") Hrest)
          as [l1 Hl1].
        exists l1. rewrite Hl1. now rewrite append_assoc_char.
    + assert (Hbranch : negb false && isLetter char && regExpMatch = false).
      { destruct regExpMatch; [|now rewrite andb_false_r].
        apply isTokenStartRegExp_test_true in Htest.
        rewrite Htest, andb_true_r in Hhere. cbn. now rewrite Hhere. }
      rewrite Hbranch. cbn [isEmptyString].
      destruct (IH (S i) lastIndex' (pending ++ String char "") Hrest)
        as [l1 Hl1].
      exists l1. rewrite Hl1. now rewrite append_assoc_char.
Qed.

End BuildSectionsProperties.

(** What [buildSections] answers when no token starts in the format. *)
Lemma buildSections_without_token_fields :
  forall (TDate Clock : Type)
         (helpers : FormatParser.fieldUtils.t TDate Clock) (clock : Clock)
         (params : FormatParser.Params.t TDate Clock)
         (expandedFormat : string)
         (escapedParts : FormatParser.FormatEscapedParts),
    ParserNotions.noTokenStarts
      (FormatParser.tokenAlternatives (FormatParser.Params.utils params))
      escapedParts 0 expandedFormat = true ->
    (ParserNotions.literalText escapedParts 0 expandedFormat <> "" ->
     FormatParser.buildSections helpers clock params expandedFormat
       escapedParts
     = Some (FormatParser.Ok
               [FormatParser.emptySection
                  (ParserNotions.literalText escapedParts 0 expandedFormat)]))
    /\ (ParserNotions.literalText escapedParts 0 expandedFormat = "" ->
        FormatParser.buildSections helpers clock params expandedFormat
          escapedParts = Some (FormatParser.Ok [])).
Proof.
  intros TDate Clock helpers clock params expandedFormat escapedParts Hno.
  destruct (@buildSections_loop_literal TDate Clock helpers clock params
              (FormatParser.utils.date_undefined
                 (FormatParser.Params.utils params) clock None)
              _ escapedParts expandedFormat 0 0 "" Hno)
    as [lastIndex1 Hloop].
  cbn [append] in Hloop.
  unfold FormatParser.buildSections. rewrite Hloop.
  cbn [FormatParser.currentTokenValue FormatParser.sections
       FormatParser.pendingStartSeparator FormatParser.isEmptyString].
  split.
  - intros Hliteral.
    destruct (ParserNotions.literalText escapedParts 0 expandedFormat);
      [congruence|reflexivity].
  - intros ->. reflexivity.
Qed.

(** C6, amended.  When no token starts anywhere in the expanded format,
    [buildSections] emits exactly one section as soon as the literal text
    of the format (its characters but for the ones that open or close an
    escaped run) is not empty: the synthetic section of type [empty],
    whose start separator is this literal text and whose value,
    placeholder, format and end separator are empty.  When the literal
    text is empty, as it is for the empty format, it emits no section. *)
Theorem buildSections_without_token :
  forall (TDate Clock : Type)
         (helpers : FormatParser.fieldUtils.t TDate Clock) (clock : Clock)
         (params : FormatParser.Params.t TDate Clock)
         (expandedFormat : string)
         (escapedParts : FormatParser.FormatEscapedParts),
    ParserNotions.noTokenStarts
      (FormatParser.tokenAlternatives (FormatParser.Params.utils params))
      escapedParts 0 expandedFormat = true ->
    let literal := ParserNotions.literalText escapedParts 0 expandedFormat in
    (literal <> "" ->
     exists section,
       FormatParser.buildSections helpers clock params expandedFormat
         escapedParts = Some (FormatParser.Ok [section])
       /\ FormatParser.type section = FormatParser.empty
       /\ FormatParser.startSeparator section = literal
       /\ FormatParser.value section = ""
       /\ FormatParser.placeholder section = ""
       /\ FormatParser.format section = ""
       /\ FormatParser.endSeparator section = "")
    /\ (literal = "" ->
        FormatParser.buildSections helpers clock params expandedFormat
          escapedParts = Some (FormatParser.Ok [])).
Proof.
  intros TDate Clock helpers clock params expandedFormat escapedParts Hno
         literal.
  destruct (buildSections_without_token_fields helpers clock params
              expandedFormat escapedParts Hno) as [Hsome Hnone].
  split; [|exact Hnone].
  intros Hliteral. exists (FormatParser.emptySection literal).
  split; [exact (Hsome Hliteral)|].
  repeat split.
Qed.

(** The theorem at work on an escaped run that reads like a token: the
    format ['dd' / ] of the plain calendar makes one [empty] section, the
    start separator of which is the text without its two quotes. *)
Lemma buildSections_without_token_witness :
  ParserNotions.noTokenStarts
    (FormatParser.tokenAlternatives PlainCalendar.parserUtils)
    (FormatParser.getEscapedPartsFromFormat
       (PlainCalendar.parserParams "'dd' / " None false) "'dd' / ")
    0 "'dd' / " = true
  /\ exists section,
       FormatParser.buildSections PlainCalendar.parserHelpers
         PlainCalendar.today
         (PlainCalendar.parserParams "'dd' / " None false) "'dd' / "
         (FormatParser.getEscapedPartsFromFormat
            (PlainCalendar.parserParams "'dd' / " None false) "'dd' / ")
       = Some (FormatParser.Ok [section])
       /\ FormatParser.type section = FormatParser.empty
       /\ FormatParser.startSeparator section = "dd / "
       /\ FormatParser.value section = ""
       /\ FormatParser.placeholder section = ""
       /\ FormatParser.format section = ""
       /\ FormatParser.endSeparator section = "".
Proof.
  split; [reflexivity|].
  apply (buildSections_without_token PlainCalendar.parserHelpers
           PlainCalendar.today
           (PlainCalendar.parserParams "'dd' / " None false) "'dd' / "
           (FormatParser.getEscapedPartsFromFormat
              (PlainCalendar.parserParams "'dd' / " None false) "'dd' / ")
           eq_refl).
  discriminate.
Defined.

(** The separators of the synthetic section are then cleaned by
    [postProcessSections]: the end separator stays empty and the start
    separator is the cleaned literal text. *)
Lemma buildSectionsFromFormat_without_token :
  forall (TDate Clock : Type)
         (helpers : FormatParser.fieldUtils.t TDate Clock) (clock : Clock)
         (params : FormatParser.Params.t TDate Clock)
         (expandedFormat0 : string),
    FormatParser.expandFormat params = FormatParser.Ok expandedFormat0 ->
    let expandedFormat :=
      if FormatParser.Params.isRTL params
         && FormatParser.Params.enableAccessibleFieldDOMStructure params
      then FormatParser.join " "
             (rev (FormatParser.split " "%char expandedFormat0))
      else expandedFormat0 in
    let escapedParts :=
      FormatParser.getEscapedPartsFromFormat params expandedFormat in
    let literal := ParserNotions.literalText escapedParts 0 expandedFormat in
    ParserNotions.noTokenStarts
      (FormatParser.tokenAlternatives (FormatParser.Params.utils params))
      escapedParts 0 expandedFormat = true ->
    FormatParser.buildSectionsFromFormat helpers clock params
    = Some (FormatParser.Ok
              (if FormatParser.isEmptyString literal then []
               else [FormatParser.emptySection
                       (FormatParser.cleanSeparator
                          (FormatParser.Params.isRTL params)
                          (FormatParser.Params.formatDensity params)
                          literal)])).
Proof.
  intros TDate Clock helpers clock params expandedFormat0 Hexpanded
         expandedFormat escapedParts literal Hno.
  unfold FormatParser.buildSectionsFromFormat. rewrite Hexpanded.
  fold expandedFormat. fold escapedParts.
  destruct (buildSections_without_token_fields helpers clock params
              expandedFormat escapedParts Hno) as [Hsome Hnone].
  fold literal in Hsome, Hnone.
  destruct literal as [|c literal'] eqn:Hliteral.
  - now rewrite Hnone.
  - rewrite Hsome by discriminate. cbn [FormatParser.isEmptyString].
    unfold FormatParser.postProcessSections, FormatParser.emptySection.
    cbn [map FormatParser.type FormatParser.contentType
         FormatParser.maxLength FormatParser.format FormatParser.value
         FormatParser.placeholder FormatParser.hasLeadingZerosInFormat
         FormatParser.hasLeadingZerosInInput FormatParser.startSeparator
         FormatParser.endSeparator FormatParser.modified].
    assert (Hend : FormatParser.cleanSeparator
                     (FormatParser.Params.isRTL params)
                     (FormatParser.Params.formatDensity params) "" = "").
    { unfold FormatParser.cleanSeparator. cbn.
      rewrite andb_false_r. now destruct (FormatParser.Params.formatDensity _). }
    now rewrite Hend.
Qed.

(** C6 as it was stated fails on the empty format: no token starts in it,
    and the parser emits no section at all for it, where the claim has it
    emit one. *)
Lemma buildSectionsFromFormat_empty_format :
  ParserNotions.noTokenStarts
    (FormatParser.tokenAlternatives PlainCalendar.parserUtils) [] 0 "" = true
  /\ FormatParser.buildSections PlainCalendar.parserHelpers
       PlainCalendar.today (PlainCalendar.parserParams "" None false) "" []
     = Some (FormatParser.Ok [])
  /\ FormatParser.buildSectionsFromFormat PlainCalendar.parserHelpers
       PlainCalendar.today (PlainCalendar.parserParams "" None false)
     = Some (FormatParser.Ok []).
Proof. repeat split. Qed.

Section ClockProperties.
Import FormatParser.
Variables TDate Clock : Type.
Variable helpers : fieldUtils.t TDate Clock.
Variable params : Params.t TDate Clock.
Variables clock1 clock2 : Clock.

(** The two clocks give the same reading of the current date. *)
Hypothesis same_reading :
  forall timezone,
    utils.date_undefined (Params.utils params) clock1 timezone
    = utils.date_undefined (Params.utils params) clock2 timezone.

Lemma getSectionPlaceholder_same_reading
    (timezone : PickersTimezone) (localeText : localeText.t)
    (sectionConfig : SectionConfig) (sectionFormat : string) :
  getSectionPlaceholder clock1 (Params.utils params) timezone localeText
    sectionConfig sectionFormat
  = getSectionPlaceholder clock2 (Params.utils params) timezone localeText
      sectionConfig sectionFormat.
Proof.
  unfold getSectionPlaceholder.
  destruct (cfg_type sectionConfig); try reflexivity.
  now rewrite same_reading.
Qed.

Lemma createSection_same_reading (now : TDate)
    (token startSeparator : string) :
  createSection helpers clock1 params now token startSeparator
  = createSection helpers clock2 params now token startSeparator.
Proof.
  unfold createSection.
  now rewrite getSectionPlaceholder_same_reading.
Qed.

Lemma buildSections_loop_same_reading (now : TDate)
    (alternatives : list string) (escapedParts : FormatEscapedParts)
    (rest : string) :
  forall (skip i : nat) (st : LoopState),
    buildSections_loop helpers clock1 params now alternatives escapedParts
      skip i rest st
    = buildSections_loop helpers clock2 params now alternatives escapedParts
        skip i rest st.
Proof.
  induction rest as [|char rest' IH]; intros skip i st; [reflexivity|].
  cbn [buildSections_loop].
  destruct skip as [|skip']; [|apply IH].
  destruct (isTokenStartRegExp_test alternatives (lastIndex st)
              (currentTokenValue st ++ String char rest'))
    as [regExpMatch lastIndex'].
  rewrite createSection_same_reading.
  destruct (_ && _ && regExpMatch).
  - destruct lastIndex'; [reflexivity|apply IH].
  - destruct (match findEscapedPart escapedParts i with
              | Some part => _ | None => false end); [apply IH|].
    destruct (if isEmptyString (currentTokenValue st) then _ else _)
      as [sections'|e]; [|reflexivity].
    apply IH.
Qed.

Lemma buildSections_same_reading (expandedFormat : string)
    (escapedParts : FormatEscapedParts) :
  buildSections helpers clock1 params expandedFormat escapedParts
  = buildSections helpers clock2 params expandedFormat escapedParts.
Proof.
  unfold buildSections.
  rewrite same_reading, buildSections_loop_same_reading.
  destruct (buildSections_loop _ _ _ _ _ _ _ _ _ _) as [[st|e]|];
    try reflexivity.
  now rewrite createSection_same_reading.
Qed.

Lemma buildSectionsFromFormat_same_reading :
  buildSectionsFromFormat helpers clock1 params
  = buildSectionsFromFormat helpers clock2 params.
Proof.
  unfold buildSectionsFromFormat.
  destruct (expandFormat params); [|reflexivity].
  now rewrite buildSections_same_reading.
Qed.

End ClockProperties.

(** The date the adapter reads as the current one is an input of the
    parse as well: the placeholder of the year of the format [y] has as
    many letters as the current year has digits on the plain calendar. *)
Lemma buildSectionsFromFormat_reads_current_date :
  option_map
    (fun answer =>
       match answer with
       | FormatParser.Ok sections => map FormatParser.placeholder sections
       | FormatParser.Throw _ => []
       end)
    (FormatParser.buildSectionsFromFormat PlainCalendar.parserHelpers
       PlainCalendar.today (PlainCalendar.parserParams "y" None true))
  = Some ["YYYY"]
  /\ option_map
       (fun answer =>
          match answer with
          | FormatParser.Ok sections => map FormatParser.placeholder sections
          | FormatParser.Throw _ => []
          end)
       (FormatParser.buildSectionsFromFormat PlainCalendar.parserHelpers
          PlainCalendar.firstDayOfYearOne
          (PlainCalendar.parserParams "y" None true))
     = Some ["Y"].
Proof. split; reflexivity. Qed.

(** C7 as it was stated fails: two runs on the plain calendar that agree
    on the format, the date, the locale, the density and the direction
    flags, and on the clock, make different sections of the format [M]
    when they differ on [shouldRespectLeadingZeros]. *)
Lemma buildSectionsFromFormat_reads_shouldRespectLeadingZeros :
  FormatParser.Params.format (PlainCalendar.parserParams "M" None true)
    = FormatParser.Params.format (PlainCalendar.parserParams "M" None false)
  /\ FormatParser.Params.date (PlainCalendar.parserParams "M" None true)
     = FormatParser.Params.date (PlainCalendar.parserParams "M" None false)
  /\ FormatParser.Params.utils (PlainCalendar.parserParams "M" None true)
     = FormatParser.Params.utils (PlainCalendar.parserParams "M" None false)
  /\ FormatParser.Params.localeText (PlainCalendar.parserParams "M" None true)
     = FormatParser.Params.localeText
         (PlainCalendar.parserParams "M" None false)
  /\ FormatParser.Params.localizedDigits
       (PlainCalendar.parserParams "M" None true)
     = FormatParser.Params.localizedDigits
         (PlainCalendar.parserParams "M" None false)
  /\ FormatParser.Params.timezone (PlainCalendar.parserParams "M" None true)
     = FormatParser.Params.timezone (PlainCalendar.parserParams "M" None false)
  /\ FormatParser.Params.formatDensity
       (PlainCalendar.parserParams "M" None true)
     = FormatParser.Params.formatDensity
         (PlainCalendar.parserParams "M" None false)
  /\ FormatParser.Params.isRTL (PlainCalendar.parserParams "M" None true)
     = FormatParser.Params.isRTL (PlainCalendar.parserParams "M" None false)
  /\ FormatParser.Params.enableAccessibleFieldDOMStructure
       (PlainCalendar.parserParams "M" None true)
     = FormatParser.Params.enableAccessibleFieldDOMStructure
         (PlainCalendar.parserParams "M" None false)
  /\ option_map
       (fun answer =>
          match answer with
          | FormatParser.Ok sections =>
              map (fun s => (FormatParser.hasLeadingZerosInInput s,
                             FormatParser.maxLength s)) sections
          | FormatParser.Throw _ => []
          end)
       (FormatParser.buildSectionsFromFormat PlainCalendar.parserHelpers
          PlainCalendar.today (PlainCalendar.parserParams "M" None true))
     = Some [(false, None)]
  /\ option_map
       (fun answer =>
          match answer with
          | FormatParser.Ok sections =>
              map (fun s => (FormatParser.hasLeadingZerosInInput s,
                             FormatParser.maxLength s)) sections
          | FormatParser.Throw _ => []
          end)
       (FormatParser.buildSectionsFromFormat PlainCalendar.parserHelpers
          PlainCalendar.today (PlainCalendar.parserParams "M" None false))
     = Some [(true, Some 2)]
  /\ FormatParser.buildSectionsFromFormat PlainCalendar.parserHelpers
       PlainCalendar.today (PlainCalendar.parserParams "M" None true)
     <> FormatParser.buildSectionsFromFormat PlainCalendar.parserHelpers
          PlainCalendar.today (PlainCalendar.parserParams "M" None false).
Proof. repeat split; vm_compute; discriminate. Qed.

(* ================================================================== *)
(** * Part VI. Properties of the field state engine *)
(* ================================================================== *)

Section UpdateSectionValueRuns.
Import FieldState FieldNotions.
Variables TValue TDate Other Query Boundaries Supported : Type.
Variable utils : utils.t TDate.
Variable helpers : fieldUtils.t TDate Other Boundaries Supported.
Variable params : Params.t TValue TDate Other Query Supported.
Variable hook : Hook.t TValue Other Query.
Variable args : UpdateSectionValueParams.t TDate Other Boundaries.

Lemma changes_app (l1 l2 : list (Notification TValue)) :
  changes (l1 ++ l2) = (changes l1 ++ changes l2)%list.
Proof.
  induction l1 as [|[v|sel] l1 IH]; cbn; [reflexivity| |exact IH].
  now rewrite IH.
Qed.

(** What [publishValue] leaves behind, whatever was queued before it. *)
Lemma publishValue_run (value referenceValue : TValue)
    (w : World.t TValue Other Query) :
  publishValue params hook (value, referenceValue) w
  = (Returned tt,
     {| World.pending :=
          {| Hook.state :=
               {| State.sections :=
                    fieldValueManager.getSectionsFromValue
                      (Params.fieldValueManager params)
                      (Some (State.sections (Hook.state hook))) value
                      (Params.format params);
                  State.value := value;
                  State.referenceValue := referenceValue;
                  State.tempValueStrAndroid := None;
                  State.selectedSectionQuery :=
                    State.selectedSectionQuery
                      (Hook.state (World.pending w)) |};
             Hook.innerSelectedSections :=
               Hook.innerSelectedSections (World.pending w);
             Hook.firstDefaultValue :=
               Hook.firstDefaultValue (World.pending w) |};
        World.notifications :=
          if Params.onChange params
          then (World.notifications w ++ [OnChange value])%list
          else World.notifications w |}).
Proof. reflexivity. Qed.

(** The narrowing of the selection returns, sends no value, and leaves
    the sections, the two values and the fallback text of the state as
    they were rendered. *)
Lemma collapseSelection_run :
  run hook (collapseSelection params hook)
    = (Returned tt, afterCollapse params hook)
  /\ State.sections (Hook.state (World.pending (afterCollapse params hook)))
     = State.sections (Hook.state hook)
  /\ State.value (Hook.state (World.pending (afterCollapse params hook)))
     = State.value (Hook.state hook)
  /\ State.referenceValue
       (Hook.state (World.pending (afterCollapse params hook)))
     = State.referenceValue (Hook.state hook)
  /\ State.tempValueStrAndroid
       (Hook.state (World.pending (afterCollapse params hook)))
     = State.tempValueStrAndroid (Hook.state hook)
  /\ changes (World.notifications (afterCollapse params hook)) = [].
Proof.
  unfold afterCollapse, collapseSelection, run.
  destruct (selectedSectionIndexes params hook) as [indexes|];
    [|repeat split].
  destruct (negb (startIndex indexes =? endIndex indexes)%Z);
    [|repeat split].
  unfold setSelectedSections, bind, innerSetSelectedSections, notify,
    setState; cbn.
  destruct (Params.onSelectedSectionsChange params); repeat split.
Qed.

Lemma updateSectionValue_collapses
    (k : M TValue Other Query unit) :
  run hook (collapseSelection params hook ;;; k)
  = k (afterCollapse params hook).
Proof.
  destruct collapseSelection_run as [Hrun _].
  unfold run in *. unfold bind. now rewrite Hrun.
Qed.

(** The valid-date path. *)
Lemma updateSectionValue_valid_date (activeDate : TDate) :
  activeDateManager.activeDate (activeDateManagerOf params hook args)
    = Some activeDate ->
  utils.isValid utils (Some activeDate) = true ->
  run hook (updateSectionValue utils helpers params hook args)
  = publishValue params hook
      (activeDateManager.getNewValueFromNewActiveDate
         (activeDateManagerOf params hook args)
         (Some (UpdateSectionValueParams.setSectionValueOnDate args
                  activeDate (boundaries utils helpers))))
      (afterCollapse params hook).
Proof.
  intros Hactive Hvalid.
  unfold updateSectionValue.
  fold (collapseSelection params hook).
  rewrite updateSectionValue_collapses.
  fold (activeDateManagerOf params hook args).
  now rewrite Hactive, Hvalid.
Qed.

(** The invalid-date path without a selection. *)
Lemma updateSectionValue_no_selection :
  activeDateIsValid utils params hook args = false ->
  selectedSectionIndexes params hook = None ->
  run hook (updateSectionValue utils helpers params hook args)
  = (Thrown TypeError,
     {| World.pending := hook; World.notifications := [] |}).
Proof.
  intros Hinvalid Hsel.
  unfold updateSectionValue, run, bind. rewrite Hsel. cbn [ret].
  unfold activeDateIsValid, activeDateManagerOf in Hinvalid.
  destruct (activeDateManager.activeDate _) as [activeDate|];
    [rewrite Hinvalid|]; reflexivity.
Qed.

(** The invalid-date path when the candidate date is valid. *)
Lemma updateSectionValue_merges
    (indexes : FieldSelectedSectionsIndexes) (date : TDate) :
  activeDateIsValid utils params hook args = false ->
  selectedSectionIndexes params hook = Some indexes ->
  candidateDate utils helpers params
    (editedDateSections utils helpers params hook args indexes) = Some date ->
  utils.isValid utils (Some date) = true ->
  run hook (updateSectionValue utils helpers params hook args)
  = publishValue params hook
      (activeDateManager.getNewValueFromNewActiveDate
         (activeDateManagerOf params hook args)
         (Some (mergeDate utils
                  (activeDateManager.referenceActiveDate
                     (activeDateManagerOf params hook args))
                  date
                  (editedDateSections utils helpers params hook args
                     indexes))))
      (afterCollapse params hook).
Proof.
  intros Hinvalid Hsel Hcandidate Hvalid.
  unfold updateSectionValue.
  fold (collapseSelection params hook).
  rewrite updateSectionValue_collapses.
  fold (activeDateManagerOf params hook args).
  rewrite Hsel.
  fold (editedSections utils helpers hook args indexes).
  fold (editedDateSections utils helpers params hook args indexes).
  rewrite Hcandidate, Hvalid.
  unfold activeDateIsValid in Hinvalid.
  destruct (activeDateManager.activeDate _) as [activeDate|];
    [rewrite Hinvalid|]; reflexivity.
Qed.

(** The invalid-date path when the candidate date is not valid. *)
Lemma updateSectionValue_keeps_editing
    (indexes : FieldSelectedSectionsIndexes) :
  activeDateIsValid utils params hook args = false ->
  selectedSectionIndexes params hook = Some indexes ->
  match candidateDate utils helpers params
          (editedDateSections utils helpers params hook args indexes) with
  | Some date => utils.isValid utils (Some date)
  | None => false
  end = false ->
  run hook (updateSectionValue utils helpers params hook args)
  = (Returned tt,
     {| World.pending :=
          {| Hook.state :=
               {| State.sections :=
                    editedSections utils helpers hook args indexes;
                  State.value :=
                    fst (activeDateManager.getNewValueFromNewActiveDate
                           (activeDateManagerOf params hook args)
                           (candidateDate utils helpers params
                              (editedDateSections utils helpers params hook
                                 args indexes)));
                  State.referenceValue :=
                    snd (activeDateManager.getNewValueFromNewActiveDate
                           (activeDateManagerOf params hook args)
                           (candidateDate utils helpers params
                              (editedDateSections utils helpers params hook
                                 args indexes)));
                  State.tempValueStrAndroid := None;
                  State.selectedSectionQuery :=
                    State.selectedSectionQuery
                      (Hook.state
                         (World.pending (afterCollapse params hook))) |};
             Hook.innerSelectedSections :=
               Hook.innerSelectedSections
                 (World.pending (afterCollapse params hook));
             Hook.firstDefaultValue :=
               Hook.firstDefaultValue
                 (World.pending (afterCollapse params hook)) |};
        World.notifications :=
          World.notifications (afterCollapse params hook) |}).
Proof.
  intros Hinvalid Hsel Hcandidate.
  unfold updateSectionValue.
  fold (collapseSelection params hook).
  rewrite updateSectionValue_collapses.
  fold (activeDateManagerOf params hook args).
  rewrite Hsel.
  fold (editedSections utils helpers hook args indexes).
  fold (editedDateSections utils helpers params hook args indexes).
  unfold activeDateIsValid in Hinvalid.
  destruct (activeDateManager.getNewValueFromNewActiveDate _ _)
    as [value referenceValue] eqn:Hnew.
  assert (Hkeep :
    match candidateDate utils helpers params
            (editedDateSections utils helpers params hook args indexes) with
    | Some date =>
        if utils.isValid utils (Some date)
        then publishValue params hook
               (activeDateManager.getNewValueFromNewActiveDate
                  (activeDateManagerOf params hook args)
                  (Some (mergeDate utils
                           (activeDateManager.referenceActiveDate
                              (activeDateManagerOf params hook args))
                           date
                           (editedDateSections utils helpers params hook
                              args indexes))))
        else
          setState (fun prevState =>
            {| State.sections := editedSections utils helpers hook args indexes;
               State.value := value;
               State.referenceValue := referenceValue;
               State.tempValueStrAndroid := None;
               State.selectedSectionQuery :=
                 State.selectedSectionQuery prevState |})
    | None =>
        setState (fun prevState =>
          {| State.sections := editedSections utils helpers hook args indexes;
             State.value := value;
             State.referenceValue := referenceValue;
             State.tempValueStrAndroid := None;
             State.selectedSectionQuery :=
               State.selectedSectionQuery prevState |})
    end (afterCollapse params hook)
    = (Returned tt,
       {| World.pending :=
            {| Hook.state :=
                 {| State.sections :=
                      editedSections utils helpers hook args indexes;
                    State.value := value;
                    State.referenceValue := referenceValue;
                    State.tempValueStrAndroid := None;
                    State.selectedSectionQuery :=
                      State.selectedSectionQuery
                        (Hook.state
                           (World.pending (afterCollapse params hook))) |};
               Hook.innerSelectedSections :=
                 Hook.innerSelectedSections
                   (World.pending (afterCollapse params hook));
               Hook.firstDefaultValue :=
                 Hook.firstDefaultValue
                   (World.pending (afterCollapse params hook)) |};
          World.notifications :=
            World.notifications (afterCollapse params hook) |})).
  { destruct (candidateDate _ _ _ _) as [date|];
      [rewrite Hcandidate|]; reflexivity. }
  cbn [fst snd].
  destruct (activeDateManager.activeDate _) as [activeDate|];
    [rewrite Hinvalid|]; exact Hkeep.
Qed.

End UpdateSectionValueRuns.

(** C4.  On the invalid-date path of [updateSectionValue], when the date
    parsed from the sections is still not valid once the day clamp has been
    tried, no value is published: the call returns, [onChange] is told of
    no value, and the state keeps the sections with the text of the edit,
    the value and the reference value the manager of the active date makes
    of the date parsed, [null] or not, and an empty fallback text. *)
Theorem updateSectionValue_invalid_candidate_is_kept_in_state :
  forall (TValue TDate Other Query Boundaries Supported : Type)
         (utils : FieldState.utils.t TDate)
         (helpers : FieldState.fieldUtils.t TDate Other Boundaries Supported)
         (params : FieldState.Params.t TValue TDate Other Query Supported)
         (hook : FieldState.Hook.t TValue Other Query)
         (args : FieldState.UpdateSectionValueParams.t TDate Other Boundaries)
         (indexes : FieldState.FieldSelectedSectionsIndexes),
    FieldNotions.activeDateIsValid utils params hook args = false ->
    FieldState.selectedSectionIndexes params hook = Some indexes ->
    match
      FieldState.candidateDate utils helpers params
        (FieldNotions.editedDateSections utils helpers params hook args
           indexes)
    with
    | Some date => FieldState.utils.isValid utils (Some date)
    | None => false
    end = false ->
    let outcome :=
      FieldState.run hook
        (FieldState.updateSectionValue utils helpers params hook args) in
    let state' := FieldState.Hook.state (FieldState.World.pending (snd outcome)) in
    fst outcome = FieldState.Returned tt
    /\ FieldNotions.changes (FieldState.World.notifications (snd outcome)) = []
    /\ FieldState.State.sections state'
       = FieldNotions.editedSections utils helpers hook args indexes
    /\ (FieldState.State.value state', FieldState.State.referenceValue state')
       = FieldState.activeDateManager.getNewValueFromNewActiveDate
           (FieldNotions.activeDateManagerOf params hook args)
           (FieldState.candidateDate utils helpers params
              (FieldNotions.editedDateSections utils helpers params hook
                 args indexes))
    /\ FieldState.State.tempValueStrAndroid state' = None.
Proof.
  intros TValue TDate Other Query Boundaries Supported utils helpers params
         hook args indexes Hinvalid Hsel Hcandidate outcome state'.
  subst state' outcome.
  rewrite (@updateSectionValue_keeps_editing _ _ _ _ _ _ utils helpers params
             hook args indexes Hinvalid Hsel Hcandidate).
  cbn [fst snd FieldState.World.pending FieldState.World.notifications
       FieldState.Hook.state FieldState.State.sections FieldState.State.value
       FieldState.State.referenceValue FieldState.State.tempValueStrAndroid].
  destruct (collapseSelection_run params hook)
    as (_ & _ & _ & _ & _ & Hchanges).
  repeat split; [exact Hchanges|].
  now destruct (FieldState.activeDateManager.getNewValueFromNewActiveDate _ _).
Qed.

(** The theorem at work on the plain calendar: the day [31] typed in an
    empty field.  The text [/31/] is no date: nothing is published, and
    the state keeps the text. *)
Lemma updateSectionValue_invalid_candidate_witness :
  let outcome :=
    FieldState.run PlainCalendar.emptyDateField
      (FieldState.updateSectionValue PlainCalendar.utils
         PlainCalendar.helpers (PlainCalendar.params "MM/dd/yyyy")
         PlainCalendar.emptyDateField
         (PlainCalendar.typed
            (PlainCalendar.section FieldState.day "" false "/") "31")) in
  let state' := FieldState.Hook.state (FieldState.World.pending (snd outcome)) in
  fst outcome = FieldState.Returned tt
  /\ FieldNotions.changes (FieldState.World.notifications (snd outcome)) = []
  /\ FieldState.State.sections state'
     = [PlainCalendar.section FieldState.month "" false "/";
        PlainCalendar.section FieldState.day "31" true "/";
        PlainCalendar.section FieldState.year "" false ""]
  /\ FieldState.State.value state' = None
  /\ FieldState.State.tempValueStrAndroid state' = None.
Proof.
  destruct (@updateSectionValue_invalid_candidate_is_kept_in_state
              _ _ _ _ _ _ PlainCalendar.utils PlainCalendar.helpers
              (PlainCalendar.params "MM/dd/yyyy")
              PlainCalendar.emptyDateField
              (PlainCalendar.typed
                 (PlainCalendar.section FieldState.day "" false "/") "31")
              {| FieldState.startIndex := 1; FieldState.endIndex := 1 |}
              eq_refl eq_refl eq_refl)
    as (Hreturned & Hchanges & Hsections & Hvalue & Htemp).
  exact (conj Hreturned
           (conj Hchanges
              (conj Hsections (conj (f_equal fst Hvalue) Htemp)))).
Defined.


(** C9.  On the invalid-date path, [updateSectionValue] reads
    [selectedSectionIndexes!.startIndex] without a check: the call throws
    a [TypeError] exactly when no section is selected, and returns as soon
    as a selection exists. *)
Theorem updateSectionValue_invalid_date_needs_selection :
  forall (TValue TDate Other Query Boundaries Supported : Type)
         (utils : FieldState.utils.t TDate)
         (helpers : FieldState.fieldUtils.t TDate Other Boundaries Supported)
         (params : FieldState.Params.t TValue TDate Other Query Supported)
         (hook : FieldState.Hook.t TValue Other Query)
         (args : FieldState.UpdateSectionValueParams.t TDate Other Boundaries),
    FieldNotions.activeDateIsValid utils params hook args = false ->
    (fst (FieldState.run hook
            (FieldState.updateSectionValue utils helpers params hook args))
       = FieldState.Thrown FieldState.TypeError
     <-> FieldState.selectedSectionIndexes params hook = None)
    /\ (forall indexes,
          FieldState.selectedSectionIndexes params hook = Some indexes ->
          fst (FieldState.run hook
                 (FieldState.updateSectionValue utils helpers params hook
                    args))
          = FieldState.Returned tt).
Proof.
  intros TValue TDate Other Query Boundaries Supported utils helpers params
         hook args Hinvalid.
  assert (Hsome : forall indexes,
            FieldState.selectedSectionIndexes params hook = Some indexes ->
            fst (FieldState.run hook
                   (FieldState.updateSectionValue utils helpers params hook
                      args))
            = FieldState.Returned tt).
  { intros indexes Hsel.
    destruct (FieldState.candidateDate utils helpers params
                (FieldNotions.editedDateSections utils helpers params hook
                   args indexes)) as [date|] eqn:Hcandidate.
    - destruct (FieldState.utils.isValid utils (Some date)) eqn:Hvalid.
      + rewrite (@updateSectionValue_merges _ _ _ _ _ _ utils helpers params
                   hook args indexes date Hinvalid Hsel Hcandidate Hvalid).
        now destruct (FieldState.activeDateManager.getNewValueFromNewActiveDate
                        _ _).
      + rewrite (@updateSectionValue_keeps_editing _ _ _ _ _ _ utils helpers
                   params hook args indexes Hinvalid Hsel); [reflexivity|].
        now rewrite Hcandidate.
    - rewrite (@updateSectionValue_keeps_editing _ _ _ _ _ _ utils helpers
                 params hook args indexes Hinvalid Hsel); [reflexivity|].
      now rewrite Hcandidate. }
  split; [|exact Hsome].
  destruct (FieldState.selectedSectionIndexes params hook) as [indexes|]
    eqn:Hsel.
  - rewrite (Hsome indexes eq_refl). split; discriminate.
  - rewrite (@updateSectionValue_no_selection _ _ _ _ _ _ utils helpers
               params hook args Hinvalid Hsel).
    split; reflexivity.
Qed.

(** The theorem at work on the plain calendar: [PM] typed in the meridiem
    of a field whose date is unset throws when no section is selected, and
    returns when the meridiem is. *)
Lemma updateSectionValue_invalid_date_needs_selection_witness :
  fst (FieldState.run PlainCalendar.unselectedField
         (FieldState.updateSectionValue PlainCalendar.utils
            PlainCalendar.helpers (PlainCalendar.params "hh:mm aa")
            PlainCalendar.unselectedField
            (PlainCalendar.typed
               (PlainCalendar.section FieldState.meridiem "" true "") "PM")))
  = FieldState.Thrown FieldState.TypeError
  /\ fst (FieldState.run PlainCalendar.morningField
            (FieldState.updateSectionValue PlainCalendar.utils
               PlainCalendar.helpers (PlainCalendar.params "hh:mm aa")
               PlainCalendar.morningField
               (PlainCalendar.typed
                  (PlainCalendar.section FieldState.meridiem "" true "")
                  "PM")))
     = FieldState.Returned tt.
Proof.
  split.
  - apply (@updateSectionValue_invalid_date_needs_selection
             _ _ _ _ _ _ PlainCalendar.utils PlainCalendar.helpers
             (PlainCalendar.params "hh:mm aa") PlainCalendar.unselectedField
             (PlainCalendar.typed
                (PlainCalendar.section FieldState.meridiem "" true "") "PM")
             eq_refl).
    reflexivity.
  - apply (proj2
             (@updateSectionValue_invalid_date_needs_selection
                _ _ _ _ _ _ PlainCalendar.utils PlainCalendar.helpers
                (PlainCalendar.params "hh:mm aa") PlainCalendar.morningField
                (PlainCalendar.typed
                   (PlainCalendar.section FieldState.meridiem "" true "") "PM")
                eq_refl)
             {| FieldState.startIndex := 2; FieldState.endIndex := 2 |}).
    reflexivity.
Defined.

(** No value is told of in a list of notifications that holds no
    [OnChange]. *)
Ltac no_change Hin :=
  cbn in Hin;
  repeat (destruct Hin as [Hin|Hin]; [try discriminate Hin|]);
  try contradiction.

Section EveryAction.
Import FieldState FieldNotions.
Variables TValue TDate Other Query Boundaries Supported : Type.
Variable utils : utils.t TDate.
Variable helpers : fieldUtils.t TDate Other Boundaries Supported.
Variable params : Params.t TValue TDate Other Query Supported.
Variable hook : Hook.t TValue Other Query.

Lemma in_changes (value : TValue) (l : list (Notification TValue)) :
  In (OnChange value) l -> In value (changes l).
Proof.
  induction l as [|[v|sel] l IH]; cbn; [tauto| |].
  - intros [Heq|Hin]; [left; congruence|right; auto].
  - intros [Heq|Hin]; [discriminate|auto].
Qed.

(** The state and the notifications a published value leaves, on top of
    the narrowing of the selection. *)
Lemma publishValue_after_collapse (newValue : TValue * TValue) :
  let outcome := publishValue params hook newValue (afterCollapse params hook) in
  let state' := Hook.state (World.pending (snd outcome)) in
  fst outcome = Returned tt
  /\ State.sections state'
     = fieldValueManager.getSectionsFromValue
         (Params.fieldValueManager params)
         (Some (State.sections (Hook.state hook)))
         (fst newValue) (Params.format params)
  /\ State.value state' = fst newValue
  /\ State.referenceValue state' = snd newValue
  /\ State.tempValueStrAndroid state' = None
  /\ changes (World.notifications (snd outcome))
     = if Params.onChange params then [fst newValue] else [].
Proof.
  destruct newValue as [value referenceValue]. cbn zeta.
  rewrite publishValue_run. cbn.
  destruct (collapseSelection_run params hook)
    as (_ & _ & _ & _ & _ & Hchanges).
  repeat split.
  destruct (Params.onChange params); [|exact Hchanges].
  now rewrite changes_app, Hchanges.
Qed.

(** The ways [updateSectionValue] ends: on a published value, on the
    error of the missing selection, or on an edit kept in the state. *)
Lemma updateSectionValue_ends
    (args : UpdateSectionValueParams.t TDate Other Boundaries) :
  let outcome :=
    run hook (updateSectionValue utils helpers params hook args) in
  (exists newValue,
     outcome = publishValue params hook newValue (afterCollapse params hook))
  \/ outcome
     = (Thrown TypeError,
        {| World.pending := hook; World.notifications := [] |})
  \/ (fst outcome = Returned tt
      /\ State.tempValueStrAndroid (Hook.state (World.pending (snd outcome)))
         = None
      /\ changes (World.notifications (snd outcome)) = []).
Proof.
  cbn zeta.
  destruct (activeDateIsValid utils params hook args) eqn:Hactive.
  - unfold activeDateIsValid in Hactive.
    destruct (activeDateManager.activeDate
                (activeDateManagerOf params hook args))
      as [activeDate|] eqn:Hdate; [|discriminate].
    rewrite (@updateSectionValue_valid_date _ _ _ _ _ _ utils helpers params
               hook args activeDate Hdate Hactive).
    left. eexists. reflexivity.
  - destruct (selectedSectionIndexes params hook) as [indexes|] eqn:Hsel.
    + assert (Hediting :
        match candidateDate utils helpers params
                (editedDateSections utils helpers params hook args indexes)
        with
        | Some date => utils.isValid utils (Some date)
        | None => false
        end = false ->
        let outcome :=
          run hook (updateSectionValue utils helpers params hook args) in
        fst outcome = Returned tt
        /\ State.tempValueStrAndroid
             (Hook.state (World.pending (snd outcome))) = None
        /\ changes (World.notifications (snd outcome)) = []).
      { intros Hcandidate. cbn zeta.
        rewrite (@updateSectionValue_keeps_editing _ _ _ _ _ _ utils helpers
                   params hook args indexes Hactive Hsel Hcandidate).
        cbn. repeat split.
        now destruct (collapseSelection_run params hook)
          as (_ & _ & _ & _ & _ & Hchanges). }
      destruct (candidateDate utils helpers params
                  (editedDateSections utils helpers params hook args indexes))
        as [date|] eqn:Hcandidate; [|right; right; now apply Hediting].
      destruct (utils.isValid utils (Some date)) eqn:Hvalid;
        [|right; right; now apply Hediting].
      rewrite (@updateSectionValue_merges _ _ _ _ _ _ utils helpers params
                 hook args indexes date Hactive Hsel Hcandidate Hvalid).
      left. eexists. reflexivity.
    + rewrite (@updateSectionValue_no_selection _ _ _ _ _ _ utils helpers
                 params hook args Hactive Hsel).
      right. left. reflexivity.
Qed.

(** A value told to [onChange] is the value of the state, and the
    sections of the state are rebuilt from it. *)
Lemma onChange_value_rebuilds_sections
    (action : Action TDate Other Boundaries) (value : TValue) :
  let outcome := run hook (perform utils helpers params hook action) in
  In (OnChange value) (World.notifications (snd outcome)) ->
  State.value (Hook.state (World.pending (snd outcome))) = value
  /\ State.sections (Hook.state (World.pending (snd outcome)))
     = fieldValueManager.getSectionsFromValue
         (Params.fieldValueManager params)
         (Some (State.sections (Hook.state hook))) value
         (Params.format params).
Proof.
  cbn zeta.
  destruct action as [sel| | |args|text| |]; cbn [perform].
  - unfold run, setSelectedSections, bind, innerSetSelectedSections, notify,
      setState; cbn.
    destruct (Params.onSelectedSectionsChange params); intros Hin;
      no_change Hin.
  - unfold clearValue, run. rewrite publishValue_run. cbn.
    destruct (Params.onChange params); intros Hin; [|no_change Hin].
    destruct Hin as [Hin|[]]. injection Hin as <-. split; reflexivity.
  - unfold run, clearActiveSection.
    destruct (selectedSectionIndexes params hook);
      [|intros Hin; no_change Hin].
    destruct (activeDateManager.getNewValueFromNewActiveDate _ _).
    intros Hin; no_change Hin.
  - destruct (updateSectionValue_ends args)
      as [[newValue ->]|[->|(_ & _ & Hchanges)]].
    + intros Hin. apply in_changes in Hin.
      destruct (publishValue_after_collapse newValue)
        as (_ & Hsections & Hvalue & _ & _ & Hchanges).
      rewrite Hchanges in Hin.
      destruct (Params.onChange params); [|destruct Hin].
      destruct Hin as [<-|[]]. split; [exact Hvalue|exact Hsections].
    + intros Hin; no_change Hin.
    + intros Hin. apply in_changes in Hin. rewrite Hchanges in Hin.
      destruct Hin.
  - intros Hin; no_change Hin.
  - unfold run, syncValueFromTheOutside.
    destruct (negb _); intros Hin; no_change Hin.
  - unfold run, syncFormat.
    destruct (fieldUtils.validateSections _ _ _); intros Hin; no_change Hin.
Qed.

End EveryAction.

(** C8.  [clearValue] returns with the value of the state set to the
    empty value of the value manager and its reference value as it was,
    tells [onChange], when there is one, of the empty value and of nothing
    else, and rebuilds the sections from the empty value.  So does every
    publication: [publishValue] always stores the sections rebuilt from
    the value it is given, and, whatever the hook is asked to do, a value
    it tells [onChange] of is the value the state is left with, the
    sections of the state being the ones rebuilt from it. *)
Theorem clearValue_publishes_empty_value :
  forall (TValue TDate Other Query Boundaries Supported : Type)
         (utils : FieldState.utils.t TDate)
         (helpers : FieldState.fieldUtils.t TDate Other Boundaries Supported)
         (params : FieldState.Params.t TValue TDate Other Query Supported)
         (hook : FieldState.Hook.t TValue Other Query),
    let rebuilt value :=
      FieldState.fieldValueManager.getSectionsFromValue
        (FieldState.Params.fieldValueManager params)
        (Some (FieldState.State.sections (FieldState.Hook.state hook)))
        value (FieldState.Params.format params) in
    let emptyValue :=
      FieldState.valueManager.emptyValue
        (FieldState.Params.valueManager params) in
    let cleared := FieldState.run hook (FieldState.clearValue params hook) in
    let state' := FieldState.Hook.state (FieldState.World.pending (snd cleared)) in
    fst cleared = FieldState.Returned tt
    /\ FieldState.State.value state' = emptyValue
    /\ FieldState.State.referenceValue state'
       = FieldState.State.referenceValue (FieldState.Hook.state hook)
    /\ FieldState.World.notifications (snd cleared)
       = (if FieldState.Params.onChange params
          then [FieldState.OnChange emptyValue] else [])
    /\ FieldState.State.sections state' = rebuilt emptyValue
    /\ (forall (newValue : TValue * TValue)
               (w : FieldState.World.t TValue Other Query),
          FieldState.State.sections
            (FieldState.Hook.state
               (FieldState.World.pending
                  (snd (FieldState.publishValue params hook newValue w))))
          = rebuilt (fst newValue))
    /\ (forall (action : FieldState.Action TDate Other Boundaries)
               (value : TValue),
          let outcome :=
            FieldState.run hook
              (FieldState.perform utils helpers params hook action) in
          In (FieldState.OnChange value)
             (FieldState.World.notifications (snd outcome)) ->
          FieldState.State.value
            (FieldState.Hook.state (FieldState.World.pending (snd outcome)))
          = value
          /\ FieldState.State.sections
               (FieldState.Hook.state (FieldState.World.pending (snd outcome)))
             = rebuilt value).
Proof.
  intros TValue TDate Other Query Boundaries Supported utils helpers params
         hook rebuilt emptyValue cleared state'.
  subst cleared state'.
  split; [reflexivity|]. split; [reflexivity|]. split; [reflexivity|].
  split.
  { unfold FieldState.clearValue, FieldState.run. rewrite publishValue_run.
    cbn. now destruct (FieldState.Params.onChange params). }
  split; [reflexivity|].
  split.
  { intros [value referenceValue] w. now rewrite publishValue_run. }
  intros action value.
  exact (onChange_value_rebuilds_sections utils helpers params hook action
           value).
Qed.

(** C10.  The fallback text [tempValueStrAndroid] is [null] after
    [clearValue] and after every call of [updateSectionValue] that
    returns, on its two publishing paths and on the path that keeps the
    edit in the state; [setTempAndroidValueStr] stores the text it is
    given, as it is; the effect that follows the value from the outside
    leaves the fallback text as it was; and so does, unless it makes it
    [null], whatever else the hook is asked to do but
    [setTempAndroidValueStr]. *)
Theorem tempValueStrAndroid_is_reset_by_edits :
  forall (TValue TDate Other Query Boundaries Supported : Type)
         (utils : FieldState.utils.t TDate)
         (helpers : FieldState.fieldUtils.t TDate Other Boundaries Supported)
         (params : FieldState.Params.t TValue TDate Other Query Supported)
         (hook : FieldState.Hook.t TValue Other Query),
    let outcome action :=
      FieldState.run hook
        (FieldState.perform utils helpers params hook action) in
    let fallback action :=
      FieldState.State.tempValueStrAndroid
        (FieldState.Hook.state
           (FieldState.World.pending (snd (outcome action)))) in
    let before :=
      FieldState.State.tempValueStrAndroid (FieldState.Hook.state hook) in
    fallback (FieldState.ClearValue TDate Other Boundaries) = None
    /\ (forall args,
          fst (outcome (FieldState.UpdateSectionValue args))
            = FieldState.Returned tt ->
          fallback (FieldState.UpdateSectionValue args) = None)
    /\ (forall text,
          fallback (FieldState.SetTempAndroidValueStr TDate Other Boundaries
                      text)
          = Some text)
    /\ fallback (FieldState.SyncValueFromTheOutside TDate Other Boundaries)
       = before
    /\ (forall action,
          (forall text,
             action <> FieldState.SetTempAndroidValueStr TDate Other
                         Boundaries text) ->
          fallback action = None \/ fallback action = before).
Proof.
  intros TValue TDate Other Query Boundaries Supported utils helpers params
         hook outcome fallback before.
  assert (Hupdate : forall args,
            fallback (FieldState.UpdateSectionValue args) = None
            \/ (fst (outcome (FieldState.UpdateSectionValue args))
                  = FieldState.Thrown FieldState.TypeError
                /\ fallback (FieldState.UpdateSectionValue args) = before)).
  { intros args. subst fallback outcome before. cbn [FieldState.perform].
    destruct (updateSectionValue_ends utils helpers params hook args)
      as [[newValue ->]|[->|(_ & Htemp & _)]].
    - left. now destruct (publishValue_after_collapse params hook newValue)
        as (_ & _ & _ & _ & Htemp & _).
    - right. split; reflexivity.
    - left. exact Htemp. }
  assert (Hsync :
            fallback (FieldState.SyncValueFromTheOutside TDate Other Boundaries)
            = before).
  { subst fallback outcome before. cbn [FieldState.perform].
    unfold FieldState.run, FieldState.syncValueFromTheOutside.
    now destruct (negb _). }
  split; [reflexivity|].
  split.
  { intros args Hreturned.
    destruct (Hupdate args) as [Hnone|[Hthrown _]]; [exact Hnone|].
    rewrite Hthrown in Hreturned. discriminate. }
  split; [reflexivity|].
  split; [exact Hsync|].
  intros action Hother.
  destruct action as [sel| | |args|text| |].
  - right. reflexivity.
  - left. reflexivity.
  - right. subst fallback outcome before. cbn [FieldState.perform].
    unfold FieldState.run, FieldState.clearActiveSection.
    destruct (FieldState.selectedSectionIndexes params hook); [|reflexivity].
    now destruct (FieldState.activeDateManager.getNewValueFromNewActiveDate
                    _ _).
  - destruct (Hupdate args) as [Hnone|[_ Hbefore]]; [left|right]; assumption.
  - exfalso. exact (Hother text eq_refl).
  - right. exact Hsync.
  - right. subst fallback outcome before. cbn [FieldState.perform].
    unfold FieldState.run, FieldState.syncFormat.
    now destruct (FieldState.fieldUtils.validateSections _ _ _).
Qed.


Section DayClamp.
Import FieldState FieldNotions.
Variables TDate Other : Type.
Variable utils : utils.t TDate.

Lemma hasNonEmptyValue_true (section : FieldSection Other) :
  hasNonEmptyValue section = true <-> value section <> "".
Proof.
  unfold hasNonEmptyValue. rewrite negb_true_iff. apply String.eqb_neq.
Qed.

Lemma hasDateSectionName_true (name : MuiDateSectionName)
    (section : FieldSection Other) :
  hasDateSectionName name section = true
  <-> dateSectionName section = Some name.
Proof.
  unfold hasDateSectionName.
  destruct (dateSectionName section) as [name'|]; [|split; discriminate].
  destruct name', name; cbn; split; congruence.
Qed.

(** The test that guards the day clamp, read as the three conditions it
    is made of. *)
Lemma dayClampApplies_true (newDate : option TDate)
    (activeDateSections : list (FieldSection Other)) :
  dayClampApplies utils newDate activeDateSections = true
  <-> utils.isValid utils newDate = false
      /\ Forall (fun section => value section <> "") activeDateSections
      /\ Exists (fun section => dateSectionName section = Some day)
           activeDateSections.
Proof.
  unfold dayClampApplies.
  rewrite !andb_true_iff, negb_true_iff, forallb_forall, existsb_exists,
    Forall_forall, Exists_exists.
  split.
  - intros [[Hvalid Hall] (section & Hin & Hday)].
    repeat split; [exact Hvalid| |].
    + intros s Hs. now apply hasNonEmptyValue_true, Hall.
    + exists section. split; [exact Hin|].
      now apply hasDateSectionName_true.
  - intros (Hvalid & Hall & section & Hin & Hday).
    repeat split; [exact Hvalid| |].
    + intros s Hs. now apply hasNonEmptyValue_true, Hall.
    + exists section. split; [exact Hin|].
      now apply hasDateSectionName_true.
Qed.

End DayClamp.

Section ClampDaySectionIsRead.
Import FieldState FieldNotions.
Variables TValue TDate Other Query Boundaries Supported : Type.
Variable utils : utils.t TDate.
Variable helpers : fieldUtils.t TDate Other Boundaries Supported.
Variable params : Params.t TValue TDate Other Query Supported.
Variable hook : Hook.t TValue Other Query.
Variable args : UpdateSectionValueParams.t TDate Other Boundaries.
Variable clampDaySection' :
  FieldState.utils.t TDate -> list (FieldSection Other) -> Boundaries ->
  string -> option (list (FieldSection Other)).

(** On the invalid-date path, [clampDaySection] only bears on the edit
    through the candidate date. *)
Lemma updateSectionValue_reads_clampDaySection
    (indexes : FieldSelectedSectionsIndexes) :
  activeDateIsValid utils params hook args = false ->
  selectedSectionIndexes params hook = Some indexes ->
  candidateDate utils (withClampDaySection helpers clampDaySection') params
    (editedDateSections utils helpers params hook args indexes)
  = candidateDate utils helpers params
      (editedDateSections utils helpers params hook args indexes) ->
  run hook
    (updateSectionValue utils (withClampDaySection helpers clampDaySection')
       params hook args)
  = run hook (updateSectionValue utils helpers params hook args).
Proof.
  intros Hinvalid Hsel Hsame.
  set (helpers' := withClampDaySection helpers clampDaySection') in *.
  assert (Hsections :
            editedDateSections utils helpers' params hook args indexes
            = editedDateSections utils helpers params hook args indexes)
    by reflexivity.
  destruct (match candidateDate utils helpers params
                    (editedDateSections utils helpers params hook args
                       indexes) with
            | Some date => utils.isValid utils (Some date)
            | None => false
            end) eqn:Hcandidate.
  - destruct (candidateDate utils helpers params
                (editedDateSections utils helpers params hook args indexes))
      as [date|] eqn:Hdate; [|discriminate].
    rewrite (@updateSectionValue_merges _ _ _ _ _ _ utils helpers params hook
               args indexes date Hinvalid Hsel Hdate Hcandidate).
    rewrite (@updateSectionValue_merges _ _ _ _ _ _ utils helpers' params
               hook args indexes date Hinvalid Hsel);
      [reflexivity|now rewrite Hsections, Hsame|exact Hcandidate].
  - rewrite (@updateSectionValue_keeps_editing _ _ _ _ _ _ utils helpers
               params hook args indexes Hinvalid Hsel Hcandidate).
    rewrite (@updateSectionValue_keeps_editing _ _ _ _ _ _ utils helpers'
               params hook args indexes Hinvalid Hsel);
      [|now rewrite Hsections, Hsame].
    rewrite Hsections, Hsame. reflexivity.
Qed.

End ClampDaySectionIsRead.

Section Merge.
Import FieldState FieldNotions.
Variables TDate Other : Type.
Variable utils : utils.t TDate.

(** An edited meridiem section leaves the date it is merged into as it
    is, whatever the date parsed from the sections: the half of the day is
    read from the date that is merged into, and written back to it. *)
Lemma mergeSection_meridiem (newDate mergedDate : TDate)
    (section : FieldSection Other) :
  dateSectionName section = Some meridiem ->
  mergeSection utils newDate mergedDate section = mergedDate.
Proof.
  intros Hname. unfold mergeSection, applySectionValueToDate.
  rewrite Hname.
  destruct (edited section); [|reflexivity].
  destruct (utils.getHours utils mergedDate <? 12)%Z eqn:Hmorning.
  - apply Z.ltb_lt in Hmorning.
    destruct (12 <=? utils.getHours utils mergedDate)%Z eqn:Hafternoon;
      [|reflexivity].
    apply Z.leb_le in Hafternoon. lia.
  - reflexivity.
Qed.

(** An edited section that stands for a component writes on the date it
    is merged into, with the setter of this component, what the getter of
    the component reads on the date parsed from the sections. *)
Lemma mergeSection_component (c : Component) (newDate mergedDate : TDate)
    (section : FieldSection Other) :
  edited section = true ->
  dateSectionName section = Some (sectionNameOf c) ->
  mergeSection utils newDate mergedDate section
  = setComponent utils c mergedDate (getComponent utils c newDate).
Proof.
  intros Hedited Hname. unfold mergeSection, applySectionValueToDate.
  rewrite Hedited, Hname. now destruct c.
Qed.

(** The loop that builds [mergedDate] does what the specification says of
    the merge, on sections among which no meridiem is edited. *)
Lemma mergeDate_writes_edited_components (newDate : TDate)
    (activeDateSections : list (FieldSection Other)) :
  forall referenceActiveDate : TDate,
    (forall section,
       In section activeDateSections -> edited section = true ->
       dateSectionName section <> Some meridiem) ->
    mergeDate utils referenceActiveDate newDate activeDateSections
    = writeEditedComponents utils referenceActiveDate newDate
        activeDateSections.
Proof.
  unfold mergeDate.
  induction activeDateSections as [|section sections IH];
    intros referenceActiveDate Hnumeric; [reflexivity|].
  cbn [fold_left writeEditedComponents].
  rewrite IH by (intros s Hin; apply Hnumeric; now right).
  f_equal. unfold mergeSection.
  destruct (edited section) eqn:Hedited; [|reflexivity].
  pose proof (Hnumeric section (or_introl eq_refl) Hedited) as Hname.
  unfold applySectionValueToDate.
  destruct (dateSectionName section) as [[| | | | | |]|];
    try reflexivity.
  now contradiction Hname.
Qed.

(** A component keeps its value through the merge when every setter the
    merge calls keeps it. *)
Lemma mergeDate_keeps (c' : Component) (expected : Z) (newDate : TDate)
    (activeDateSections : list (FieldSection Other)) :
  forall referenceActiveDate : TDate,
    (forall section,
       In section activeDateSections -> edited section = true ->
       exists c,
         dateSectionName section = Some (sectionNameOf c)
         /\ setterKeeps utils newDate c c' expected) ->
    getComponent utils c' referenceActiveDate = expected ->
    getComponent utils c'
      (mergeDate utils referenceActiveDate newDate activeDateSections)
    = expected.
Proof.
  unfold mergeDate.
  induction activeDateSections as [|section sections IH];
    intros referenceActiveDate Hkeeps Hexpected; [exact Hexpected|].
  cbn [fold_left]. apply IH; [intros s Hin; apply Hkeeps; now right|].
  destruct (edited section) eqn:Hedited;
    [|unfold mergeSection; now rewrite Hedited].
  destruct (Hkeeps section (or_introl eq_refl) Hedited)
    as (c & Hname & Hsetter).
  rewrite (mergeSection_component c newDate referenceActiveDate section
             Hedited Hname).
  now apply Hsetter.
Qed.

(** A component is the one of the date parsed when the edited sections
    all stand for it and its setter writes what it is given. *)
Lemma mergeDate_copies (c : Component) (newDate : TDate)
    (activeDateSections : list (FieldSection Other)) :
  (forall date : TDate,
     getComponent utils c
       (setComponent utils c date (getComponent utils c newDate))
     = getComponent utils c newDate) ->
  forall referenceActiveDate : TDate,
    (forall section,
       In section activeDateSections -> edited section = true ->
       dateSectionName section = Some (sectionNameOf c)) ->
    getComponent utils c referenceActiveDate = getComponent utils c newDate
    \/ (exists section,
          In section activeDateSections /\ edited section = true) ->
    getComponent utils c
      (mergeDate utils referenceActiveDate newDate activeDateSections)
    = getComponent utils c newDate.
Proof.
  intros Hwrites. unfold mergeDate.
  induction activeDateSections as [|section sections IH];
    intros referenceActiveDate Hall Hsome.
  - destruct Hsome as [Hsame|(section & [] & _)]. exact Hsame.
  - cbn [fold_left]. apply IH.
    + intros s Hin. apply Hall. now right.
    + destruct (edited section) eqn:Hedited.
      * left.
        rewrite (mergeSection_component c newDate referenceActiveDate section
                   Hedited (Hall section (or_introl eq_refl) Hedited)).
        apply Hwrites.
      * unfold mergeSection at 1. rewrite Hedited.
        destruct Hsome as [Hsame|(s & [<-|Hin] & Hs)].
        -- now left.
        -- congruence.
        -- right. now exists s.
Qed.

End Merge.

(** C3.  On the invalid-date path of [updateSectionValue], the day clamp
    is tried exactly when the date parsed from the sections of the active
    date is not valid, every one of these sections has a text, and one of
    them is a day section.  When it is not tried, the date parsed stands
    and [clampDaySection] has no part in the edit: the call ends the same
    with any other [clampDaySection].  When it is tried, the sections
    [clampDaySection] gives, if it gives any, are parsed in the place of
    the sections of the active date.  When this second date is valid it is
    merged into the reference date and the result is published: the call
    returns with the value and the reference value the manager of the
    active date makes of the merged date, [onChange], when there is one,
    is told of this value and of nothing else, and the sections are
    rebuilt from it.  The merged date is the reference date on which the
    edited sections of the active date, the clamped day among them, have
    written their component of the second date: a component that the
    setters called keep is the one of the reference date. *)
Theorem updateSectionValue_day_clamp_recovery :
  forall (TValue TDate Other Query Boundaries Supported : Type)
         (utils : FieldState.utils.t TDate)
         (helpers : FieldState.fieldUtils.t TDate Other Boundaries Supported)
         (params : FieldState.Params.t TValue TDate Other Query Supported)
         (hook : FieldState.Hook.t TValue Other Query)
         (args : FieldState.UpdateSectionValueParams.t TDate Other Boundaries)
         (indexes : FieldState.FieldSelectedSectionsIndexes),
    FieldNotions.activeDateIsValid utils params hook args = false ->
    FieldState.selectedSectionIndexes params hook = Some indexes ->
    let activeDateSections :=
      FieldNotions.editedDateSections utils helpers params hook args indexes in
    let newDate :=
      FieldNotions.directParse utils helpers params activeDateSections in
    let cleaned :=
      FieldState.fieldUtils.clampDaySection helpers utils activeDateSections
        (FieldState.boundaries utils helpers)
        (FieldState.Params.format params) in
    let tried := FieldState.dayClampApplies utils newDate activeDateSections in
    let reference :=
      FieldState.activeDateManager.referenceActiveDate
        (FieldNotions.activeDateManagerOf params hook args) in
    (tried = true
     <-> FieldState.utils.isValid utils newDate = false
         /\ Forall (fun section => FieldState.value section <> "")
              activeDateSections
         /\ Exists
              (fun section =>
                 FieldState.dateSectionName section = Some FieldState.day)
              activeDateSections)
    /\ (tried = false ->
        FieldState.candidateDate utils helpers params activeDateSections
        = newDate
        /\ forall clampDaySection',
             FieldState.run hook
               (FieldState.updateSectionValue utils
                  (FieldNotions.withClampDaySection helpers clampDaySection')
                  params hook args)
             = FieldState.run hook
                 (FieldState.updateSectionValue utils helpers params hook
                    args))
    /\ (tried = true ->
        FieldState.candidateDate utils helpers params activeDateSections
        = match cleaned with
          | Some cleanSections =>
              FieldNotions.directParse utils helpers params cleanSections
          | None => newDate
          end)
    /\ (forall cleanSections date,
          tried = true ->
          cleaned = Some cleanSections ->
          FieldNotions.directParse utils helpers params cleanSections
            = Some date ->
          FieldState.utils.isValid utils (Some date) = true ->
          let outcome :=
            FieldState.run hook
              (FieldState.updateSectionValue utils helpers params hook args) in
          let state' :=
            FieldState.Hook.state (FieldState.World.pending (snd outcome)) in
          let mergedDate :=
            FieldState.mergeDate utils reference date activeDateSections in
          let published :=
            FieldState.activeDateManager.getNewValueFromNewActiveDate
              (FieldNotions.activeDateManagerOf params hook args)
              (Some mergedDate) in
          fst outcome = FieldState.Returned tt
          /\ FieldState.State.value state' = fst published
          /\ FieldState.State.referenceValue state' = snd published
          /\ FieldNotions.changes
               (FieldState.World.notifications (snd outcome))
             = (if FieldState.Params.onChange params
                then [fst published] else [])
          /\ FieldState.State.sections state'
             = FieldState.fieldValueManager.getSectionsFromValue
                 (FieldState.Params.fieldValueManager params)
                 (Some (FieldState.State.sections (FieldState.Hook.state hook)))
                 (fst published) (FieldState.Params.format params)
          /\ ((forall section,
                 In section activeDateSections ->
                 FieldState.edited section = true ->
                 FieldState.dateSectionName section
                 <> Some FieldState.meridiem) ->
              mergedDate
              = FieldNotions.writeEditedComponents utils reference date
                  activeDateSections)
          /\ (forall c' : FieldNotions.Component,
                (forall section,
                   In section activeDateSections ->
                   FieldState.edited section = true ->
                   exists c,
                     FieldState.dateSectionName section
                     = Some (FieldNotions.sectionNameOf c)
                     /\ FieldNotions.setterKeeps utils date c c'
                          (FieldNotions.getComponent utils c' reference)) ->
                FieldNotions.getComponent utils c' mergedDate
                = FieldNotions.getComponent utils c' reference)
          /\ ((forall d,
                 FieldState.utils.getDate utils
                   (FieldState.utils.setDate utils d
                      (FieldState.utils.getDate utils date))
                 = FieldState.utils.getDate utils date) ->
              (forall section,
                 In section activeDateSections ->
                 FieldState.edited section = true ->
                 FieldState.dateSectionName section = Some FieldState.day) ->
              (exists section,
                 In section activeDateSections
                 /\ FieldState.edited section = true) ->
              FieldState.utils.getDate utils mergedDate
              = FieldState.utils.getDate utils date)).
Proof.
  intros TValue TDate Other Query Boundaries Supported utils helpers params
         hook args indexes Hinvalid Hsel activeDateSections newDate cleaned
         tried reference.
  assert (Hcandidate :
            FieldState.candidateDate utils helpers params activeDateSections
            = if tried
              then match cleaned with
                   | Some cleanSections =>
                       FieldNotions.directParse utils helpers params
                         cleanSections
                   | None => newDate
                   end
              else newDate) by reflexivity.
  split; [apply dayClampApplies_true|].
  split.
  { intros Htried. split; [now rewrite Hcandidate, Htried|].
    intros clampDaySection'.
    apply (@updateSectionValue_reads_clampDaySection _ _ _ _ _ _ utils
             helpers params hook args clampDaySection' indexes Hinvalid
             Hsel).
    fold activeDateSections. rewrite Hcandidate, Htried.
    unfold FieldState.candidateDate.
    change (FieldState.dayClampApplies utils
              (FieldState.utils.parse utils
                 (FieldState.fieldUtils.createDateStrFromSections
                    (FieldNotions.withClampDaySection helpers
                       clampDaySection')
                    activeDateSections false)
                 (FieldState.Params.format params))
              activeDateSections) with tried.
    now rewrite Htried. }
  split; [intros Htried; now rewrite Hcandidate, Htried|].
  intros cleanSections date Htried Hcleaned Hparsed Hvalid outcome state'
         mergedDate published.
  rewrite Htried, Hcleaned, Hparsed in Hcandidate.
  subst state' outcome.
  rewrite (@updateSectionValue_merges _ _ _ _ _ _ utils helpers params hook
             args indexes date Hinvalid Hsel Hcandidate Hvalid).
  fold activeDateSections. fold reference. fold mergedDate. fold published.
  destruct (publishValue_after_collapse params hook published)
    as (Hreturned & Hsections & Hvalue & Hreference & _ & Hchanges).
  split; [exact Hreturned|]. split; [exact Hvalue|].
  split; [exact Hreference|]. split; [exact Hchanges|].
  split; [exact Hsections|].
  split; [apply mergeDate_writes_edited_components|].
  split.
  - intros c' Hkeeps. now apply mergeDate_keeps.
  - intros Hwrites Honly Hsome.
    apply (@mergeDate_copies _ _ utils FieldNotions.Day date
             activeDateSections Hwrites reference Honly).
    now right.
Qed.

(** The theorem at work on the calendar: [31] typed as the day of a field
    that reads [02/__/2023], after the day of the fifteenth of February
    2023, at half past ten, was cleared.  The text [02/31/2023] is read as
    a date that is not valid, the day clamp is tried, the text
    [02/28/2023] is read in its place, as the twenty-eighth of February
    at midnight, and what is published is neither this date nor the
    reference date: it is the twenty-eighth of February at half past ten,
    the day of the one written on the other. *)
Lemma updateSectionValue_day_clamp_recovery_witness :
  let outcome :=
    FieldState.run PlainCalendar.dayClearedField
      (FieldState.updateSectionValue PlainCalendar.calendarUtils
         PlainCalendar.helpers (PlainCalendar.params "MM/dd/yyyy")
         PlainCalendar.dayClearedField
         (PlainCalendar.typed
            (PlainCalendar.section FieldState.day "" true "/") "31")) in
  let published :=
    {| PlainCalendar.pd_year := 2023; PlainCalendar.pd_month := 2;
       PlainCalendar.pd_day := 28; PlainCalendar.pd_hours := 10;
       PlainCalendar.pd_minutes := 30; PlainCalendar.pd_seconds := 0 |} in
  FieldState.utils.isValid PlainCalendar.calendarUtils
    (PlainCalendar.parse "02/31/2023" "MM/dd/yyyy") = false
  /\ PlainCalendar.parse "02/28/2023" "MM/dd/yyyy"
     = Some PlainCalendar.lastOfFebruary2023
  /\ fst outcome = FieldState.Returned tt
  /\ FieldState.State.value
       (FieldState.Hook.state (FieldState.World.pending (snd outcome)))
     = Some published
  /\ FieldNotions.changes (FieldState.World.notifications (snd outcome))
     = [Some published]
  /\ published <> PlainCalendar.lastOfFebruary2023
  /\ published <> PlainCalendar.midFebruary2023.
Proof.
  destruct (@updateSectionValue_day_clamp_recovery
              _ _ _ _ _ _ PlainCalendar.calendarUtils PlainCalendar.helpers
              (PlainCalendar.params "MM/dd/yyyy") PlainCalendar.dayClearedField
              (PlainCalendar.typed
                 (PlainCalendar.section FieldState.day "" true "/") "31")
              {| FieldState.startIndex := 1; FieldState.endIndex := 1 |}
              eq_refl eq_refl)
    as (_ & _ & _ & Hpublished).
  destruct (Hpublished
              [PlainCalendar.section FieldState.month "02" false "/";
               PlainCalendar.section FieldState.day "28" true "/";
               PlainCalendar.section FieldState.year "2023" false ""]
              PlainCalendar.lastOfFebruary2023
              eq_refl eq_refl eq_refl eq_refl)
    as (Hreturned & Hvalue & _ & Hchanges & _).
  refine (conj eq_refl (conj eq_refl (conj Hreturned (conj Hvalue
            (conj Hchanges (conj _ _)))))); discriminate.
Defined.

(** The field of the example is the one [clearActiveSection] leaves when
    the day of the fifteenth of February 2023 is cleared. *)
Lemma clearActiveSection_reaches_dayClearedField :
  FieldState.run PlainCalendar.midFebruaryField
    (FieldState.clearActiveSection PlainCalendar.helpers
       (PlainCalendar.params "MM/dd/yyyy") PlainCalendar.midFebruaryField)
  = (FieldState.Returned tt,
     {| FieldState.World.pending := PlainCalendar.dayClearedField;
        FieldState.World.notifications := [] |}).
Proof. reflexivity. Qed.

(** The field of the counterexample of C1 is the one [clearActiveSection]
    leaves when the month of the thirty-first of January 2023 is
    cleared. *)
Lemma clearActiveSection_reaches_monthClearedOnThe31stField :
  FieldState.run PlainCalendar.lastOfJanuaryField
    (FieldState.clearActiveSection PlainCalendar.helpers
       (PlainCalendar.params "MM/dd/yyyy") PlainCalendar.lastOfJanuaryField)
  = (FieldState.Returned tt,
     {| FieldState.World.pending := PlainCalendar.monthClearedOnThe31stField;
        FieldState.World.notifications := [] |}).
Proof. reflexivity. Qed.

(** C1 fails on the code as it is stated: the merge writes the month with
    the setter of the adapter, and the day is what this setter leaves.
    With an adapter that keeps to the calendar, [04] typed as the month of
    a field that reads [__/31/2023] and whose reference date is the
    thirty-first of January 2023, at half past ten: the reference date is
    valid, the month section is the only one that is marked as edited,
    the text [04/31/2023] is not a date and the day clamp reads
    [04/30/2023] in its place, a valid date; writing April on the
    thirty-first of January gives the thirtieth of April, which is
    published: the day is not the one of the reference date. *)
Lemma updateSectionValue_merge_moves_the_day :
  let field := PlainCalendar.monthClearedOnThe31stField in
  let args :=
    PlainCalendar.typed (PlainCalendar.section FieldState.month "" true "/")
      "04" in
  let indexes := {| FieldState.startIndex := 0; FieldState.endIndex := 0 |} in
  let outcome :=
    FieldState.run field
      (FieldState.updateSectionValue PlainCalendar.calendarUtils
         PlainCalendar.helpers (PlainCalendar.params "MM/dd/yyyy") field
         args) in
  let published :=
    {| PlainCalendar.pd_year := 2023; PlainCalendar.pd_month := 4;
       PlainCalendar.pd_day := 30; PlainCalendar.pd_hours := 10;
       PlainCalendar.pd_minutes := 30; PlainCalendar.pd_seconds := 0 |} in
  FieldState.utils.isValid PlainCalendar.calendarUtils
    (Some PlainCalendar.lastOfJanuary2023) = true
  /\ FieldNotions.activeDateIsValid PlainCalendar.calendarUtils
       (PlainCalendar.params "MM/dd/yyyy") field args = false
  /\ FieldState.activeDateManager.referenceActiveDate
       (FieldNotions.activeDateManagerOf (PlainCalendar.params "MM/dd/yyyy")
          field args)
     = PlainCalendar.lastOfJanuary2023
  /\ map (fun section =>
            (FieldState.dateSectionName section, FieldState.value section,
             FieldState.edited section))
       (FieldNotions.editedDateSections PlainCalendar.calendarUtils
          PlainCalendar.helpers (PlainCalendar.params "MM/dd/yyyy") field
          args indexes)
     = [(Some FieldState.month, "04", true);
        (Some FieldState.day, "31", false);
        (Some FieldState.year, "2023", false)]
  /\ FieldState.utils.isValid PlainCalendar.calendarUtils
       (FieldState.candidateDate PlainCalendar.calendarUtils
          PlainCalendar.helpers (PlainCalendar.params "MM/dd/yyyy")
          (FieldNotions.editedDateSections PlainCalendar.calendarUtils
             PlainCalendar.helpers (PlainCalendar.params "MM/dd/yyyy") field
             args indexes)) = true
  /\ fst outcome = FieldState.Returned tt
  /\ FieldState.State.value
       (FieldState.Hook.state (FieldState.World.pending (snd outcome)))
     = Some published
  /\ FieldNotions.changes (FieldState.World.notifications (snd outcome))
     = [Some published]
  /\ PlainCalendar.pd_day published
     <> PlainCalendar.pd_day PlainCalendar.lastOfJanuary2023.
Proof. repeat split; vm_compute; discriminate. Qed.

(** C1, amended.  On the invalid-date path of [updateSectionValue], when
    the date parsed from the sections is valid, the date that is published
    is the reference date on which the edited sections have written, one
    after the other and with the setters of the adapter, their component
    of the date parsed; the sections that are not edited write nothing.
    It keeps the component of the reference date for every component that
    the setters called keep.  So, when the month sections are the only
    edited ones, its year, its hour, its minute and its second are the
    ones of the reference date where the setter of the month keeps them,
    its day is the one of the reference date where the setter of the
    month keeps it, that is, where the month written has such a day, and
    its month is the one of the date parsed. *)
Theorem updateSectionValue_merge_keeps_unedited_components :
  forall (TValue TDate Other Query Boundaries Supported : Type)
         (utils : FieldState.utils.t TDate)
         (helpers : FieldState.fieldUtils.t TDate Other Boundaries Supported)
         (params : FieldState.Params.t TValue TDate Other Query Supported)
         (hook : FieldState.Hook.t TValue Other Query)
         (args : FieldState.UpdateSectionValueParams.t TDate Other Boundaries)
         (indexes : FieldState.FieldSelectedSectionsIndexes)
         (date : TDate),
    FieldNotions.activeDateIsValid utils params hook args = false ->
    FieldState.selectedSectionIndexes params hook = Some indexes ->
    FieldState.candidateDate utils helpers params
      (FieldNotions.editedDateSections utils helpers params hook args indexes)
      = Some date ->
    FieldState.utils.isValid utils (Some date) = true ->
    let activeDateSections :=
      FieldNotions.editedDateSections utils helpers params hook args indexes in
    let manager := FieldNotions.activeDateManagerOf params hook args in
    let reference :=
      FieldState.activeDateManager.referenceActiveDate manager in
    let outcome :=
      FieldState.run hook
        (FieldState.updateSectionValue utils helpers params hook args) in
    let state' :=
      FieldState.Hook.state (FieldState.World.pending (snd outcome)) in
    let keeps c c' :=
      FieldNotions.setterKeeps utils date c c'
        (FieldNotions.getComponent utils c' reference) in
    exists mergedDate : TDate,
      let published :=
        FieldState.activeDateManager.getNewValueFromNewActiveDate manager
          (Some mergedDate) in
      fst outcome = FieldState.Returned tt
      /\ FieldState.State.value state' = fst published
      /\ FieldNotions.changes (FieldState.World.notifications (snd outcome))
         = (if FieldState.Params.onChange params
            then [fst published] else [])
      /\ ((forall section,
             In section activeDateSections ->
             FieldState.edited section = true ->
             FieldState.dateSectionName section <> Some FieldState.meridiem) ->
          mergedDate
          = FieldNotions.writeEditedComponents utils reference date
              activeDateSections)
      /\ (forall c' : FieldNotions.Component,
            (forall section,
               In section activeDateSections ->
               FieldState.edited section = true ->
               exists c,
                 FieldState.dateSectionName section
                 = Some (FieldNotions.sectionNameOf c)
                 /\ keeps c c') ->
            FieldNotions.getComponent utils c' mergedDate
            = FieldNotions.getComponent utils c' reference)
      /\ ((forall section,
             In section activeDateSections ->
             FieldState.edited section = true ->
             FieldState.dateSectionName section = Some FieldState.month) ->
          (keeps FieldNotions.Month FieldNotions.Year ->
           FieldState.utils.getYear utils mergedDate
           = FieldState.utils.getYear utils reference)
          /\ (keeps FieldNotions.Month FieldNotions.Day ->
              FieldState.utils.getDate utils mergedDate
              = FieldState.utils.getDate utils reference)
          /\ (keeps FieldNotions.Month FieldNotions.Hours ->
              FieldState.utils.getHours utils mergedDate
              = FieldState.utils.getHours utils reference)
          /\ (keeps FieldNotions.Month FieldNotions.Minutes ->
              FieldState.utils.getMinutes utils mergedDate
              = FieldState.utils.getMinutes utils reference)
          /\ (keeps FieldNotions.Month FieldNotions.Seconds ->
              FieldState.utils.getSeconds utils mergedDate
              = FieldState.utils.getSeconds utils reference)
          /\ ((exists section,
                 In section activeDateSections
                 /\ FieldState.edited section = true) ->
              (forall d,
                 FieldState.utils.getMonth utils
                   (FieldState.utils.setMonth utils d
                      (FieldState.utils.getMonth utils date))
                 = FieldState.utils.getMonth utils date) ->
              FieldState.utils.getMonth utils mergedDate
              = FieldState.utils.getMonth utils date)).
Proof.
  intros TValue TDate Other Query Boundaries Supported utils helpers params
         hook args indexes date Hinvalid Hsel Hcandidate Hvalid
         activeDateSections manager reference outcome state' keeps.
  exists (FieldState.mergeDate utils reference date activeDateSections).
  intros published. subst state' outcome.
  rewrite (@updateSectionValue_merges _ _ _ _ _ _ utils helpers params hook
             args indexes date Hinvalid Hsel Hcandidate Hvalid).
  fold activeDateSections manager reference published.
  destruct (publishValue_after_collapse params hook published)
    as (Hreturned & _ & Hvalue & _ & _ & Hchanges).
  split; [exact Hreturned|]. split; [exact Hvalue|].
  split; [exact Hchanges|].
  split; [apply mergeDate_writes_edited_components|].
  split.
  - intros c' Hkeeps. now apply mergeDate_keeps.
  - intros Honly.
    assert (Hkept : forall c',
              keeps FieldNotions.Month c' ->
              FieldNotions.getComponent utils c'
                (FieldState.mergeDate utils reference date activeDateSections)
              = FieldNotions.getComponent utils c' reference).
    { intros c' Hkeeps. apply mergeDate_keeps; [|reflexivity].
      intros section Hin Hedited. exists FieldNotions.Month.
      split; [now apply Honly|exact Hkeeps]. }
    split; [exact (Hkept FieldNotions.Year)|].
    split; [exact (Hkept FieldNotions.Day)|].
    split; [exact (Hkept FieldNotions.Hours)|].
    split; [exact (Hkept FieldNotions.Minutes)|].
    split; [exact (Hkept FieldNotions.Seconds)|].
    intros Hsome Hwrites.
    apply (@mergeDate_copies _ _ utils FieldNotions.Month date
             activeDateSections Hwrites reference Honly).
    now right.
Qed.

(** The theorem at work on the calendar: [03] typed as the month of a
    field that reads [__/15/2023] and whose reference date is the
    fifteenth of January 2023, at half past ten.  The text [03/15/2023]
    is read as the fifteenth of March at midnight; March has a fifteenth
    day, so that the setter of the month keeps the day, as it keeps the
    year and the time: the date published has the month of the date
    parsed, and the year, the day and the time of the reference date. *)
Lemma updateSectionValue_merge_witness :
  exists mergedDate : PlainCalendar.PlainDate,
    FieldState.State.value
      (FieldState.Hook.state
         (FieldState.World.pending
            (snd (FieldState.run PlainCalendar.monthClearedField
                    (FieldState.updateSectionValue PlainCalendar.calendarUtils
                       PlainCalendar.helpers
                       (PlainCalendar.params "MM/dd/yyyy")
                       PlainCalendar.monthClearedField
                       (PlainCalendar.typed
                          (PlainCalendar.section FieldState.month "" true "/")
                          "03"))))))
    = Some mergedDate
    /\ PlainCalendar.pd_year mergedDate = 2023%Z
    /\ PlainCalendar.pd_month mergedDate = 3%Z
    /\ PlainCalendar.pd_day mergedDate = 15%Z
    /\ PlainCalendar.pd_hours mergedDate = 10%Z
    /\ PlainCalendar.pd_minutes mergedDate = 30%Z
    /\ PlainCalendar.pd_seconds mergedDate = 0%Z.
Proof.
  destruct (@updateSectionValue_merge_keeps_unedited_components
              _ _ _ _ _ _ PlainCalendar.calendarUtils PlainCalendar.helpers
              (PlainCalendar.params "MM/dd/yyyy")
              PlainCalendar.monthClearedField
              (PlainCalendar.typed
                 (PlainCalendar.section FieldState.month "" true "/") "03")
              {| FieldState.startIndex := 0; FieldState.endIndex := 0 |}
              {| PlainCalendar.pd_year := 2023; PlainCalendar.pd_month := 3;
                 PlainCalendar.pd_day := 15; PlainCalendar.pd_hours := 0;
                 PlainCalendar.pd_minutes := 0;
                 PlainCalendar.pd_seconds := 0 |}
              eq_refl eq_refl eq_refl eq_refl)
    as (mergedDate & _ & Hvalue & _ & _ & _ & Hmonth).
  assert (Honly : forall section,
            In section
              [PlainCalendar.section FieldState.month "03" true "/";
               PlainCalendar.section FieldState.day "15" false "/";
               PlainCalendar.section FieldState.year "2023" false ""] ->
            FieldState.edited section = true ->
            FieldState.dateSectionName section = Some FieldState.month).
  { intros section [<-|[<-|[<-|[]]]]; cbn; congruence. }
  destruct (Hmonth Honly)
    as (Hyear & Hday & Hhours & Hminutes & Hseconds & Hcopied).
  exists mergedDate.
  refine (conj Hvalue
            (conj (Hyear _)
               (conj (Hcopied
                        (ex_intro _ _ (conj (or_introl eq_refl) eq_refl)) _)
                  (conj (Hday _)
                     (conj (Hhours _) (conj (Hminutes _) (Hseconds _)))))));
    intros [y m d h mi s]; cbn; intros; subst; reflexivity.
Defined.

(** The field of the next example is the one [clearActiveSection] leaves
    when the meridiem of [10:30 AM] is cleared. *)
Lemma clearActiveSection_reaches_morningField :
  FieldState.run PlainCalendar.halfPastTenField
    (FieldState.clearActiveSection PlainCalendar.helpers
       (PlainCalendar.params "hh:mm aa") PlainCalendar.halfPastTenField)
  = (FieldState.Returned tt,
     {| FieldState.World.pending := PlainCalendar.morningField;
        FieldState.World.notifications := [] |}).
Proof. reflexivity. Qed.

(** C2 fails on the code for the meridiem.  The date parsed from the
    sections is read by the numeric sections only: the half of the day an
    edited meridiem section asks for is computed from the date that is
    merged into, not from the date parsed.  On the plain calendar, [PM]
    typed in the meridiem of a field [hh:mm aa] that reads [10:30 __], the
    reference date being at half past ten in the morning: the text
    [10:30 PM] is read as half past ten in the evening, and half past ten
    in the morning is published. *)
Lemma updateSectionValue_meridiem_edit_is_lost :
  let outcome :=
    FieldState.run PlainCalendar.morningField
      (FieldState.updateSectionValue PlainCalendar.utils
         PlainCalendar.helpers (PlainCalendar.params "hh:mm aa")
         PlainCalendar.morningField
         (PlainCalendar.typed
            (PlainCalendar.section FieldState.meridiem "" true "") "PM")) in
  FieldNotions.editedDateSections PlainCalendar.utils PlainCalendar.helpers
    (PlainCalendar.params "hh:mm aa") PlainCalendar.morningField
    (PlainCalendar.typed
       (PlainCalendar.section FieldState.meridiem "" true "") "PM")
    {| FieldState.startIndex := 2; FieldState.endIndex := 2 |}
  = [PlainCalendar.section FieldState.hour "10" false ":";
     PlainCalendar.section FieldState.minute "30" false " ";
     PlainCalendar.section FieldState.meridiem "PM" true ""]
  /\ FieldState.candidateDate PlainCalendar.utils PlainCalendar.helpers
       (PlainCalendar.params "hh:mm aa")
       [PlainCalendar.section FieldState.hour "10" false ":";
        PlainCalendar.section FieldState.minute "30" false " ";
        PlainCalendar.section FieldState.meridiem "PM" true ""]
     = Some {| PlainCalendar.pd_year := 1970; PlainCalendar.pd_month := 1;
               PlainCalendar.pd_day := 1; PlainCalendar.pd_hours := 22;
               PlainCalendar.pd_minutes := 30;
               PlainCalendar.pd_seconds := 0 |}
  /\ fst outcome = FieldState.Returned tt
  /\ FieldState.State.value
       (FieldState.Hook.state (FieldState.World.pending (snd outcome)))
     = Some PlainCalendar.halfPastTen
  /\ FieldNotions.changes (FieldState.World.notifications (snd outcome))
     = [Some PlainCalendar.halfPastTen]
  /\ PlainCalendar.pd_hours PlainCalendar.halfPastTen = 10%Z.
Proof. cbn zeta. repeat split. Qed.


(* ================================================================== *)
(** * Part VII. More properties of the field state engine *)
(* ================================================================== *)

Unset Implicit Arguments.

Section SelectionOnEdit.
Import FieldState FieldNotions HookNotions.
Variables TValue TDate Other Query Boundaries Supported : Type.
Variable utils : utils.t TDate.
Variable helpers : fieldUtils.t TDate Other Boundaries Supported.
Variable params : Params.t TValue TDate Other Query Supported.
Variable hook : Hook.t TValue Other Query.

Lemma selections_app (l1 l2 : list (Notification TValue)) :
  selections (l1 ++ l2) = (selections l1 ++ selections l2)%list.
Proof.
  induction l1 as [|[v|sel] l1 IH]; cbn; [reflexivity|exact IH|].
  now rewrite IH.
Qed.

(** The narrowing of a selection of several sections. *)
Lemma afterCollapse_narrowed (indexes : FieldSelectedSectionsIndexes) :
  selectedSectionIndexes params hook = Some indexes ->
  startIndex indexes <> endIndex indexes ->
  afterCollapse params hook
  = {| World.pending :=
         {| Hook.state :=
              {| State.sections := State.sections (Hook.state hook);
                 State.value := State.value (Hook.state hook);
                 State.referenceValue :=
                   State.referenceValue (Hook.state hook);
                 State.tempValueStrAndroid :=
                   State.tempValueStrAndroid (Hook.state hook);
                 State.selectedSectionQuery := None |};
            Hook.innerSelectedSections :=
              if selectedSectionsControlled params
              then Hook.innerSelectedSections hook
              else Some (SelectedIndex (startIndex indexes));
            Hook.firstDefaultValue := Hook.firstDefaultValue hook |};
       World.notifications :=
         if Params.onSelectedSectionsChange params
         then [OnSelectedSectionsChange
                 (Some (SelectedIndex (startIndex indexes)))]
         else [] |}.
Proof.
  intros Hsel Hne.
  unfold afterCollapse, collapseSelection, run. rewrite Hsel.
  apply Z.eqb_neq in Hne. rewrite Hne. cbn [negb].
  unfold setSelectedSections, bind, innerSetSelectedSections, notify,
    setState; cbn.
  now destruct (Params.onSelectedSectionsChange params).
Qed.

(** A selection of one section, or no selection, is left alone. *)
Lemma afterCollapse_untouched :
  match selectedSectionIndexes params hook with
  | Some indexes => startIndex indexes = endIndex indexes
  | None => True
  end ->
  afterCollapse params hook
  = {| World.pending := hook; World.notifications := [] |}.
Proof.
  intros Hone.
  unfold afterCollapse, collapseSelection, run.
  destruct (selectedSectionIndexes params hook) as [indexes|];
    [|reflexivity].
  apply Z.eqb_eq in Hone. now rewrite Hone.
Qed.

(** Past the narrowing of the selection, [updateSectionValue] touches
    neither the selection, nor the query that goes with it, nor the first
    default value, and tells of no selection. *)
Lemma updateSectionValue_keeps_collapse
    (args : UpdateSectionValueParams.t TDate Other Boundaries) :
  let outcome :=
    run hook (updateSectionValue utils helpers params hook args) in
  Hook.innerSelectedSections (hookAfter outcome)
    = Hook.innerSelectedSections (World.pending (afterCollapse params hook))
  /\ Hook.firstDefaultValue (hookAfter outcome)
     = Hook.firstDefaultValue (World.pending (afterCollapse params hook))
  /\ State.selectedSectionQuery (Hook.state (hookAfter outcome))
     = State.selectedSectionQuery
         (Hook.state (World.pending (afterCollapse params hook)))
  /\ selections (World.notifications (snd outcome))
     = selections (World.notifications (afterCollapse params hook)).
Proof.
  cbn zeta. unfold hookAfter.
  assert (Hpublished : forall newValue,
    let outcome :=
      publishValue params hook newValue (afterCollapse params hook) in
    Hook.innerSelectedSections (World.pending (snd outcome))
      = Hook.innerSelectedSections (World.pending (afterCollapse params hook))
    /\ Hook.firstDefaultValue (World.pending (snd outcome))
       = Hook.firstDefaultValue (World.pending (afterCollapse params hook))
    /\ State.selectedSectionQuery (Hook.state (World.pending (snd outcome)))
       = State.selectedSectionQuery
           (Hook.state (World.pending (afterCollapse params hook)))
    /\ selections (World.notifications (snd outcome))
       = selections (World.notifications (afterCollapse params hook))).
  { intros [value referenceValue]. cbn zeta. rewrite publishValue_run. cbn.
    repeat split.
    destruct (Params.onChange params); [|reflexivity].
    rewrite selections_app. cbn. apply app_nil_r. }
  destruct (activeDateIsValid utils params hook args) eqn:Hactive.
  - unfold activeDateIsValid in Hactive.
    destruct (activeDateManager.activeDate
                (activeDateManagerOf params hook args))
      as [activeDate|] eqn:Hdate; [|discriminate].
    rewrite (@updateSectionValue_valid_date _ _ _ _ _ _ utils helpers params
               hook args activeDate Hdate Hactive).
    apply Hpublished.
  - destruct (selectedSectionIndexes params hook) as [indexes|] eqn:Hsel.
    + destruct (candidateDate utils helpers params
                  (editedDateSections utils helpers params hook args indexes))
        as [date|] eqn:Hcandidate.
      * destruct (utils.isValid utils (Some date)) eqn:Hvalid.
        -- rewrite (@updateSectionValue_merges _ _ _ _ _ _ utils helpers
                      params hook args indexes date Hactive Hsel Hcandidate
                      Hvalid).
           apply Hpublished.
        -- rewrite (@updateSectionValue_keeps_editing _ _ _ _ _ _ utils
                      helpers params hook args indexes Hactive Hsel);
             [repeat split|now rewrite Hcandidate].
      * rewrite (@updateSectionValue_keeps_editing _ _ _ _ _ _ utils helpers
                   params hook args indexes Hactive Hsel);
          [repeat split|now rewrite Hcandidate].
    + rewrite (@updateSectionValue_no_selection _ _ _ _ _ _ utils helpers
                 params hook args Hactive Hsel).
      rewrite afterCollapse_untouched by now rewrite Hsel.
      repeat split.
Qed.

End SelectionOnEdit.

(** X1.  An edit narrows a selection of several sections to its first
    section.  When [updateSectionValue] is called while the selection runs
    from [startIndex] to a different [endIndex], whatever path the edit
    takes, [onSelectedSectionsChange], when there is one, is told of
    [startIndex] and of nothing else, the query that goes with the
    selection is reset, and the hook stores [startIndex] as its selection
    unless the selection is controlled, so that its next render selects
    the one section at [startIndex].  When one section or none is
    selected, the edit tells of no selection and leaves the stored
    selection as it is. *)
Theorem updateSectionValue_narrows_selection :
  forall (TValue TDate Other Query Boundaries Supported : Type)
         (utils : FieldState.utils.t TDate)
         (helpers : FieldState.fieldUtils.t TDate Other Boundaries Supported)
         (params : FieldState.Params.t TValue TDate Other Query Supported)
         (hook : FieldState.Hook.t TValue Other Query)
         (args : FieldState.UpdateSectionValueParams.t TDate Other Boundaries),
    let outcome :=
      FieldState.run hook
        (FieldState.updateSectionValue utils helpers params hook args) in
    let hook' := HookNotions.hookAfter outcome in
    (forall indexes,
       FieldState.selectedSectionIndexes params hook = Some indexes ->
       FieldState.startIndex indexes <> FieldState.endIndex indexes ->
       HookNotions.selections (FieldState.World.notifications (snd outcome))
         = (if FieldState.Params.onSelectedSectionsChange params
            then [Some (FieldState.SelectedIndex
                          (FieldState.startIndex indexes))]
            else [])
       /\ FieldState.State.selectedSectionQuery (FieldState.Hook.state hook')
          = None
       /\ FieldState.Hook.innerSelectedSections hook'
          = (if FieldState.selectedSectionsControlled params
             then FieldState.Hook.innerSelectedSections hook
             else Some (FieldState.SelectedIndex
                          (FieldState.startIndex indexes)))
       /\ (FieldState.Params.selectedSections params = None ->
           FieldState.selectedSectionIndexes params hook'
           = Some {| FieldState.startIndex := FieldState.startIndex indexes;
                     FieldState.endIndex := FieldState.startIndex indexes |}))
    /\ (match FieldState.selectedSectionIndexes params hook with
        | Some indexes =>
            FieldState.startIndex indexes = FieldState.endIndex indexes
        | None => True
        end ->
        HookNotions.selections (FieldState.World.notifications (snd outcome))
          = []
        /\ FieldState.Hook.innerSelectedSections hook'
           = FieldState.Hook.innerSelectedSections hook).
Proof.
  intros TValue TDate Other Query Boundaries Supported utils helpers params
         hook args outcome hook'.
  destruct (updateSectionValue_keeps_collapse _ _ _ _ _ _ utils helpers params
              hook args)
    as (Hinner & _ & Hquery & Hselections).
  fold outcome in Hinner, Hquery, Hselections.
  fold hook' in Hinner, Hquery.
  split.
  - intros indexes Hsel Hne.
    rewrite (afterCollapse_narrowed _ _ _ _ _ params hook indexes Hsel Hne)
      in Hinner, Hquery, Hselections.
    cbn in Hinner, Hquery, Hselections.
    split.
    { rewrite Hselections.
      now destruct (FieldState.Params.onSelectedSectionsChange params). }
    split; [exact Hquery|]. split; [exact Hinner|].
    intros Huncontrolled.
    unfold FieldState.selectedSectionIndexes, FieldState.selectedSections.
    rewrite Huncontrolled, Hinner.
    unfold FieldState.selectedSectionsControlled. now rewrite Huncontrolled.
  - intros Hone.
    rewrite (afterCollapse_untouched _ _ _ _ _ params hook Hone)
      in Hinner, Hselections.
    split; [exact Hselections|exact Hinner].
Qed.

Section EditCallbacks.
Import FieldState FieldNotions HookNotions.
Variables TValue TDate Other Query Boundaries Supported : Type.
Variable utils : utils.t TDate.
Variable helpers : fieldUtils.t TDate Other Boundaries Supported.
Variable params : Params.t TValue TDate Other Query Supported.
Variable hook : Hook.t TValue Other Query.
Variable args : UpdateSectionValueParams.t TDate Other Boundaries.

(** [args] with another [setSectionValueOnSections]. *)
Let withOnSections (onSections : Boundaries -> string) :=
  {| UpdateSectionValueParams.activeSection :=
       UpdateSectionValueParams.activeSection args;
     UpdateSectionValueParams.setSectionValueOnDate :=
       UpdateSectionValueParams.setSectionValueOnDate args;
     UpdateSectionValueParams.setSectionValueOnSections := onSections |}.

(** [args] with another [setSectionValueOnDate]. *)
Let withOnDate (onDate : TDate -> Boundaries -> TDate) :=
  {| UpdateSectionValueParams.activeSection :=
       UpdateSectionValueParams.activeSection args;
     UpdateSectionValueParams.setSectionValueOnDate := onDate;
     UpdateSectionValueParams.setSectionValueOnSections :=
       UpdateSectionValueParams.setSectionValueOnSections args |}.

Lemma valid_date_ignores_onSections (onSections : Boundaries -> string) :
  activeDateIsValid utils params hook args = true ->
  run hook
    (updateSectionValue utils helpers params hook (withOnSections onSections))
  = run hook (updateSectionValue utils helpers params hook args).
Proof.
  intros Hvalid. unfold activeDateIsValid in Hvalid.
  destruct (activeDateManager.activeDate
              (activeDateManagerOf params hook args))
    as [activeDate|] eqn:Hdate; [|discriminate].
  rewrite (@updateSectionValue_valid_date _ _ _ _ _ _ utils helpers params
             hook args activeDate Hdate Hvalid).
  now rewrite (@updateSectionValue_valid_date _ _ _ _ _ _ utils helpers params
                 hook (withOnSections onSections) activeDate Hdate Hvalid).
Qed.

Lemma invalid_date_ignores_onDate (onDate : TDate -> Boundaries -> TDate) :
  activeDateIsValid utils params hook args = false ->
  run hook (updateSectionValue utils helpers params hook (withOnDate onDate))
  = run hook (updateSectionValue utils helpers params hook args).
Proof.
  intros Hinvalid.
  assert (Hinvalid' :
            activeDateIsValid utils params hook (withOnDate onDate) = false)
    by exact Hinvalid.
  destruct (selectedSectionIndexes params hook) as [indexes|] eqn:Hsel.
  - destruct (candidateDate utils helpers params
                (editedDateSections utils helpers params hook args indexes))
      as [date|] eqn:Hcandidate.
    + destruct (utils.isValid utils (Some date)) eqn:Hvalid.
      * rewrite (@updateSectionValue_merges _ _ _ _ _ _ utils helpers params
                   hook args indexes date Hinvalid Hsel Hcandidate Hvalid).
        now rewrite (@updateSectionValue_merges _ _ _ _ _ _ utils helpers
                       params hook (withOnDate onDate) indexes date Hinvalid'
                       Hsel Hcandidate Hvalid).
      * assert (Hnot :
          match candidateDate utils helpers params
                  (editedDateSections utils helpers params hook args indexes)
          with
          | Some date => utils.isValid utils (Some date)
          | None => false
          end = false) by now rewrite Hcandidate.
        rewrite (@updateSectionValue_keeps_editing _ _ _ _ _ _ utils helpers
                   params hook args indexes Hinvalid Hsel Hnot).
        now rewrite (@updateSectionValue_keeps_editing _ _ _ _ _ _ utils
                       helpers params hook (withOnDate onDate) indexes
                       Hinvalid' Hsel Hnot).
    + assert (Hnot :
        match candidateDate utils helpers params
                (editedDateSections utils helpers params hook args indexes)
        with
        | Some date => utils.isValid utils (Some date)
        | None => false
        end = false) by now rewrite Hcandidate.
      rewrite (@updateSectionValue_keeps_editing _ _ _ _ _ _ utils helpers
                 params hook args indexes Hinvalid Hsel Hnot).
      now rewrite (@updateSectionValue_keeps_editing _ _ _ _ _ _ utils
                     helpers params hook (withOnDate onDate) indexes
                     Hinvalid' Hsel Hnot).
  - rewrite (@updateSectionValue_no_selection _ _ _ _ _ _ utils helpers
               params hook args Hinvalid Hsel).
    now rewrite (@updateSectionValue_no_selection _ _ _ _ _ _ utils helpers
                   params hook (withOnDate onDate) Hinvalid' Hsel).
Qed.

End EditCallbacks.

(** X2.  With an active date that is set and valid, [updateSectionValue]
    never throws, whether a section is selected or not: it returns with
    the value and the reference value the manager of the active date makes
    of the date [setSectionValueOnDate] gives, tells [onChange], when
    there is one, of this value and of nothing else, rebuilds the sections
    from it and empties the fallback text. *)
Theorem updateSectionValue_valid_date_publishes :
  forall (TValue TDate Other Query Boundaries Supported : Type)
         (utils : FieldState.utils.t TDate)
         (helpers : FieldState.fieldUtils.t TDate Other Boundaries Supported)
         (params : FieldState.Params.t TValue TDate Other Query Supported)
         (hook : FieldState.Hook.t TValue Other Query)
         (args : FieldState.UpdateSectionValueParams.t TDate Other Boundaries)
         (activeDate : TDate),
    FieldState.activeDateManager.activeDate
      (FieldNotions.activeDateManagerOf params hook args) = Some activeDate ->
    FieldState.utils.isValid utils (Some activeDate) = true ->
    let outcome :=
      FieldState.run hook
        (FieldState.updateSectionValue utils helpers params hook args) in
    let state' := FieldState.Hook.state (HookNotions.hookAfter outcome) in
    let published :=
      FieldState.activeDateManager.getNewValueFromNewActiveDate
        (FieldNotions.activeDateManagerOf params hook args)
        (Some
           (FieldState.UpdateSectionValueParams.setSectionValueOnDate args
              activeDate (FieldState.boundaries utils helpers))) in
    fst outcome = FieldState.Returned tt
    /\ FieldState.State.value state' = fst published
    /\ FieldState.State.referenceValue state' = snd published
    /\ FieldNotions.changes (FieldState.World.notifications (snd outcome))
       = (if FieldState.Params.onChange params then [fst published] else [])
    /\ FieldState.State.sections state'
       = FieldState.fieldValueManager.getSectionsFromValue
           (FieldState.Params.fieldValueManager params)
           (Some (FieldState.State.sections (FieldState.Hook.state hook)))
           (fst published) (FieldState.Params.format params)
    /\ FieldState.State.tempValueStrAndroid state' = None.
Proof.
  intros TValue TDate Other Query Boundaries Supported utils helpers params
         hook args activeDate Hdate Hvalid outcome state' published.
  subst state' outcome. unfold HookNotions.hookAfter.
  rewrite (@updateSectionValue_valid_date _ _ _ _ _ _ utils helpers params
             hook args activeDate Hdate Hvalid).
  fold published.
  destruct (@publishValue_after_collapse _ _ _ _ _ params hook published)
    as (Hreturned & Hsections & Hvalue & Hreference & Htemp & Hchanges).
  repeat split; assumption.
Qed.

(** The theorem at work on the plain calendar: the hour of a field that
    shows [10:30 AM] is set to eleven while no section is selected, and
    [11:30 AM] is published. *)
Lemma updateSectionValue_valid_date_publishes_witness :
  let field :=
    PlainCalendar.hook
      [PlainCalendar.section FieldState.hour "10" false ":";
       PlainCalendar.section FieldState.minute "30" false " ";
       PlainCalendar.section FieldState.meridiem "AM" false ""]
      (Some PlainCalendar.halfPastTen) (Some PlainCalendar.halfPastTen) None in
  let outcome :=
    FieldState.run field
      (FieldState.updateSectionValue PlainCalendar.utils
         PlainCalendar.helpers (PlainCalendar.params "hh:mm aa") field
         {| FieldState.UpdateSectionValueParams.activeSection :=
              PlainCalendar.section FieldState.hour "10" false ":";
            FieldState.UpdateSectionValueParams.setSectionValueOnDate :=
              fun date _ =>
                FieldState.utils.setHours PlainCalendar.utils date 11;
            FieldState.UpdateSectionValueParams.setSectionValueOnSections :=
              fun _ => "11" |}) in
  fst outcome = FieldState.Returned tt
  /\ FieldState.State.value
       (FieldState.Hook.state (HookNotions.hookAfter outcome))
     = Some {| PlainCalendar.pd_year := 2023; PlainCalendar.pd_month := 1;
               PlainCalendar.pd_day := 15; PlainCalendar.pd_hours := 11;
               PlainCalendar.pd_minutes := 30;
               PlainCalendar.pd_seconds := 0 |}
  /\ FieldState.State.sections
       (FieldState.Hook.state (HookNotions.hookAfter outcome))
     = [PlainCalendar.section FieldState.hour "11" false ":";
        PlainCalendar.section FieldState.minute "30" false " ";
        PlainCalendar.section FieldState.meridiem "AM" false ""].
Proof.
  destruct (updateSectionValue_valid_date_publishes
              _ _ _ _ _ _ PlainCalendar.utils PlainCalendar.helpers
              (PlainCalendar.params "hh:mm aa")
              (PlainCalendar.hook
                 [PlainCalendar.section FieldState.hour "10" false ":";
                  PlainCalendar.section FieldState.minute "30" false " ";
                  PlainCalendar.section FieldState.meridiem "AM" false ""]
                 (Some PlainCalendar.halfPastTen)
                 (Some PlainCalendar.halfPastTen) None)
              {| FieldState.UpdateSectionValueParams.activeSection :=
                   PlainCalendar.section FieldState.hour "10" false ":";
                 FieldState.UpdateSectionValueParams.setSectionValueOnDate :=
                   fun date _ =>
                     FieldState.utils.setHours PlainCalendar.utils date 11;
                 FieldState.UpdateSectionValueParams.setSectionValueOnSections :=
                   fun _ => "11" |}
              PlainCalendar.halfPastTen eq_refl eq_refl)
    as (Hreturned & Hvalue & _ & _ & Hsections & _).
  exact (conj Hreturned (conj Hvalue Hsections)).
Defined.

(** X3.  [updateSectionValue] consults one of its two callbacks and never
    the other: with an active date that is set and valid, the outcome is
    the same whatever [setSectionValueOnSections] is; with an active date
    that is unset or not valid, it is the same whatever
    [setSectionValueOnDate] is. *)
Theorem updateSectionValue_consults_one_callback :
  forall (TValue TDate Other Query Boundaries Supported : Type)
         (utils : FieldState.utils.t TDate)
         (helpers : FieldState.fieldUtils.t TDate Other Boundaries Supported)
         (params : FieldState.Params.t TValue TDate Other Query Supported)
         (hook : FieldState.Hook.t TValue Other Query)
         (args : FieldState.UpdateSectionValueParams.t TDate Other Boundaries),
    (FieldNotions.activeDateIsValid utils params hook args = true ->
     forall onSections : Boundaries -> string,
       FieldState.run hook
         (FieldState.updateSectionValue utils helpers params hook
            {| FieldState.UpdateSectionValueParams.activeSection :=
                 FieldState.UpdateSectionValueParams.activeSection args;
               FieldState.UpdateSectionValueParams.setSectionValueOnDate :=
                 FieldState.UpdateSectionValueParams.setSectionValueOnDate
                   args;
               FieldState.UpdateSectionValueParams.setSectionValueOnSections :=
                 onSections |})
       = FieldState.run hook
           (FieldState.updateSectionValue utils helpers params hook args))
    /\ (FieldNotions.activeDateIsValid utils params hook args = false ->
        forall onDate : TDate -> Boundaries -> TDate,
          FieldState.run hook
            (FieldState.updateSectionValue utils helpers params hook
               {| FieldState.UpdateSectionValueParams.activeSection :=
                    FieldState.UpdateSectionValueParams.activeSection args;
                  FieldState.UpdateSectionValueParams.setSectionValueOnDate :=
                    onDate;
                  FieldState.UpdateSectionValueParams.setSectionValueOnSections :=
                    FieldState.UpdateSectionValueParams.setSectionValueOnSections
                      args |})
          = FieldState.run hook
              (FieldState.updateSectionValue utils helpers params hook args)).
Proof.
  intros TValue TDate Other Query Boundaries Supported utils helpers params
         hook args.
  split.
  - intros Hvalid onSections.
    exact (valid_date_ignores_onSections _ _ _ _ _ _ utils helpers params
             hook args onSections Hvalid).
  - intros Hinvalid onDate.
    exact (invalid_date_ignores_onDate _ _ _ _ _ _ utils helpers params hook
             args onDate Hinvalid).
Qed.

Section NotificationsOfAnAction.
Import FieldState FieldNotions HookNotions.
Variables TValue TDate Other Query Boundaries Supported : Type.
Variable utils : utils.t TDate.
Variable helpers : fieldUtils.t TDate Other Boundaries Supported.
Variable params : Params.t TValue TDate Other Query Supported.
Variable hook : Hook.t TValue Other Query.

(** The narrowing of the selection tells of one selection at most. *)
Lemma afterCollapse_selections :
  List.length
    (selections (World.notifications (afterCollapse params hook))) <= 1.
Proof.
  destruct (selectedSectionIndexes params hook) as [indexes|] eqn:Hsel.
  - destruct (Z.eq_dec (startIndex indexes) (endIndex indexes)) as [Heq|Hne].
    + rewrite afterCollapse_untouched by now rewrite Hsel. cbn. lia.
    + rewrite (afterCollapse_narrowed _ _ _ _ _ params hook indexes Hsel Hne).
      cbn. destruct (Params.onSelectedSectionsChange params); cbn; lia.
  - rewrite afterCollapse_untouched by now rewrite Hsel. cbn. lia.
Qed.

Lemma updateSectionValue_changes
    (args : UpdateSectionValueParams.t TDate Other Boundaries) :
  List.length
    (changes
       (World.notifications
          (snd (run hook
                  (updateSectionValue utils helpers params hook args)))))
  <= 1.
Proof.
  destruct (@updateSectionValue_ends _ _ _ _ _ _ utils helpers params hook
              args) as [[newValue Hends]|[Hends|(_ & _ & Hchanges)]].
  - rewrite Hends.
    destruct (@publishValue_after_collapse _ _ _ _ _ params hook newValue)
      as (_ & _ & _ & _ & _ & Hchanges).
    rewrite Hchanges. destruct (Params.onChange params); cbn; lia.
  - rewrite Hends. cbn. lia.
  - rewrite Hchanges. cbn. lia.
Qed.

End NotificationsOfAnAction.

(** X4.  Whatever the hook is asked to do, it calls [onChange] once at
    most and [onSelectedSectionsChange] once at most.  Only [clearValue]
    and [updateSectionValue] call [onChange]: clearing the active section,
    storing the fallback text, selecting sections and the two effects
    never do.  Only [setSelectedSections] and [updateSectionValue] call
    [onSelectedSectionsChange]. *)
Theorem every_action_notifies_once_at_most :
  forall (TValue TDate Other Query Boundaries Supported : Type)
         (utils : FieldState.utils.t TDate)
         (helpers : FieldState.fieldUtils.t TDate Other Boundaries Supported)
         (params : FieldState.Params.t TValue TDate Other Query Supported)
         (hook : FieldState.Hook.t TValue Other Query)
         (action : FieldState.Action TDate Other Boundaries),
    let notifications :=
      FieldState.World.notifications
        (snd (FieldState.run hook
                (FieldState.perform utils helpers params hook action))) in
    List.length (FieldNotions.changes notifications) <= 1
    /\ List.length (HookNotions.selections notifications) <= 1
    /\ (FieldNotions.changes notifications <> [] ->
        action = FieldState.ClearValue TDate Other Boundaries
        \/ exists args, action = FieldState.UpdateSectionValue args)
    /\ (HookNotions.selections notifications <> [] ->
        (exists newSelectedSections,
           action = FieldState.SetSelectedSections TDate Other Boundaries
                      newSelectedSections)
        \/ exists args, action = FieldState.UpdateSectionValue args).
Proof.
  intros TValue TDate Other Query Boundaries Supported utils helpers params
         hook action notifications.
  subst notifications.
  destruct action as [sel| | |args|text| |]; cbn [FieldState.perform].
  - unfold FieldState.run, FieldState.setSelectedSections, FieldState.bind,
      FieldState.innerSetSelectedSections, FieldState.notify,
      FieldState.setState; cbn.
    destruct (FieldState.Params.onSelectedSectionsChange params); cbn;
      (split; [lia|]); (split; [lia|]);
      (split; [congruence|]); intros _; left; now exists sel.
  - unfold FieldState.clearValue, FieldState.run. rewrite publishValue_run.
    cbn. destruct (FieldState.Params.onChange params); cbn;
      (split; [lia|]); (split; [lia|]);
      (split; [intros _; now left|congruence]).
  - unfold FieldState.run, FieldState.clearActiveSection.
    destruct (FieldState.selectedSectionIndexes params hook);
      [destruct (FieldState.activeDateManager.getNewValueFromNewActiveDate
                   _ _)|];
      cbn; (split; [lia|]); (split; [lia|]); split; congruence.
  - split; [apply updateSectionValue_changes|].
    split.
    { destruct (updateSectionValue_keeps_collapse _ _ _ _ _ _ utils helpers
                  params hook args) as (_ & _ & _ & Hselections).
      rewrite Hselections. apply afterCollapse_selections. }
    split; intros _; [right|right]; now exists args.
  - cbn. (split; [lia|]); (split; [lia|]); split; congruence.
  - unfold FieldState.run, FieldState.syncValueFromTheOutside.
    destruct (negb _); cbn; (split; [lia|]); (split; [lia|]);
      split; congruence.
  - unfold FieldState.run, FieldState.syncFormat.
    destruct (FieldState.fieldUtils.validateSections _ _ _); cbn;
      (split; [lia|]); (split; [lia|]); split; congruence.
Qed.

Section ValueFromTheOutside.
Import FieldState FieldNotions HookNotions.
Variables TValue TDate Other Query Supported : Type.
Variable params : Params.t TValue TDate Other Query Supported.

Lemma syncValueFromTheOutside_equal (hook : Hook.t TValue Other Query) :
  valueManager.areValuesEqual (Params.valueManager params)
    (State.value (Hook.state hook)) (valueFromTheOutside params hook) = true ->
  run hook (syncValueFromTheOutside params hook)
  = (Returned tt, {| World.pending := hook; World.notifications := [] |}).
Proof.
  intros Hequal. unfold run, syncValueFromTheOutside. now rewrite Hequal.
Qed.

Lemma syncValueFromTheOutside_different (hook : Hook.t TValue Other Query) :
  valueManager.areValuesEqual (Params.valueManager params)
    (State.value (Hook.state hook)) (valueFromTheOutside params hook)
    = false ->
  run hook (syncValueFromTheOutside params hook)
  = (Returned tt,
     {| World.pending :=
          {| Hook.state :=
               {| State.sections :=
                    fieldValueManager.getSectionsFromValue
                      (Params.fieldValueManager params)
                      (Some (State.sections (Hook.state hook)))
                      (valueFromTheOutside params hook)
                      (Params.format params);
                  State.value := valueFromTheOutside params hook;
                  State.referenceValue :=
                    fieldValueManager.updateReferenceValue
                      (Params.fieldValueManager params)
                      (valueFromTheOutside params hook)
                      (State.referenceValue (Hook.state hook));
                  State.tempValueStrAndroid :=
                    State.tempValueStrAndroid (Hook.state hook);
                  State.selectedSectionQuery :=
                    State.selectedSectionQuery (Hook.state hook) |};
             Hook.innerSelectedSections := Hook.innerSelectedSections hook;
             Hook.firstDefaultValue := Hook.firstDefaultValue hook |};
        World.notifications := [] |}).
Proof.
  intros Hequal. unfold run, syncValueFromTheOutside. now rewrite Hequal.
Qed.

End ValueFromTheOutside.

(** X5.  The effect that follows the value from the outside always
    returns and notifies nobody.  It leaves the hook as it is when the
    value manager finds the value of the state equal to the value from the
    outside.  Otherwise the value of the state becomes the value from the
    outside, the sections are rebuilt from it, the reference value is the
    one [updateReferenceValue] makes of it and of the former reference
    value, and the fallback text, the selection and its query stay.  Once
    it has run, running it again changes nothing, as soon as the value
    manager finds the value from the outside equal to itself. *)
Theorem syncValueFromTheOutside_follows_the_outside :
  forall (TValue TDate Other Query Supported : Type)
         (params : FieldState.Params.t TValue TDate Other Query Supported)
         (hook : FieldState.Hook.t TValue Other Query),
    let state := FieldState.Hook.state hook in
    let outside := FieldState.valueFromTheOutside params hook in
    let equal :=
      FieldState.valueManager.areValuesEqual
        (FieldState.Params.valueManager params) in
    let outcome :=
      FieldState.run hook (FieldState.syncValueFromTheOutside params hook) in
    let hook' := HookNotions.hookAfter outcome in
    let state' := FieldState.Hook.state hook' in
    fst outcome = FieldState.Returned tt
    /\ FieldState.World.notifications (snd outcome) = []
    /\ (equal (FieldState.State.value state) outside = true -> hook' = hook)
    /\ (equal (FieldState.State.value state) outside = false ->
        FieldState.State.value state' = outside
        /\ FieldState.State.sections state'
           = FieldState.fieldValueManager.getSectionsFromValue
               (FieldState.Params.fieldValueManager params)
               (Some (FieldState.State.sections state)) outside
               (FieldState.Params.format params)
        /\ FieldState.State.referenceValue state'
           = FieldState.fieldValueManager.updateReferenceValue
               (FieldState.Params.fieldValueManager params) outside
               (FieldState.State.referenceValue state)
        /\ FieldState.State.tempValueStrAndroid state'
           = FieldState.State.tempValueStrAndroid state
        /\ FieldState.State.selectedSectionQuery state'
           = FieldState.State.selectedSectionQuery state
        /\ FieldState.Hook.innerSelectedSections hook'
           = FieldState.Hook.innerSelectedSections hook)
    /\ (equal outside outside = true ->
        FieldState.run hook'
          (FieldState.syncValueFromTheOutside params hook')
        = (FieldState.Returned tt,
           {| FieldState.World.pending := hook';
              FieldState.World.notifications := [] |})).
Proof.
  intros TValue TDate Other Query Supported params hook state outside equal
         outcome hook' state'.
  subst state' hook' outcome. unfold HookNotions.hookAfter.
  destruct (equal (FieldState.State.value state) outside) eqn:Hequal.
  - rewrite (syncValueFromTheOutside_equal _ _ _ _ _ params hook Hequal).
    cbn [fst snd FieldState.World.pending FieldState.World.notifications].
    repeat split; try discriminate.
    intros _.
    exact (syncValueFromTheOutside_equal _ _ _ _ _ params hook Hequal).
  - rewrite (syncValueFromTheOutside_different _ _ _ _ _ params hook Hequal).
    cbn [fst snd FieldState.World.pending FieldState.World.notifications
         FieldState.Hook.state FieldState.Hook.innerSelectedSections
         FieldState.State.value FieldState.State.sections
         FieldState.State.referenceValue FieldState.State.tempValueStrAndroid
         FieldState.State.selectedSectionQuery].
    repeat split; try discriminate.
    intros Hreflexive.
    apply syncValueFromTheOutside_equal. exact Hreflexive.
Qed.

Section ArraysOfSections.
Import FieldState.
Variable A : Type.

Lemma arraySet_at_nth_error (array : list (option A)) :
  forall (index : nat) (x : A) (j : nat),
    nth_error (arraySet_at array index x) j
    = if (j =? index)%nat then Some (Some x)
      else if (j <? index)%nat
           then Some (match nth_error array j with
                      | Some element => element
                      | None => None
                      end)
           else nth_error array j.
Proof.
  induction array as [|y array IH]; intros index.
  - induction index as [|index IHindex]; intros x j.
    + destruct j as [|j]; cbn; [reflexivity|now destruct j].
    + destruct j as [|j]; cbn [arraySet_at nth_error]; [reflexivity|].
      rewrite IHindex.
      change (S j =? S index)%nat with (j =? index)%nat.
      change (S j <? S index)%nat with (j <? index)%nat.
      destruct (j =? index)%nat; [reflexivity|].
      destruct (j <? index)%nat; now destruct j.
  - intros x j. destruct index as [|index].
    + destruct j as [|j]; reflexivity.
    + destruct j as [|j]; cbn [arraySet_at nth_error]; [reflexivity|].
      rewrite IH.
      change (S j =? S index)%nat with (j =? index)%nat.
      change (S j <? S index)%nat with (j <? index)%nat.
      reflexivity.
Qed.

Lemma arraySet_at_length (array : list (option A)) :
  forall (index : nat) (x : A),
    List.length (arraySet_at array index x)
    = Nat.max (List.length array) (S index).
Proof.
  induction array as [|y array IH]; intros index x.
  - induction index as [|index IHindex]; cbn [arraySet_at List.length];
      [reflexivity|].
    rewrite IHindex. cbn. lia.
  - destruct index as [|index]; cbn [arraySet_at List.length];
      [lia|rewrite IH; lia].
Qed.

Lemma isArrayIndex_true (index : Z) :
  isArrayIndex index = true <-> (0 <= index <= maxArrayIndex)%Z.
Proof.
  unfold isArrayIndex. rewrite andb_true_iff, !Z.leb_le. reflexivity.
Qed.

Lemma arrayGet_nth_error (array : list A) (index : Z) :
  isArrayIndex index = true ->
  arrayGet array index = nth_error array (Z.to_nat index).
Proof. intros Hindex. unfold arrayGet. now rewrite Hindex. Qed.

End ArraysOfSections.

(** X6.  [setSectionValue] writes one section and leaves the others as
    they are.  The array it hands to [addPositionPropertiesToSections]
    is, for an array index (an integer from 0 to 2^32 - 2), the array of
    the sections of the state with, at the index, the section of that
    index with its value replaced and marked as edited, its name and its
    other properties being kept; past the end of the sections the array
    grows up to the index, with holes in between and, at the index, an
    object that has a value and the mark but no name.  For any other
    number, a negative one or one past 2^32 - 2, the array is the array
    of the sections of the state, elements and length unchanged.  An
    index within the sections keeps the length of the array. *)
Theorem setSectionValue_writes_one_section :
  forall (TValue TDate Other Query Boundaries Supported : Type)
         (helpers : FieldState.fieldUtils.t TDate Other Boundaries Supported)
         (hook : FieldState.Hook.t TValue Other Query)
         (sectionIndex : Z) (newSectionValue : string),
    let sections := FieldState.State.sections (FieldState.Hook.state hook) in
    let written :=
      HookNotions.writtenSections hook sectionIndex newSectionValue in
    FieldState.setSectionValue helpers hook sectionIndex newSectionValue
      = FieldState.fieldUtils.addPositionPropertiesToSections helpers written
    /\ ((sectionIndex < 0)%Z \/ (4294967294 < sectionIndex)%Z ->
        written = map Some sections)
    /\ ((0 <= sectionIndex <= 4294967294)%Z ->
        forall j : nat,
          nth_error written j
          = if (j =? Z.to_nat sectionIndex)%nat
            then
              Some (Some
                      (FieldState.withEditedValue (nth_error sections j)
                         newSectionValue))
            else if (j <? List.length sections)%nat
                 then option_map Some (nth_error sections j)
                 else if (j <? Z.to_nat sectionIndex)%nat
                      then Some None
                      else None)
    /\ ((0 <= sectionIndex <= 4294967294)%Z ->
        List.length written
        = Nat.max (List.length sections) (S (Z.to_nat sectionIndex)))
    /\ ((0 <= sectionIndex < Z.of_nat (List.length sections))%Z ->
        (sectionIndex <= 4294967294)%Z ->
        List.length written = List.length sections)
    /\ (forall section : FieldState.FieldSection Other,
          FieldState.withEditedValue (Some section) newSectionValue
          = {| FieldState.dateSectionName :=
                 FieldState.dateSectionName section;
               FieldState.value := newSectionValue;
               FieldState.edited := true;
               FieldState.other := FieldState.other section |})
    /\ FieldState.dateSectionName
         (FieldState.withEditedValue (@None (FieldState.FieldSection Other))
            newSectionValue) = None.
Proof.
  intros TValue TDate Other Query Boundaries Supported helpers hook
         sectionIndex newSectionValue sections written.
  split; [reflexivity|].
  split.
  { intros Houtside. subst written.
    unfold HookNotions.writtenSections, FieldState.arraySet.
    destruct (FieldState.isArrayIndex sectionIndex) eqn:Hindex;
      [|reflexivity].
    apply isArrayIndex_true in Hindex.
    unfold FieldState.maxArrayIndex in Hindex. lia. }
  assert (Hwritten :
            (0 <= sectionIndex <= 4294967294)%Z ->
            written
            = FieldState.arraySet_at (map Some sections)
                (Z.to_nat sectionIndex)
                (FieldState.withEditedValue
                   (nth_error sections (Z.to_nat sectionIndex))
                   newSectionValue)).
  { intros Hinside.
    assert (Hindex : FieldState.isArrayIndex sectionIndex = true)
      by (apply isArrayIndex_true; exact Hinside).
    subst written. unfold HookNotions.writtenSections, FieldState.arraySet.
    fold sections.
    now rewrite (arrayGet_nth_error _ sections sectionIndex Hindex), Hindex. }
  split.
  { intros Hinside j. rewrite (Hwritten Hinside), arraySet_at_nth_error.
    destruct (j =? Z.to_nat sectionIndex)%nat eqn:Hj.
    - apply Nat.eqb_eq in Hj. now subst j.
    - rewrite nth_error_map.
      destruct (j <? List.length sections)%nat eqn:Hlt.
      + apply Nat.ltb_lt in Hlt.
        destruct (nth_error sections j) as [section|] eqn:Hnth.
        * cbn [option_map]. now destruct (j <? Z.to_nat sectionIndex)%nat.
        * apply nth_error_None in Hnth. lia.
      + apply Nat.ltb_ge in Hlt.
        assert (Hnone : nth_error sections j = None)
          by now apply nth_error_None.
        rewrite Hnone. cbn [option_map].
        now destruct (j <? Z.to_nat sectionIndex)%nat. }
  split.
  { intros Hinside. rewrite (Hwritten Hinside), arraySet_at_length.
    now rewrite length_map. }
  split.
  { intros [Hpos Hlt] Hmax. rewrite Hwritten by lia.
    rewrite arraySet_at_length, length_map. lia. }
  split; reflexivity.
Qed.

Section FindIndex.
Variable A : Type.
Variable f : A -> bool.

Lemma findIndex_from_cases (array : list A) :
  forall index : Z,
    (0 <= index)%Z ->
    (FieldState.findIndex_from f array index = (-1)%Z
     /\ forall x, In x array -> f x = false)
    \/ exists (n : nat) (x : A),
         FieldState.findIndex_from f array index = (index + Z.of_nat n)%Z
         /\ nth_error array n = Some x
         /\ f x = true
         /\ forall (j : nat) (y : A),
              (j < n)%nat -> nth_error array j = Some y -> f y = false.
Proof.
  induction array as [|x array IH]; intros index Hindex.
  - left. split; [reflexivity|]. intros x [].
  - cbn [FieldState.findIndex_from]. destruct (f x) eqn:Hx.
    + right. exists 0%nat, x.
      split; [lia|]. split; [reflexivity|]. split; [exact Hx|].
      intros j y Hj. lia.
    + destruct (IH (index + 1)%Z ltac:(lia))
        as [[Hnone Hall]|(n & y & Hfound & Hnth & Hy & Hbefore)].
      * left. split; [exact Hnone|].
        intros z [Hz|Hz]; [now subst z|now apply Hall].
      * right. exists (S n), y.
        split; [rewrite Hfound; lia|].
        split; [exact Hnth|]. split; [exact Hy|].
        intros [|j] z Hj Hz.
        -- cbn in Hz. now injection Hz as <-.
        -- apply (Hbefore j z); [lia|exact Hz].
Qed.

End FindIndex.

(** X7.  A selection given by the name of a section is resolved on the
    sections of the state.  When a section bears the name, the selection
    is that of the first section which does: both its indexes are the
    index of that section, and no section before it bears the name.  When
    none does, both indexes are -1, and writing a section value at that
    index leaves every section of the state as it is: the array handed to
    [addPositionPropertiesToSections] is the array of the sections of the
    state. *)
Theorem selectedSectionIndexes_of_a_name :
  forall (TValue TDate Other Query Boundaries Supported : Type)
         (params : FieldState.Params.t TValue TDate Other Query Supported)
         (hook : FieldState.Hook.t TValue Other Query)
         (name : FieldState.MuiDateSectionName),
    FieldState.selectedSections params hook
      = Some (FieldState.SelectedName name) ->
    let sections := FieldState.State.sections (FieldState.Hook.state hook) in
    ((forall section,
         In section sections ->
         FieldState.dateSectionName section <> Some name)
     /\ FieldState.selectedSectionIndexes params hook
        = Some {| FieldState.startIndex := (-1)%Z;
                  FieldState.endIndex := (-1)%Z |}
     /\ forall (helpers :
                  FieldState.fieldUtils.t TDate Other Boundaries Supported)
               (newSectionValue : string),
          FieldState.setSectionValue helpers hook (-1)%Z newSectionValue
          = FieldState.fieldUtils.addPositionPropertiesToSections helpers
              (map Some sections))
    \/ exists (n : nat) (section : FieldState.FieldSection Other),
         FieldState.selectedSectionIndexes params hook
         = Some {| FieldState.startIndex := Z.of_nat n;
                   FieldState.endIndex := Z.of_nat n |}
         /\ nth_error sections n = Some section
         /\ FieldState.dateSectionName section = Some name
         /\ forall (j : nat) (earlier : FieldState.FieldSection Other),
              (j < n)%nat ->
              nth_error sections j = Some earlier ->
              FieldState.dateSectionName earlier <> Some name.
Proof.
  intros TValue TDate Other Query Boundaries Supported params hook name
         Hselected sections.
  unfold FieldState.selectedSectionIndexes. rewrite Hselected.
  unfold FieldState.findIndex. fold sections.
  destruct (findIndex_from_cases _ (FieldState.hasDateSectionName name)
              sections 0%Z ltac:(lia))
    as [[Hnone Hall]|(n & section & Hfound & Hnth & Hsection & Hbefore)].
  - left. rewrite Hnone. split; [|split; [reflexivity|reflexivity]].
    intros section Hin Hname.
    apply (proj2 (hasDateSectionName_true name section)) in Hname.
    rewrite (Hall section Hin) in Hname. discriminate.
  - right. exists n, section. rewrite Hfound.
    split; [reflexivity|]. split; [exact Hnth|].
    split; [now apply hasDateSectionName_true|].
    intros j earlier Hj Hearlier Hname.
    apply (proj2 (hasDateSectionName_true name earlier)) in Hname.
    rewrite (Hbefore j earlier Hj Hearlier) in Hname. discriminate.
Qed.

(** On the plain calendar, in a field [MM/dd/yyyy] whose selection is the
    name [day]: the selection is resolved to the section of index 1 or to
    no section, as the theorem says. *)
Lemma selectedSectionIndexes_of_a_name_witness :
  let params := PlainCalendar.params "MM/dd/yyyy" in
  let sections :=
    [PlainCalendar.section FieldState.month "02" true "/";
     PlainCalendar.section FieldState.day "" false "/";
     PlainCalendar.section FieldState.year "2023" true ""] in
  let hook :=
    PlainCalendar.hook sections None (Some PlainCalendar.today)
      (Some (FieldState.SelectedName FieldState.day)) in
  FieldState.selectedSections params hook
    = Some (FieldState.SelectedName FieldState.day)
  /\ FieldState.selectedSectionIndexes params hook
     = Some {| FieldState.startIndex := 1%Z; FieldState.endIndex := 1%Z |}
  /\ (((forall section,
          In section sections ->
          FieldState.dateSectionName section <> Some FieldState.day)
       /\ FieldState.selectedSectionIndexes params hook
          = Some {| FieldState.startIndex := (-1)%Z;
                    FieldState.endIndex := (-1)%Z |}
       /\ forall (helpers :
                    FieldState.fieldUtils.t PlainCalendar.PlainDate
                      PlainCalendar.Separator PlainCalendar.Boundaries unit)
                 (newSectionValue : string),
            FieldState.setSectionValue helpers hook (-1)%Z newSectionValue
            = FieldState.fieldUtils.addPositionPropertiesToSections helpers
                (map Some sections))
      \/ exists (n : nat)
                (section : FieldState.FieldSection PlainCalendar.Separator),
           FieldState.selectedSectionIndexes params hook
           = Some {| FieldState.startIndex := Z.of_nat n;
                     FieldState.endIndex := Z.of_nat n |}
           /\ nth_error sections n = Some section
           /\ FieldState.dateSectionName section = Some FieldState.day
           /\ forall (j : nat)
                     (earlier : FieldState.FieldSection
                                  PlainCalendar.Separator),
                (j < n)%nat ->
                nth_error sections j = Some earlier ->
                FieldState.dateSectionName earlier <> Some FieldState.day).
Proof.
  intros params sections hook.
  split; [reflexivity|]. split; [reflexivity|].
  exact (selectedSectionIndexes_of_a_name
           PlainCalendar.Value PlainCalendar.PlainDate
           PlainCalendar.Separator unit PlainCalendar.Boundaries unit
           params hook FieldState.day eq_refl).
Defined.

(** X8.  [clearActiveSection] unsets the date of the selected section
    without telling anyone.  It always returns, and it calls neither
    [onChange] nor [onSelectedSectionsChange]; the selection, the text
    kept for Android and the query of the state are left as they are.
    With no selection the hook is left as it is.  With a selection, the
    sections of the state become those [setSectionValue] builds by
    writing the empty text at the start index of the selection, and the
    value and the reference value become those the manager of the active
    date gives for no date. *)
Theorem clearActiveSection_is_silent :
  forall (TValue TDate Other Query Boundaries Supported : Type)
         (helpers : FieldState.fieldUtils.t TDate Other Boundaries Supported)
         (params : FieldState.Params.t TValue TDate Other Query Supported)
         (hook : FieldState.Hook.t TValue Other Query),
    let outcome :=
      FieldState.run hook
        (FieldState.clearActiveSection helpers params hook) in
    let state := FieldState.Hook.state hook in
    let hook' := HookNotions.hookAfter outcome in
    let state' := FieldState.Hook.state hook' in
    fst outcome = FieldState.Returned tt
    /\ FieldState.World.notifications (snd outcome) = []
    /\ FieldState.Hook.innerSelectedSections hook'
       = FieldState.Hook.innerSelectedSections hook
    /\ FieldState.State.tempValueStrAndroid state'
       = FieldState.State.tempValueStrAndroid state
    /\ FieldState.State.selectedSectionQuery state'
       = FieldState.State.selectedSectionQuery state
    /\ (FieldState.selectedSectionIndexes params hook = None ->
        hook' = hook)
    /\ (forall indexes,
          FieldState.selectedSectionIndexes params hook = Some indexes ->
          FieldState.State.sections state'
          = FieldState.setSectionValue helpers hook
              (FieldState.startIndex indexes) ""
          /\ (FieldState.State.value state',
              FieldState.State.referenceValue state')
             = FieldState.activeDateManager.getNewValueFromNewActiveDate
                 (FieldState.fieldValueManager.getActiveDateManager
                    (FieldState.Params.fieldValueManager params) state
                    (FieldState.arrayGet (FieldState.State.sections state)
                       (FieldState.startIndex indexes)))
                 None).
Proof.
  intros TValue TDate Other Query Boundaries Supported helpers params hook
         outcome state hook' state'.
  subst state' hook' outcome.
  unfold HookNotions.hookAfter, FieldState.run, FieldState.clearActiveSection.
  destruct (FieldState.selectedSectionIndexes params hook) as [indexes|].
  - fold state.
    destruct (FieldState.activeDateManager.getNewValueFromNewActiveDate
                (FieldState.fieldValueManager.getActiveDateManager
                   (FieldState.Params.fieldValueManager params) state
                   (FieldState.arrayGet (FieldState.State.sections state)
                      (FieldState.startIndex indexes)))
                None) as [value referenceValue] eqn:Hnew.
    cbn.
    split; [reflexivity|]. split; [reflexivity|]. split; [reflexivity|].
    split; [reflexivity|]. split; [reflexivity|].
    split; [discriminate|].
    intros indexes' Hindexes. injection Hindexes as <-.
    split; [reflexivity|]. rewrite Hnew. reflexivity.
  - cbn.
    split; [reflexivity|]. split; [reflexivity|]. split; [reflexivity|].
    split; [reflexivity|]. split; [reflexivity|].
    split; [reflexivity|]. intros indexes' Hindexes. discriminate.
Qed.

(** X9.  [setSelectedSections] and the selection of the next render.  The
    call returns, tells [onSelectedSectionsChange], when there is one, of
    the new selection and of nothing else, resets the query of the state
    and leaves the sections, the value, the reference value and the text
    kept for Android as they are.  The selection the next render reads is
    the new one when the selection is not controlled, and still the one of
    the parameters when it is.  Selecting the same sections a second time
    leaves the hook as the first call left it. *)
Theorem setSelectedSections_next_render :
  forall (TValue TDate Other Query Supported : Type)
         (params : FieldState.Params.t TValue TDate Other Query Supported)
         (hook : FieldState.Hook.t TValue Other Query)
         (newSelectedSections : FieldState.FieldSelectedSections),
    let outcome :=
      FieldState.run hook
        (FieldState.setSelectedSections params newSelectedSections) in
    let state := FieldState.Hook.state hook in
    let hook' := HookNotions.hookAfter outcome in
    let state' := FieldState.Hook.state hook' in
    fst outcome = FieldState.Returned tt
    /\ FieldState.World.notifications (snd outcome)
       = (if FieldState.Params.onSelectedSectionsChange params
          then [FieldState.OnSelectedSectionsChange newSelectedSections]
          else [])
    /\ FieldState.selectedSections params hook'
       = match FieldState.Params.selectedSections params with
         | Some selectedSectionsProp => selectedSectionsProp
         | None => newSelectedSections
         end
    /\ FieldState.State.selectedSectionQuery state' = None
    /\ FieldState.State.sections state' = FieldState.State.sections state
    /\ FieldState.State.value state' = FieldState.State.value state
    /\ FieldState.State.referenceValue state'
       = FieldState.State.referenceValue state
    /\ FieldState.State.tempValueStrAndroid state'
       = FieldState.State.tempValueStrAndroid state
    /\ HookNotions.hookAfter
         (FieldState.run hook'
            (FieldState.setSelectedSections params newSelectedSections))
       = hook'.
Proof.
  intros TValue TDate Other Query Supported params hook newSelectedSections
         outcome state hook' state'.
  subst state' hook' outcome state.
  unfold HookNotions.hookAfter, FieldState.run,
    FieldState.setSelectedSections, FieldState.selectedSections,
    FieldState.selectedSectionsControlled.
  destruct hook as [[sections value referenceValue temp query] inner first].
  destruct (FieldState.Params.selectedSections params) as [controlled|];
    destruct (FieldState.Params.onSelectedSectionsChange params);
    cbn; repeat split.
Qed.

(* ================================================================== *)
(** ** The format parser, function by function *)
(* ================================================================== *)

(** X10.  What [createSection] throws and what it returns.  It throws the
    error of the empty token exactly when the token is empty, and the
    error of the missing maximal length exactly when the token is not
    empty, the input has leading zeros, the format has none and the
    configuration of the token gives no maximal length; it throws nothing
    else, so that, when the leading zeros of the format are respected, it
    only fails on the empty token.  The section it returns has the token
    as its format, the start separator it was given, an empty end
    separator and is not modified; it has a maximal length exactly when
    the input has leading zeros; and its value is empty when there is no
    date or when the date is not valid. *)
Theorem createSection_throws_and_returns :
  forall (TDate Clock : Type)
         (helpers : FormatParser.fieldUtils.t TDate Clock)
         (clock : Clock) (params : FormatParser.Params.t TDate Clock)
         (now : TDate) (token startSeparator : string),
    let utils := FormatParser.Params.utils params in
    let config :=
      FormatParser.fieldUtils.getDateSectionConfigFromFormatToken helpers
        utils token in
    let inFormat :=
      FormatParser.fieldUtils.doesSectionFormatHaveLeadingZeros helpers utils
        (FormatParser.Params.timezone params)
        (FormatParser.cfg_contentType config)
        (FormatParser.cfg_type config) token in
    let inInput :=
      if FormatParser.Params.shouldRespectLeadingZeros params
      then inFormat
      else FormatParser.contentType_eqb (FormatParser.cfg_contentType config)
             FormatParser.digit in
    let created :=
      FormatParser.createSection helpers clock params now token
        startSeparator in
    (created = FormatParser.Throw FormatParser.EmptyToken <-> token = "")
    /\ (forall name,
          created = FormatParser.Throw (FormatParser.MissingMaxLength name)
          <-> name = token /\ token <> "" /\ inInput = true
              /\ inFormat = false
              /\ FormatParser.cfg_maxLength config = None)
    /\ created <> FormatParser.Throw FormatParser.FormatExpansionOverflow
    /\ (FormatParser.Params.shouldRespectLeadingZeros params = true ->
        token <> "" ->
        exists section, created = FormatParser.Ok section)
    /\ (forall section,
          created = FormatParser.Ok section ->
          FormatParser.format section = token
          /\ FormatParser.startSeparator section = startSeparator
          /\ FormatParser.endSeparator section = ""
          /\ FormatParser.modified section = false
          /\ FormatParser.type section = FormatParser.cfg_type config
          /\ FormatParser.contentType section
             = FormatParser.cfg_contentType config
          /\ FormatParser.hasLeadingZerosInFormat section = inFormat
          /\ FormatParser.hasLeadingZerosInInput section = inInput
          /\ (FormatParser.maxLength section = None <-> inInput = false)
          /\ (match FormatParser.Params.date params with
              | Some date => FormatParser.utils.isValid utils date = false
              | None => True
              end ->
              FormatParser.value section = "")).
Proof.
  intros TDate Clock helpers clock params now token startSeparator utils
         config inFormat inInput created.
  subst created. unfold FormatParser.createSection.
  fold utils. fold config. fold inFormat. fold inInput.
  destruct token as [|c token].
  { cbn [FormatParser.isEmptyString].
    split; [split; reflexivity|].
    split.
    { intros name. split; [discriminate|].
      intros (_ & Hne & _). now contradiction Hne. }
    split; [discriminate|].
    split; [intros _ Hne; now contradiction Hne|].
    intros section. discriminate. }
  cbn [FormatParser.isEmptyString].
  assert (Hvalue :
            match FormatParser.Params.date params with
            | Some date => FormatParser.utils.isValid utils date = false
            | None => True
            end ->
            match FormatParser.Params.date params with
            | Some date =>
                if FormatParser.utils.isValid utils date
                then FormatParser.utils.formatByString utils date
                       (String c token)
                else ""
            | None => ""
            end = ""
            /\ match FormatParser.Params.date params with
               | Some date => FormatParser.utils.isValid utils date
               | None => false
               end = false).
  { destruct (FormatParser.Params.date params) as [date|];
      [intros Hvalid; now rewrite Hvalid|now split]. }
  destruct inInput eqn:HinInput.
  - destruct inFormat eqn:HinFormat.
    + split; [split; discriminate|].
      split.
      { intros name. split; [discriminate|].
        intros (_ & _ & _ & Hfalse & _). discriminate. }
      split; [discriminate|].
      split; [intros _ _; eexists; reflexivity|].
      intros section Hsection. injection Hsection as <-.
      cbn. repeat split; try discriminate.
      intros Hdate. now destruct (Hvalue Hdate) as [-> _].
    + destruct (FormatParser.cfg_maxLength config) as [maxLength|]
        eqn:HmaxLength.
      * split; [split; discriminate|].
        split.
        { intros name. split; [discriminate|].
          intros (_ & _ & _ & _ & Hnone). discriminate. }
        split; [discriminate|].
        split; [intros _ _; eexists; reflexivity|].
        intros section Hsection. injection Hsection as <-.
        cbn. repeat split; try discriminate.
        intros Hdate. destruct (Hvalue Hdate) as [Hempty Hinvalid].
        now rewrite Hinvalid.
      * split; [split; discriminate|].
        split.
        { intros name. split.
          - intros Hthrown. injection Hthrown as <-.
            repeat split. discriminate.
          - intros (-> & _). reflexivity. }
        split; [discriminate|].
        split.
        { intros Hrespect _. subst inInput.
          rewrite Hrespect in HinInput. congruence. }
        intros section. discriminate.
  - split; [split; discriminate|].
    split.
    { intros name. split; [discriminate|].
      intros (_ & _ & Htrue & _). discriminate. }
    split; [discriminate|].
    split; [intros _ _; eexists; reflexivity|].
    intros section Hsection. injection Hsection as <-.
    cbn. repeat split.
    intros Hdate. now destruct (Hvalue Hdate) as [-> _].
Qed.

Section LongestFirst.
Import FormatParser SectionNotions.

Lemma insertByLength_In (token : string) (sorted : list string) (x : string) :
  In x (insertByLength token sorted) <-> x = token \/ In x sorted.
Proof.
  induction sorted as [|t sorted IH]; cbn [insertByLength].
  - cbn. intuition congruence.
  - destruct (String.length t <? String.length token)%nat.
    + cbn. intuition congruence.
    + cbn [In]. rewrite IH. intuition congruence.
Qed.

Lemma insertByLength_LongestFirst (token : string) (sorted : list string) :
  LongestFirst sorted -> LongestFirst (insertByLength token sorted).
Proof.
  induction 1 as [|t sorted Hlonger Hsorted IH]; cbn [insertByLength].
  - constructor; [intros other []|constructor].
  - destruct (String.length t <? String.length token)%nat eqn:Hlt.
    + apply Nat.ltb_lt in Hlt. constructor.
      * intros other [<-|Hother]; [lia|].
        specialize (Hlonger other Hother). lia.
      * now constructor.
    + apply Nat.ltb_ge in Hlt. constructor; [|exact IH].
      intros other Hother. apply insertByLength_In in Hother.
      destruct Hother as [->|Hother]; [exact Hlt|now apply Hlonger].
Qed.

Lemma fold_insertByLength (keys : list string) :
  forall sorted : list string,
    LongestFirst sorted ->
    LongestFirst
      (fold_left (fun sorted token => insertByLength token sorted) keys
         sorted)
    /\ forall x,
         In x (fold_left (fun sorted token => insertByLength token sorted)
                 keys sorted)
         <-> In x keys \/ In x sorted.
Proof.
  induction keys as [|key keys IH]; intros sorted Hsorted; cbn [fold_left].
  - split; [exact Hsorted|]. intros x. cbn. intuition.
  - destruct (IH (insertByLength key sorted)
                (insertByLength_LongestFirst key sorted Hsorted)) as [Hfold Hin].
    split; [exact Hfold|].
    intros x. rewrite Hin, insertByLength_In. cbn [In]. intuition congruence.
Qed.

Lemma sortLongestFirst_LongestFirst (keys : list string) :
  LongestFirst (sortLongestFirst keys).
Proof. apply fold_insertByLength. constructor. Qed.

Lemma sortLongestFirst_In (keys : list string) (x : string) :
  In x (sortLongestFirst keys) <-> In x keys.
Proof.
  unfold sortLongestFirst.
  destruct (fold_insertByLength keys [] LongestFirst_nil) as [_ Hin].
  rewrite Hin. cbn. intuition.
Qed.

Lemma tokenAlternatives_In (TDate Clock : Type) (utils : utils.t TDate Clock)
    (token : string) :
  In token (tokenAlternatives utils)
  <-> In token (utils.formatTokenMap_keys utils)
      \/ (utils.formatTokenMap_keys utils = [] /\ token = "").
Proof.
  unfold tokenAlternatives.
  pose proof (sortLongestFirst_In (utils.formatTokenMap_keys utils)) as Hin.
  destruct (sortLongestFirst (utils.formatTokenMap_keys utils))
    as [|first others] eqn:Hsorted.
  - destruct (utils.formatTokenMap_keys utils) as [|key keys].
    + cbn. intuition.
    + exfalso. apply (proj2 (Hin key)). now left.
  - rewrite Hin. split; [now left|].
    intros [Hkey|[Hnone _]]; [exact Hkey|].
    exfalso. rewrite Hnone in Hin. apply (proj1 (Hin first)). now left.
Qed.

Lemma tokenAlternatives_LongestFirst (TDate Clock : Type)
    (utils : utils.t TDate Clock) :
  LongestFirst (tokenAlternatives utils).
Proof.
  unfold tokenAlternatives.
  pose proof (sortLongestFirst_LongestFirst (utils.formatTokenMap_keys utils))
    as Hsorted.
  destruct (sortLongestFirst (utils.formatTokenMap_keys utils)); [|exact Hsorted].
  constructor; [intros other []|constructor].
Qed.

Lemma find_LongestFirst (f : string -> bool) (tokens : list string) :
  LongestFirst tokens ->
  match find f tokens with
  | Some token =>
      In token tokens /\ f token = true
      /\ forall other, In other tokens -> f other = true ->
                       (String.length other <= String.length token)%nat
  | None => forall other, In other tokens -> f other = false
  end.
Proof.
  induction 1 as [|token tokens Hlonger Hsorted IH]; cbn [find].
  - intros other [].
  - destruct (f token) eqn:Htoken.
    + split; [now left|]. split; [exact Htoken|].
      intros other [<-|Hother] _; [lia|now apply Hlonger].
    + destruct (find f tokens) as [found|].
      * destruct IH as (Hin & Hfound & Hlongest).
        split; [now right|]. split; [exact Hfound|].
        intros other [<-|Hother] Hf; [congruence|now apply Hlongest].
      * intros other [<-|Hother]; [exact Htoken|now apply IH].
Qed.

End LongestFirst.

(** X11.  [isTokenStartRegExp] reads the longest token.  The alternatives
    of the expression are the keys of the token map of the adapter (the
    empty word when the map has no key), longest first.  A test that
    starts from a [lastIndex] other than 0 fails and resets [lastIndex].
    From [lastIndex] 0 the test fails, leaving [lastIndex] at 0, when no
    alternative is at the head of the text; otherwise it succeeds and
    [lastIndex] becomes the length of an alternative that is at the head
    of the text and is at least as long as every other alternative that
    is. *)
Theorem isTokenStartRegExp_reads_the_longest_token :
  forall (TDate Clock : Type) (utils : FormatParser.utils.t TDate Clock)
         (s : string),
    let alternatives := FormatParser.tokenAlternatives utils in
    (forall token,
       In token alternatives
       <-> In token (FormatParser.utils.formatTokenMap_keys utils)
           \/ (FormatParser.utils.formatTokenMap_keys utils = []
               /\ token = ""))
    /\ (forall lastIndex,
          lastIndex <> 0%nat ->
          FormatParser.isTokenStartRegExp_test alternatives lastIndex s
          = (false, 0%nat))
    /\ ((forall token, In token alternatives -> prefix token s = false) ->
        FormatParser.isTokenStartRegExp_test alternatives 0 s
        = (false, 0%nat))
    /\ (forall token,
          In token alternatives ->
          prefix token s = true ->
          exists longest,
            In longest alternatives
            /\ prefix longest s = true
            /\ FormatParser.isTokenStartRegExp_test alternatives 0 s
               = (true, String.length longest)
            /\ substring 0 (String.length longest) s = longest
            /\ (String.length token <= String.length longest)%nat
            /\ forall other,
                 In other alternatives ->
                 prefix other s = true ->
                 (String.length other <= String.length longest)%nat).
Proof.
  intros TDate Clock utils s alternatives.
  split; [exact (tokenAlternatives_In TDate Clock utils)|].
  split; [intros [|lastIndex] Hne; [now contradiction Hne|reflexivity]|].
  pose proof (find_LongestFirst (fun token => prefix token s) _
                (tokenAlternatives_LongestFirst TDate Clock utils)) as Hfind.
  fold alternatives in Hfind.
  unfold FormatParser.isTokenStartRegExp_test.
  destruct (find (fun token => prefix token s) alternatives) as [found|].
  - destruct Hfind as (Hin & Hfound & Hlongest).
    split.
    { intros Hnone. rewrite (Hnone found Hin) in Hfound. discriminate. }
    intros token Htoken Hprefix. exists found.
    split; [exact Hin|]. split; [exact Hfound|]. split; [reflexivity|].
    split; [now apply prefix_correct|].
    split; [now apply Hlongest|exact Hlongest].
  - split; [reflexivity|].
    intros token Htoken Hprefix. rewrite (Hfind token Htoken) in Hprefix.
    discriminate.
Qed.

Section LoopOfBuildSections.
Import FormatParser ParserNotions SectionNotions.
Variables TDate Clock : Type.
Variable helpers : fieldUtils.t TDate Clock.
Variable clock : Clock.
Variable params : Params.t TDate Clock.
Variable now : TDate.
Variable alternatives : list string.
Variable escapedParts : FormatEscapedParts.

(** What a test of [isTokenStartRegExp] that succeeds says. *)
Lemma isTokenStartRegExp_test_reads (lastIndex : nat) (s : string) (n : nat) :
  isTokenStartRegExp_test alternatives lastIndex s = (true, n) ->
  lastIndex = 0%nat
  /\ exists token,
       In token alternatives /\ prefix token s = true
       /\ n = String.length token.
Proof.
  unfold isTokenStartRegExp_test.
  destruct lastIndex; [|discriminate].
  destruct (find (fun token => prefix token s) alternatives) as [token|]
    eqn:Hfind; [|discriminate].
  intros Htest. injection Htest as <-.
  apply find_some in Hfind as [Hin Hprefix].
  split; [reflexivity|]. now exists token.
Qed.

Lemma length_zero_empty (s : string) : String.length s = 0%nat -> s = "".
Proof. destruct s; [reflexivity|discriminate]. Qed.

(** With no empty alternative every turn of the loop moves on, and the
    loop ends. *)
Lemma buildSections_loop_returns :
  (forall token, In token alternatives -> token <> "") ->
  forall (rest : string) (skip i : nat) (st : LoopState),
    buildSections_loop helpers clock params now alternatives escapedParts
      skip i rest st <> None.
Proof.
  intros Hwords. induction rest as [|char rest' IH]; intros skip i st.
  - destruct skip; discriminate.
  - cbn [buildSections_loop]. destruct skip as [|skip']; [|apply IH].
    destruct (isTokenStartRegExp_test alternatives (lastIndex st)
                (currentTokenValue st ++ String char rest'))
      as [regExpMatch lastIndex'] eqn:Htest.
    destruct (negb
                match findEscapedPart escapedParts i with
                | Some _ => true
                | None => false
                end && isLetter char && regExpMatch) eqn:Hbranch.
    + apply andb_prop in Hbranch as [_ Hmatch]. subst regExpMatch.
      apply isTokenStartRegExp_test_reads in Htest
        as (_ & token & Hin & _ & ->).
      destruct (String.length token) eqn:Hlength; [|apply IH].
      exfalso. exact (Hwords token Hin (length_zero_empty token Hlength)).
    + destruct (match findEscapedPart escapedParts i with
                | Some part => (start part =? i)%nat || (end_ part =? i)%nat
                | None => false
                end); [apply IH|].
      destruct (isEmptyString (currentTokenValue st)); [apply IH|].
      destruct (createSection helpers clock params now (currentTokenValue st)
                  (pendingStartSeparator st)); [apply IH|discriminate].
Qed.

(** With no key in the token map, the one alternative is the empty word:
    at a letter that is not escaped the test succeeds without reading
    anything, and the loop never moves on. *)
Lemma buildSections_loop_stalls (char : ascii) (rest : string) (i : nat)
    (st : LoopState) :
  alternatives = [""] ->
  lastIndex st = 0%nat ->
  isLetter char = true ->
  findEscapedPart escapedParts i = None ->
  buildSections_loop helpers clock params now alternatives escapedParts
    0 i (String char rest) st = None.
Proof.
  intros -> HlastIndex Hletter Hpart.
  cbn [buildSections_loop]. rewrite HlastIndex, Hpart, Hletter.
  unfold isTokenStartRegExp_test. cbn [find prefix].
  now destruct (currentTokenValue st ++ String char rest).
Qed.

End LoopOfBuildSections.

(** X12.  When [buildSections] returns and when it does not.  With a token
    map that has a key and whose keys are not empty, [buildSections] ends
    on every format and for whatever escaped parts, by sections or by an
    error, and so does [buildSectionsFromFormat].  With a token map that
    has no key, [isTokenStartRegExp] matches the empty word: on a format
    that starts with a letter that is not escaped, the loop stays on that
    letter and [buildSections] never returns. *)
Theorem buildSections_returns :
  forall (TDate Clock : Type)
         (helpers : FormatParser.fieldUtils.t TDate Clock) (clock : Clock)
         (params : FormatParser.Params.t TDate Clock),
    let keys :=
      FormatParser.utils.formatTokenMap_keys
        (FormatParser.Params.utils params) in
    (keys <> [] /\ (forall token, In token keys -> token <> "") ->
     (forall (expandedFormat : string)
             (escapedParts : FormatParser.FormatEscapedParts),
        exists result,
          FormatParser.buildSections helpers clock params expandedFormat
            escapedParts = Some result)
     /\ exists result,
          FormatParser.buildSectionsFromFormat helpers clock params
          = Some result)
    /\ (keys = [] ->
        forall (char : ascii) (rest : string)
               (escapedParts : FormatParser.FormatEscapedParts),
          FormatParser.isLetter char = true ->
          FormatParser.findEscapedPart escapedParts 0 = None ->
          FormatParser.buildSections helpers clock params (String char rest)
            escapedParts = None).
Proof.
  intros TDate Clock helpers clock params keys.
  split.
  - intros [Hkeys Hwords].
    assert (Halternatives :
              forall token,
                In token
                  (FormatParser.tokenAlternatives
                     (FormatParser.Params.utils params)) ->
                token <> "").
    { intros token Hin.
      apply tokenAlternatives_In in Hin as [Hin|[Hnone _]];
        [now apply Hwords|now contradiction Hkeys]. }
    assert (Hbuild :
              forall expandedFormat escapedParts,
              exists result,
                FormatParser.buildSections helpers clock params
                  expandedFormat escapedParts = Some result).
    { intros expandedFormat escapedParts.
      unfold FormatParser.buildSections.
      pose proof (buildSections_loop_returns TDate Clock helpers clock params
                    (FormatParser.utils.date_undefined
                       (FormatParser.Params.utils params) clock None)
                    _ escapedParts Halternatives expandedFormat 0 0
                    {| FormatParser.sections := [];
                       FormatParser.pendingStartSeparator := "";
                       FormatParser.currentTokenValue := "";
                       FormatParser.lastIndex := 0 |}) as Hloop.
      destruct (FormatParser.buildSections_loop _ _ _ _ _ _ _ _ _ _)
        as [[st|e]|]; [|eexists; reflexivity|now contradiction Hloop].
      destruct (FormatParser.isEmptyString
                  (FormatParser.currentTokenValue st)).
      - destruct (FormatParser.sections st);
          [destruct (0 <? _)%nat|]; eexists; reflexivity.
      - destruct (FormatParser.createSection _ _ _ _ _ _) as [section|e];
          [|eexists; reflexivity].
        destruct (FormatParser.sections st ++ [section])%list;
          [destruct (0 <? _)%nat|]; eexists; reflexivity. }
    split; [exact Hbuild|].
    unfold FormatParser.buildSectionsFromFormat.
    destruct (FormatParser.expandFormat params) as [expandedFormat0|e];
      [|eexists; reflexivity].
    match goal with
    | |- context [FormatParser.buildSections ?h ?c ?p ?f ?parts] =>
        destruct (Hbuild f parts) as [result Hresult]; rewrite Hresult
    end.
    destruct result; eexists; reflexivity.
  - intros Hkeys char rest escapedParts Hletter Hpart.
    unfold FormatParser.buildSections.
    rewrite (buildSections_loop_stalls TDate Clock helpers clock params
               (FormatParser.utils.date_undefined
                  (FormatParser.Params.utils params) clock None)
               (FormatParser.tokenAlternatives
                  (FormatParser.Params.utils params))
               escapedParts char rest 0 _);
      try reflexivity; try assumption.
    unfold FormatParser.tokenAlternatives. fold keys. now rewrite Hkeys.
Qed.

(** On the plain calendar the token map has six keys, none of them empty:
    the parser ends on the format [MM/dd/yyyy]. *)
Lemma buildSections_returns_witness :
  exists result,
    FormatParser.buildSectionsFromFormat PlainCalendar.parserHelpers
      PlainCalendar.today
      (PlainCalendar.parserParams "MM/dd/yyyy" None true)
    = Some result.
Proof.
  apply (proj1 (buildSections_returns PlainCalendar.PlainDate
                  PlainCalendar.PlainDate PlainCalendar.parserHelpers
                  PlainCalendar.today
                  (PlainCalendar.parserParams "MM/dd/yyyy" None true))).
  split; [discriminate|].
  intros token Hin. cbn in Hin.
  repeat (destruct Hin as [<-|Hin]; [discriminate|]).
  destruct Hin.
Defined.

Section EscapedRuns.
Import FormatParser ParserNotions SectionNotions.
Variables startChar endChar : ascii.

Lemma matchEscapedRun_from_reads (s : string) :
  forall (inGroup : bool) (taken : nat) (best : option nat) (len : nat),
    matchEscapedRun_from startChar endChar inGroup taken best s = Some len ->
    best = Some len
    \/ ((taken < len <= taken + String.length s)%nat
        /\ String.get (len - taken - 1) s = Some endChar
        /\ (inGroup = false ->
            String.get 0 s = Some startChar /\ (taken + 2 <= len)%nat)).
Proof.
  induction s as [|c s' IH]; intros inGroup taken best len;
    cbn [matchEscapedRun_from]; [now left|].
  destruct inGroup.
  - destruct (Ascii.eqb c endChar) eqn:Hend.
    + apply Ascii.eqb_eq in Hend. subst c. intros Hrun.
      apply IH in Hrun as [Hbest|(Hlen & Hget & _)]; right.
      * injection Hbest as <-. cbn [String.length].
        split; [lia|]. split; [|discriminate].
        replace (S taken - taken - 1)%nat with 0%nat by lia. reflexivity.
      * cbn [String.length]. split; [lia|]. split; [|discriminate].
        replace (len - taken - 1)%nat with (S (len - S taken - 1)) by lia.
        exact Hget.
    + intros Hrun. apply IH in Hrun as [Hbest|(Hlen & Hget & _)];
        [now left|right].
      cbn [String.length]. split; [lia|]. split; [|discriminate].
      replace (len - taken - 1)%nat with (S (len - S taken - 1)) by lia.
      exact Hget.
  - destruct (Ascii.eqb c startChar) eqn:Hstart; [|now left].
    apply Ascii.eqb_eq in Hstart. subst c. intros Hrun.
    apply IH in Hrun as [Hbest|(Hlen & Hget & _)]; [now left|right].
    cbn [String.length]. split; [lia|]. split.
    + replace (len - taken - 1)%nat with (S (len - S taken - 1)) by lia.
      exact Hget.
    + intros _. split; [reflexivity|lia].
Qed.

Lemma matchEscapedRun_reads (s : string) (len : nat) :
  matchEscapedRun startChar endChar s = Some len ->
  (2 <= len <= String.length s)%nat
  /\ String.get 0 s = Some startChar
  /\ String.get (len - 1) s = Some endChar.
Proof.
  intros Hrun. apply matchEscapedRun_from_reads in Hrun
    as [Hbest|(Hlen & Hget & Hstart)]; [discriminate|].
  destruct (Hstart eq_refl) as [Hfirst Htwo].
  split; [lia|]. split; [exact Hfirst|].
  now replace (len - 1)%nat with (len - 0 - 1)%nat by lia.
Qed.

Lemma matchEscapedRun_from_without_start (s : string) :
  includesChar startChar s = false ->
  forall (taken : nat) (best : option nat),
    matchEscapedRun_from startChar endChar false taken best s = best.
Proof.
  destruct s as [|c s']; [reflexivity|].
  cbn [includesChar matchEscapedRun_from]. intros Hnone taken best.
  apply orb_false_iff in Hnone as [Hc _].
  rewrite Ascii.eqb_sym in Hc. now rewrite Hc.
Qed.

Lemma getEscapedParts_scan_parts (s : string) :
  forall (skip index : nat) (part : EscapedPart),
    In part (getEscapedParts_scan startChar endChar skip index s) ->
    (index + skip <= start part)%nat
    /\ (start part < end_ part)%nat
    /\ (end_ part < index + String.length s)%nat
    /\ String.get (start part - index) s = Some startChar
    /\ String.get (end_ part - index) s = Some endChar.
Proof.
  induction s as [|c s' IH]; intros skip index part;
    cbn [getEscapedParts_scan]; [intros []|].
  assert (Hlater :
            forall skip',
              In part
                (getEscapedParts_scan startChar endChar skip' (S index) s') ->
              (index + S skip' <= start part)%nat
              /\ (start part < end_ part)%nat
              /\ (end_ part < index + String.length (String c s'))%nat
              /\ String.get (start part - index) (String c s')
                 = Some startChar
              /\ String.get (end_ part - index) (String c s') = Some endChar).
  { intros skip' Hin.
    apply IH in Hin as (Hfrom & Hlt & Hend & Hfirst & Hlast).
    cbn [String.length].
    split; [lia|]. split; [exact Hlt|]. split; [lia|].
    replace (start part - index)%nat with (S (start part - S index)) by lia.
    replace (end_ part - index)%nat with (S (end_ part - S index)) by lia.
    now split. }
  destruct skip as [|skip'].
  - destruct (matchEscapedRun startChar endChar (String c s')) as [len|]
      eqn:Hrun.
    + apply matchEscapedRun_reads in Hrun as (Hlen & Hfirst & Hlast).
      intros [<-|Hin].
      * cbn [start end_].
        split; [lia|]. split; [lia|]. split; [lia|].
        replace (index - index)%nat with 0%nat by lia.
        replace (index + len - 1 - index)%nat with (len - 1)%nat by lia.
        now split.
      * destruct (Hlater _ Hin) as (Hfrom & Hrest). split; [lia|exact Hrest].
    + intros Hin. destruct (Hlater _ Hin) as (Hfrom & Hrest).
      split; [lia|exact Hrest].
  - intros Hin. exact (Hlater _ Hin).
Qed.

Lemma getEscapedParts_scan_ordered (s : string) :
  forall skip index : nat,
    ForallOrdPairs (fun earlier later => (end_ earlier < start later)%nat)
      (getEscapedParts_scan startChar endChar skip index s).
Proof.
  induction s as [|c s' IH]; intros skip index;
    cbn [getEscapedParts_scan]; [constructor|].
  destruct skip as [|skip']; [|apply IH].
  destruct (matchEscapedRun startChar endChar (String c s')) as [len|]
    eqn:Hrun; [|apply IH].
  apply matchEscapedRun_reads in Hrun as (Hlen & _).
  constructor; [|apply IH].
  apply Forall_forall. intros later Hin.
  apply getEscapedParts_scan_parts in Hin as (Hfrom & _).
  cbn [end_]. lia.
Qed.

Lemma getEscapedParts_scan_without_start (s : string) :
  includesChar startChar s = false ->
  forall index : nat,
    getEscapedParts_scan startChar endChar 0 index s = [].
Proof.
  induction s as [|c s' IH]; intros Hnone index; [reflexivity|].
  cbn [getEscapedParts_scan]. unfold matchEscapedRun.
  rewrite (matchEscapedRun_from_without_start _ Hnone).
  cbn [includesChar] in Hnone. apply orb_false_iff in Hnone as [_ Hrest].
  now apply IH.
Qed.

End EscapedRuns.

Section PartsInOrder.
Import FormatParser ParserNotions SectionNotions.

(** Two parts that hold the same position are one part. *)
Lemma parts_do_not_overlap (escapedParts : FormatEscapedParts) :
  ForallOrdPairs (fun earlier later => (end_ earlier < start later)%nat)
    escapedParts ->
  (forall part, In part escapedParts -> (start part < end_ part)%nat) ->
  forall (p q : EscapedPart) (i : nat),
    In p escapedParts -> In q escapedParts ->
    (start p <= i <= end_ p)%nat -> (start q <= i <= end_ q)%nat ->
    p = q.
Proof.
  induction 1 as [|first parts Hfirst Hrest IH];
    intros Hlt p q i Hp Hq Hpi Hqi; [destruct Hp|].
  rewrite Forall_forall in Hfirst.
  pose proof (Hlt p Hp) as Hltp. pose proof (Hlt q Hq) as Hltq.
  destruct Hp as [<-|Hp], Hq as [<-|Hq].
  - reflexivity.
  - specialize (Hfirst q Hq). lia.
  - specialize (Hfirst p Hp). lia.
  - apply (IH (fun part Hin => Hlt part (or_intror Hin)) p q i); assumption.
Qed.

Variable escapedParts : FormatEscapedParts.
Hypothesis Hordered :
  ForallOrdPairs (fun earlier later => (end_ earlier < start later)%nat)
    escapedParts.
Hypothesis Hparts :
  forall part, In part escapedParts -> (start part < end_ part)%nat.

Lemma findEscapedPart_Some (i : nat) (part : EscapedPart) :
  findEscapedPart escapedParts i = Some part
  <-> In part escapedParts /\ (start part <= i <= end_ part)%nat.
Proof.
  unfold findEscapedPart. split.
  - intros Hfind. apply find_some in Hfind as [Hin Hcovers].
    apply andb_prop in Hcovers as [Hstart Hend].
    apply Nat.leb_le in Hstart, Hend. now split.
  - intros [Hin Hcovers].
    destruct (find _ escapedParts) as [found|] eqn:Hfind.
    + apply find_some in Hfind as [Hfound Hcovers'].
      apply andb_prop in Hcovers' as [Hstart Hend].
      apply Nat.leb_le in Hstart, Hend.
      f_equal.
      apply (parts_do_not_overlap escapedParts Hordered Hparts found part i);
        auto.
    + exfalso.
      pose proof (find_none _ _ Hfind part Hin) as Hnone.
      cbn beta in Hnone. apply andb_false_iff in Hnone as [Hnone|Hnone];
        apply Nat.leb_gt in Hnone; lia.
Qed.

End PartsInOrder.

(** X13.  The escaped parts [getEscapedPartsFromFormat] finds.  Each part
    lies within the format, starts on the character that opens an escaped
    run and ends, further on, on the character that closes one.  The parts
    come in the order of the format and do not overlap, so that a
    position of the format lies in one part at most, which is the one
    [buildSections] finds for it.  A format without the opening character
    has no escaped part. *)
Theorem getEscapedPartsFromFormat_parts :
  forall (TDate Clock : Type) (params : FormatParser.Params.t TDate Clock)
         (expandedFormat : string),
    let escapedCharacters :=
      FormatParser.utils.escapedCharacters
        (FormatParser.Params.utils params) in
    let escapedParts :=
      FormatParser.getEscapedPartsFromFormat params expandedFormat in
    (forall part,
       In part escapedParts ->
       (FormatParser.start part < FormatParser.end_ part)%nat
       /\ (FormatParser.end_ part < String.length expandedFormat)%nat
       /\ String.get (FormatParser.start part) expandedFormat
          = Some (fst escapedCharacters)
       /\ String.get (FormatParser.end_ part) expandedFormat
          = Some (snd escapedCharacters))
    /\ ForallOrdPairs
         (fun earlier later =>
            (FormatParser.end_ earlier < FormatParser.start later)%nat)
         escapedParts
    /\ (forall (i : nat) (part : FormatParser.EscapedPart),
          FormatParser.findEscapedPart escapedParts i = Some part
          <-> In part escapedParts
              /\ (FormatParser.start part <= i <= FormatParser.end_ part)%nat)
    /\ (FormatParser.includesChar (fst escapedCharacters) expandedFormat
        = false ->
        escapedParts = []).
Proof.
  intros TDate Clock params expandedFormat escapedCharacters escapedParts.
  subst escapedParts escapedCharacters.
  unfold FormatParser.getEscapedPartsFromFormat.
  destruct (FormatParser.utils.escapedCharacters
              (FormatParser.Params.utils params)) as [startChar endChar].
  cbn [fst snd].
  assert (Hparts :
            forall part,
              In part
                (FormatParser.getEscapedParts_scan startChar endChar 0 0
                   expandedFormat) ->
              (FormatParser.start part < FormatParser.end_ part)%nat
              /\ (FormatParser.end_ part < String.length expandedFormat)%nat
              /\ String.get (FormatParser.start part) expandedFormat
                 = Some startChar
              /\ String.get (FormatParser.end_ part) expandedFormat
                 = Some endChar).
  { intros part Hin.
    apply getEscapedParts_scan_parts in Hin
      as (_ & Hlt & Hend & Hfirst & Hlast).
    rewrite Nat.sub_0_r in Hfirst, Hlast. cbn in Hend. auto. }
  split; [exact Hparts|].
  split; [apply getEscapedParts_scan_ordered|].
  split.
  - intros i part. apply findEscapedPart_Some.
    + apply getEscapedParts_scan_ordered.
    + intros part' Hin. now apply Hparts.
  - intros Hnone. now apply getEscapedParts_scan_without_start.
Qed.

Section StringsOfTheParser.
Import FormatParser ParserNotions SectionNotions.

Lemma string_app_assoc (a b c : string) : (a ++ b) ++ c = a ++ b ++ c.
Proof. induction a as [|x a IH]; cbn; [reflexivity|now rewrite IH]. Qed.

Lemma prefix_app (s t : string) : prefix s (s ++ t) = true.
Proof.
  induction s as [|c s IH]; cbn; [now destruct t|].
  destruct (ascii_dec c c) as [_|Hne]; [exact IH|now contradiction Hne].
Qed.

Lemma prefix_get (t : string) :
  forall (s : string) (k : nat),
    prefix t s = true -> (k < String.length t)%nat ->
    String.get k s = String.get k t.
Proof.
  induction t as [|c t IH]; intros s k Hprefix Hk; [cbn in Hk; lia|].
  destruct s as [|c' s]; [discriminate|]. cbn in Hprefix.
  destruct (ascii_dec c c') as [<-|_]; [|discriminate].
  destruct k as [|k]; [reflexivity|].
  cbn. apply IH; [exact Hprefix|cbn in Hk; lia].
Qed.

Lemma prefix_length (t : string) :
  forall s : string,
    prefix t s = true -> (String.length t <= String.length s)%nat.
Proof.
  induction t as [|c t IH]; intros s Hprefix; [cbn; lia|].
  destruct s as [|c' s]; [discriminate|]. cbn in Hprefix.
  destruct (ascii_dec c c') as [_|_]; [|discriminate].
  cbn. apply IH in Hprefix. lia.
Qed.

Lemma allLetters_get (t : string) :
  allLetters t = true ->
  forall (k : nat) (c : ascii), String.get k t = Some c -> isLetter c = true.
Proof.
  induction t as [|x t IH]; intros Hletters k c Hget; [discriminate|].
  cbn [allLetters] in Hletters. apply andb_prop in Hletters as [Hx Ht].
  destruct k as [|k]; cbn in Hget.
  - now injection Hget as <-.
  - exact (IH Ht k c Hget).
Qed.

Lemma get_dropString (n : nat) :
  forall (s : string) (k : nat),
    String.get k (dropString n s) = String.get (n + k) s.
Proof.
  induction n as [|n IH]; intros s k; [reflexivity|].
  destruct s as [|c s]; cbn; [now destruct k|apply IH].
Qed.

Lemma length_dropString (n : nat) :
  forall s : string,
    (String.length (dropString n s) <= String.length s)%nat.
Proof.
  induction n as [|n IH]; intros s; [cbn; lia|].
  destruct s as [|c s]; cbn; [lia|]. specialize (IH s). lia.
Qed.

Lemma isWord_not_empty (token : string) :
  isWord token = true -> exists n, String.length token = S n.
Proof.
  destruct token as [|c token]; [discriminate|].
  intros _. now exists (String.length token).
Qed.

Lemma isWord_allLetters (token : string) :
  isWord token = true -> allLetters token = true.
Proof. unfold isWord. intros Hword. now apply andb_prop in Hword. Qed.

Lemma textOfSections_app (sections1 sections2 : list FieldSection) :
  textOfSections (sections1 ++ sections2)
  = textOfSections sections1 ++ textOfSections sections2.
Proof.
  induction sections1 as [|section sections1 IH]; cbn; [reflexivity|].
  now rewrite IH, string_app_assoc.
Qed.

Lemma textOfSections_appendToLastEndSeparator (char : ascii)
    (sections : list FieldSection) :
  sections <> [] ->
  textOfSections (appendToLastEndSeparator char sections)
  = textOfSections sections ++ String char "".
Proof.
  induction sections as [|section sections IH]; intros Hne;
    [now contradiction Hne|].
  destruct sections as [|section' sections].
  - cbn. unfold sectionText. cbn.
    now rewrite !append_empty_r, !string_app_assoc.
  - change (appendToLastEndSeparator char (section :: section' :: sections))
      with (section :: appendToLastEndSeparator char (section' :: sections)).
    cbn [textOfSections]. rewrite IH by discriminate.
    cbn [textOfSections]. now rewrite !string_app_assoc.
Qed.

End StringsOfTheParser.

Section TextOfTheFormat.
Import FormatParser ParserNotions SectionNotions.
Variables TDate Clock : Type.
Variable helpers : fieldUtils.t TDate Clock.
Variable clock : Clock.
Variable params : Params.t TDate Clock.
Variable now : TDate.
Variable alternatives : list string.
Variable escapedParts : FormatEscapedParts.
Variable expandedFormat : string.

(** The characters a token match jumps over are stepped over one by
    one. *)
Lemma buildSections_loop_skip (rest : string) :
  forall (skip i : nat) (st : LoopState),
    (skip <= String.length rest)%nat ->
    buildSections_loop helpers clock params now alternatives escapedParts
      skip i rest st
    = buildSections_loop helpers clock params now alternatives escapedParts
        0 (i + skip) (dropString skip rest) st.
Proof.
  induction rest as [|char rest' IH]; intros skip i st Hskip.
  - cbn in Hskip. assert (skip = 0%nat) as -> by lia.
    now rewrite Nat.add_0_r.
  - destruct skip as [|skip']; [now rewrite Nat.add_0_r|].
    cbn [buildSections_loop dropString].
    rewrite IH by (cbn in Hskip; lia).
    now replace (S i + skip')%nat with (i + S skip')%nat by lia.
Qed.

Lemma createSection_Ok (token separator : string) (section : FieldSection) :
  createSection helpers clock params now token separator = Ok section ->
  format section = token
  /\ startSeparator section = separator
  /\ endSeparator section = ""
  /\ modified section = false
  /\ token <> "".
Proof.
  unfold createSection.
  destruct token as [|c token]; [discriminate|].
  cbn [isEmptyString].
  repeat match goal with
         | |- context [if ?b then _ else _] =>
             match b with
             | context [if _ then _ else _] => fail 1
             | _ => destruct b
             end
         | |- context [match cfg_maxLength ?c with _ => _ end] =>
             destruct (cfg_maxLength c)
         end;
    try discriminate;
    intros Hsection; injection Hsection as <-; cbn;
    repeat split; discriminate.
Qed.

Lemma literalText_token (token : string) :
  forall (rest : string) (i : nat),
    prefix token rest = true ->
    (forall j, (i <= j < i + String.length token)%nat ->
               findEscapedPart escapedParts j = None) ->
    literalText escapedParts i rest
    = token
      ++ literalText escapedParts (i + String.length token)
           (dropString (String.length token) rest).
Proof.
  induction token as [|c token IH]; intros rest i Hprefix Hfree.
  - cbn. now rewrite Nat.add_0_r.
  - destruct rest as [|c' rest]; [discriminate|]. cbn in Hprefix.
    destruct (ascii_dec c c') as [<-|_]; [|discriminate].
    cbn [literalText]. unfold isEscapeBoundary.
    rewrite (Hfree i) by (cbn; lia).
    cbn [String.length dropString append]. f_equal.
    rewrite (IH rest (S i) Hprefix).
    + now replace (S i + String.length token)%nat
        with (i + S (String.length token))%nat by lia.
    + intros j Hj. apply Hfree. cbn. lia.
Qed.

Lemma get_Some (t : string) :
  forall k : nat,
    (k < String.length t)%nat -> exists c, String.get k t = Some c.
Proof.
  induction t as [|x t IH]; intros k Hk; [cbn in Hk; lia|].
  destruct k as [|k]; [now exists x|].
  cbn. apply IH. cbn in Hk. lia.
Qed.

Lemma isTokenStartRegExp_test_at_token (token s : string) :
  In token alternatives ->
  prefix token s = true ->
  exists found,
    In found alternatives
    /\ isTokenStartRegExp_test alternatives 0 s
       = (true, String.length found).
Proof.
  intros Hin Hprefix. unfold isTokenStartRegExp_test.
  destruct (find (fun token => prefix token s) alternatives) as [found|]
    eqn:Hfind.
  - apply find_some in Hfind as [Hfound _]. now exists found.
  - pose proof (find_none _ _ Hfind token Hin) as Hnone.
    cbn beta in Hnone. congruence.
Qed.

Hypothesis Hwords :
  forall token, In token alternatives -> isWord token = true.
Hypothesis Hordered :
  ForallOrdPairs (fun earlier later => (end_ earlier < start later)%nat)
    escapedParts.
Hypothesis Hparts :
  forall part, In part escapedParts -> (start part < end_ part)%nat.
Hypothesis Hopening :
  forall (part : EscapedPart) (c : ascii),
    In part escapedParts ->
    String.get (start part) expandedFormat = Some c ->
    isLetter c = false.

(** A token is a word and the character that opens an escaped part is not
    a letter: no character of a token that starts outside of the escaped
    parts is escaped. *)
Lemma token_is_not_escaped (token rest : string) (i : nat) :
  (forall k, String.get k rest = String.get (i + k) expandedFormat) ->
  allLetters token = true ->
  prefix token rest = true ->
  findEscapedPart escapedParts i = None ->
  forall j, (i <= j < i + String.length token)%nat ->
            findEscapedPart escapedParts j = None.
Proof.
  intros Hrest Hletters Hprefix Hi j.
  induction j as [|j IHj]; intros [Hij Hj].
  - assert (i = 0%nat) as -> by lia. exact Hi.
  - destruct (Nat.eq_dec i (S j)) as [<-|Hne]; [exact Hi|].
    assert (Hprev : findEscapedPart escapedParts j = None)
      by (apply IHj; lia).
    destruct (findEscapedPart escapedParts (S j)) as [part|] eqn:Hfind;
      [exfalso|reflexivity].
    apply (findEscapedPart_Some escapedParts Hordered Hparts) in Hfind
      as [Hin Hcovers].
    destruct (Nat.eq_dec (start part) (S j)) as [Hstart|Hstart].
    + pose proof (prefix_get token rest (S j - i) Hprefix ltac:(lia))
        as Hsame.
      rewrite Hrest in Hsame.
      replace (i + (S j - i))%nat with (S j) in Hsame by lia.
      destruct (get_Some token (S j - i) ltac:(lia)) as [c Hc].
      rewrite Hc, <- Hstart in Hsame.
      pose proof (allLetters_get token Hletters _ _ Hc) as Hletter.
      rewrite (Hopening part c Hin Hsame) in Hletter. discriminate.
    + assert (Hsome : findEscapedPart escapedParts j = Some part).
      { apply (findEscapedPart_Some escapedParts Hordered Hparts).
        split; [exact Hin|lia]. }
      congruence.
Qed.

(** What pushing the token that waits makes of the sections. *)
Lemma flushed_text (st : LoopState) (sections' : list FieldSection) :
  (sections st <> [] -> pendingStartSeparator st = "") ->
  (if isEmptyString (currentTokenValue st)
   then Ok (sections st)
   else
     match createSection helpers clock params now (currentTokenValue st)
             (pendingStartSeparator st)
     with
     | Ok section => Ok (sections st ++ [section])%list
     | Throw e => Throw e
     end) = Ok sections' ->
  (sections' = [] /\ sections st = [] /\ currentTokenValue st = "")
  \/ (sections' <> [] /\ textOfSections sections' = textSoFar st).
Proof.
  intros Hsep. unfold textSoFar.
  destruct (currentTokenValue st) as [|c token] eqn:Htoken;
    cbn [isEmptyString].
  - intros Hflushed. injection Hflushed as <-.
    destruct (sections st) as [|section sections0] eqn:Hsections;
      [now left|right].
    split; [discriminate|].
    rewrite Hsep by discriminate. now rewrite !append_empty_r.
  - destruct (createSection helpers clock params now (String c token)
                (pendingStartSeparator st)) as [section|e] eqn:Hcreated;
      [|discriminate].
    intros Hflushed. injection Hflushed as <-. right.
    split; [now destruct (sections st)|].
    apply createSection_Ok in Hcreated as (Hformat & Hstart & Hend & _).
    rewrite textOfSections_app. cbn [textOfSections]. unfold sectionText.
    rewrite Hformat, Hstart, Hend. now rewrite !append_empty_r.
Qed.

(** The loop of [buildSections] keeps the text: what it holds when it
    ends is what it held, followed by the literal text of what it read. *)
Lemma buildSections_loop_text (n : nat) :
  forall (rest : string) (i : nat) (st st' : LoopState),
    (String.length rest <= n)%nat ->
    (forall k, String.get k rest = String.get (i + k) expandedFormat) ->
    (sections st <> [] -> pendingStartSeparator st = "") ->
    waitingToken alternatives escapedParts i st ->
    buildSections_loop helpers clock params now alternatives escapedParts
      0 i rest st = Some (Ok st') ->
    textSoFar st' = textSoFar st ++ literalText escapedParts i rest
    /\ (sections st' <> [] -> pendingStartSeparator st' = "").
Proof.
  induction n as [|n IH]; intros rest i st st' Hlength Hrest Hsep Hwaiting
                                 Hloop.
  { destruct rest; [|cbn in Hlength; lia].
    cbn in Hloop. injection Hloop as <-. cbn. now rewrite append_empty_r. }
  destruct rest as [|char rest'].
  { cbn in Hloop. injection Hloop as <-. cbn. now rewrite append_empty_r. }
  assert (Hrest' :
            forall k,
              String.get k rest' = String.get (S i + k) expandedFormat).
  { intros k. specialize (Hrest (S k)). cbn in Hrest. rewrite Hrest.
    f_equal. lia. }
  assert (Hlength' : (String.length rest' <= n)%nat)
    by (cbn in Hlength; lia).
  (* pushing the token that waits, then the character *)
  assert (Hflush :
            forall lastIndex',
              isEscapeBoundary escapedParts i = false ->
              match
                (if isEmptyString (currentTokenValue st)
                 then Ok (sections st)
                 else
                   match createSection helpers clock params now
                           (currentTokenValue st) (pendingStartSeparator st)
                   with
                   | Ok section => Ok (sections st ++ [section])%list
                   | Throw e => Throw e
                   end)
              with
              | Throw e => Some (Throw e)
              | Ok sections' =>
                  buildSections_loop helpers clock params now alternatives
                    escapedParts 0 (S i) rest'
                    (match sections' with
                     | [] =>
                         {| sections := [];
                            pendingStartSeparator :=
                              pendingStartSeparator st ++ String char "";
                            currentTokenValue := "";
                            lastIndex := lastIndex' |}
                     | _ :: _ =>
                         {| sections :=
                              appendToLastEndSeparator char sections';
                            pendingStartSeparator := "";
                            currentTokenValue := "";
                            lastIndex := lastIndex' |}
                     end)
              end = Some (Ok st') ->
              textSoFar st' = textSoFar st ++ literalText escapedParts i
                                               (String char rest')
              /\ (sections st' <> [] -> pendingStartSeparator st' = "")).
  { intros lastIndex' Hboundary Hstep.
    cbn [literalText]. rewrite Hboundary.
    match type of Hstep with
    | match ?flushed with _ => _ end = _ =>
        destruct flushed as [sections'|e] eqn:Hflushed; [|discriminate]
    end.
    apply (flushed_text st sections' Hsep) in Hflushed
      as [(-> & Hnone & Htoken)|[Hsome Htext]].
    - apply IH in Hstep;
        [|exact Hlength'|exact Hrest'|cbn; congruence|now left].
      destruct Hstep as [Htext Hsep']. split; [|exact Hsep'].
      rewrite Htext. unfold textSoFar.
      cbn [sections pendingStartSeparator currentTokenValue textOfSections].
      rewrite Hnone, Htoken. cbn [textOfSections append].
      now rewrite !append_empty_r, append_assoc_char.
    - destruct sections' as [|section others];
        [now contradiction Hsome|].
      apply IH in Hstep; [|exact Hlength'|exact Hrest'|reflexivity|now left].
      destruct Hstep as [Htext' Hsep']. split; [|exact Hsep'].
      rewrite Htext'. unfold textSoFar at 1.
      cbn [sections pendingStartSeparator currentTokenValue].
      rewrite textOfSections_appendToLastEndSeparator by discriminate.
      rewrite Htext. cbn [append].
      now rewrite !append_empty_r, append_assoc_char. }
  cbn [buildSections_loop] in Hloop.
  destruct (isTokenStartRegExp_test alternatives (lastIndex st)
              (currentTokenValue st ++ String char rest'))
    as [regExpMatch lastIndex'] eqn:Htest.
  destruct (findEscapedPart escapedParts i) as [part|] eqn:Hpart.
  - (* an escaped character *)
    cbn [negb andb] in Hloop.
    destruct ((start part =? i)%nat || (end_ part =? i)%nat) eqn:Hboundary.
    + (* that opens or closes its part *)
      pose proof Hpart as Hfound.
      apply (findEscapedPart_Some escapedParts Hordered Hparts) in Hfound
        as [Hin Hcovers].
      apply IH in Hloop; [|exact Hlength'|exact Hrest'|exact Hsep|].
      * destruct Hloop as [Htext Hsep']. split; [|exact Hsep'].
        rewrite Htext. cbn [literalText]. unfold isEscapeBoundary.
        rewrite Hpart, Hboundary. reflexivity.
      * unfold waitingToken.
        cbn [sections pendingStartSeparator currentTokenValue lastIndex].
        destruct Hwaiting
          as [Hempty
             |(Htoken & [(Hlast & Hnoend)
                        |(Hlast & q & Hq & Hqstart & Hqend)])];
          [now left|right; split; [exact Htoken|right]
          |right; split; [exact Htoken|left]].
        -- unfold isTokenStartRegExp_test in Htest.
           destruct (lastIndex st); [now contradiction Hlast|].
           injection Htest as _ <-. split; [reflexivity|].
           exists part. split; [exact Hin|].
           apply orb_prop in Hboundary as [Hb|Hb]; apply Nat.eqb_eq in Hb.
           ++ specialize (Hparts part Hin). split; lia.
           ++ exfalso. exact (Hnoend part Hin Hb).
        -- rewrite Hlast in Htest.
           destruct (isTokenStartRegExp_test_at_token
                       (currentTokenValue st)
                       (currentTokenValue st ++ String char rest')
                       Htoken (prefix_app _ _)) as (found & Hfound & Hfind).
           rewrite Hfind in Htest. injection Htest as _ <-.
           destruct (isWord_not_empty found (Hwords found Hfound))
             as [m Hm].
           split; [rewrite Hm; discriminate|].
           intros p Hp Hend.
           pose proof (Hparts p Hp) as Hlt.
           assert (p = q)
             by (apply (parts_do_not_overlap escapedParts Hordered Hparts
                          p q i); auto; lia).
           assert (part = q)
             by (apply (parts_do_not_overlap escapedParts Hordered Hparts
                          part q i); auto; lia).
           subst p part.
           apply orb_prop in Hboundary as [Hb|Hb]; apply Nat.eqb_eq in Hb;
             lia.
    + (* that lies within its part *)
      apply (Hflush lastIndex'); [|exact Hloop].
      unfold isEscapeBoundary. now rewrite Hpart.
  - (* a character that is not escaped *)
    cbn [negb andb] in Hloop.
    assert (Hboundary : isEscapeBoundary escapedParts i = false)
      by (unfold isEscapeBoundary; now rewrite Hpart).
    destruct (isLetter char && regExpMatch) eqn:Hbranch;
      [|now apply (Hflush lastIndex')].
    apply andb_prop in Hbranch as [Hletter ->].
    apply isTokenStartRegExp_test_reads in Htest
      as (Hlast & token & Htoken & Hprefix & ->).
    assert (Hempty : currentTokenValue st = "").
    { destruct Hwaiting
        as [Hempty
           |(_ & [(Hne & _)|(_ & q & Hq & Hqstart & Hqend)])];
        [exact Hempty|now contradiction Hne|exfalso].
      assert (Hsome : findEscapedPart escapedParts i = Some q).
      { apply (findEscapedPart_Some escapedParts Hordered Hparts).
        split; [exact Hq|lia]. }
      congruence. }
    rewrite Hempty in Hprefix, Hloop. cbn [append] in Hprefix, Hloop.
    destruct (isWord_not_empty token (Hwords token Htoken)) as [m Hm].
    pose proof (prefix_length token _ Hprefix) as Hshort.
    pose proof (token_is_not_escaped token (String char rest') i Hrest
                  (isWord_allLetters token (Hwords token Htoken)) Hprefix
                  Hpart) as Hfree.
    rewrite Hm in Hloop, Hshort. cbn [String.length] in Hshort.
    rewrite buildSections_loop_skip in Hloop by lia.
    apply IH in Hloop.
    + destruct Hloop as [Htext Hsep']. split; [|exact Hsep'].
      rewrite Htext. unfold textSoFar.
      cbn [sections pendingStartSeparator currentTokenValue].
      rewrite Hempty.
      rewrite (literalText_token token (String char rest') i Hprefix Hfree).
      rewrite Hm. cbn [dropString].
      replace (substring 0 (S m) (String char rest')) with token
        by (symmetry; rewrite <- Hm; now apply prefix_correct).
      replace (i + S m)%nat with (S i + m)%nat by lia.
      now rewrite !append_empty_r, !string_app_assoc.
    + pose proof (length_dropString m rest'). lia.
    + intros k. rewrite get_dropString, Hrest'. f_equal. lia.
    + exact Hsep.
    + unfold waitingToken.
      cbn [sections pendingStartSeparator currentTokenValue lastIndex].
      right.
      replace (substring 0 (S m) (String char rest')) with token
        by (symmetry; rewrite <- Hm; now apply prefix_correct).
      split; [exact Htoken|left]. split; [discriminate|].
      intros p Hp Hend.
      pose proof (Hparts p Hp) as Hlt.
      assert (Hsome : findEscapedPart escapedParts (i + m) = Some p).
      { apply (findEscapedPart_Some escapedParts Hordered Hparts).
        split; [exact Hp|lia]. }
      rewrite Hfree in Hsome by lia. discriminate.
Qed.

End TextOfTheFormat.

(** X14.  [buildSections] keeps the text of the format.  When the keys of
    the token map are words (letters, one at least) and the character
    that opens an escaped run is not a letter, the sections that
    [buildSections] returns for a format and its escaped parts, read one
    after the other, each as its start separator, its format and its end
    separator, give back the format without the characters that open or
    close its escaped parts: no character is lost, none is added and none
    changes place. *)
Theorem buildSections_keeps_the_text :
  forall (TDate Clock : Type)
         (helpers : FormatParser.fieldUtils.t TDate Clock) (clock : Clock)
         (params : FormatParser.Params.t TDate Clock)
         (expandedFormat : string)
         (sections : list FormatParser.FieldSection),
    let utils := FormatParser.Params.utils params in
    let escapedParts :=
      FormatParser.getEscapedPartsFromFormat params expandedFormat in
    FormatParser.utils.formatTokenMap_keys utils <> [] ->
    (forall token,
       In token (FormatParser.utils.formatTokenMap_keys utils) ->
       SectionNotions.isWord token = true) ->
    FormatParser.isLetter (fst (FormatParser.utils.escapedCharacters utils))
      = false ->
    FormatParser.buildSections helpers clock params expandedFormat
      escapedParts = Some (FormatParser.Ok sections) ->
    SectionNotions.textOfSections sections
    = ParserNotions.literalText escapedParts 0 expandedFormat.
Proof.
  intros TDate Clock helpers clock params expandedFormat sections utils
         escapedParts Hkeys Hwords Hopening Hbuilt.
  assert (Halternatives :
            forall token,
              In token (FormatParser.tokenAlternatives utils) ->
              SectionNotions.isWord token = true).
  { intros token Hin.
    apply tokenAlternatives_In in Hin as [Hin|[Hnone _]];
      [now apply Hwords|now contradiction Hkeys]. }
  assert (Hscan :
            exists startChar endChar,
              FormatParser.utils.escapedCharacters utils
              = (startChar, endChar)
              /\ escapedParts
                 = FormatParser.getEscapedParts_scan startChar endChar 0 0
                     expandedFormat).
  { subst escapedParts. unfold FormatParser.getEscapedPartsFromFormat.
    fold utils.
    destruct (FormatParser.utils.escapedCharacters utils)
      as [startChar endChar].
    now exists startChar, endChar. }
  destruct Hscan as (startChar & endChar & Hchars & Hscan).
  rewrite Hchars in Hopening. cbn [fst] in Hopening.
  assert (Hordered :
            ForallOrdPairs
              (fun earlier later =>
                 (FormatParser.end_ earlier < FormatParser.start later)%nat)
              escapedParts)
    by (rewrite Hscan; apply getEscapedParts_scan_ordered).
  assert (Hparts :
            forall part,
              In part escapedParts ->
              (FormatParser.start part < FormatParser.end_ part)%nat).
  { intros part Hin. rewrite Hscan in Hin.
    now apply getEscapedParts_scan_parts in Hin. }
  assert (Hstart :
            forall part c,
              In part escapedParts ->
              String.get (FormatParser.start part) expandedFormat = Some c ->
              FormatParser.isLetter c = false).
  { intros part c Hin Hget. rewrite Hscan in Hin.
    apply getEscapedParts_scan_parts in Hin as (_ & _ & _ & Hfirst & _).
    rewrite Nat.sub_0_r in Hfirst. congruence. }
  unfold FormatParser.buildSections in Hbuilt. fold utils in Hbuilt.
  destruct (FormatParser.buildSections_loop helpers clock params
              (FormatParser.utils.date_undefined utils clock None)
              (FormatParser.tokenAlternatives utils) escapedParts 0 0
              expandedFormat
              {| FormatParser.sections := [];
                 FormatParser.pendingStartSeparator := "";
                 FormatParser.currentTokenValue := "";
                 FormatParser.lastIndex := 0 |})
    as [[st|e]|] eqn:Hloop; try discriminate.
  apply (buildSections_loop_text TDate Clock helpers clock params _ _
           escapedParts expandedFormat Halternatives Hordered Hparts Hstart
           (String.length expandedFormat)) in Hloop;
    [|lia|reflexivity|cbn; congruence|now left].
  destruct Hloop as [Htext Hsep]. cbn [append] in Htext.
  change (SectionNotions.textSoFar
            {| FormatParser.sections := [];
               FormatParser.pendingStartSeparator := "";
               FormatParser.currentTokenValue := "";
               FormatParser.lastIndex := 0 |}) with "" in Htext.
  cbn [append] in Htext. rewrite <- Htext.
  match type of Hbuilt with
  | match ?pushed with _ => _ end = _ =>
      destruct pushed as [sections'|e] eqn:Hpushed; [|discriminate]
  end.
  apply (flushed_text TDate Clock helpers clock params _ st sections' Hsep)
    in Hpushed as [(-> & Hnone & Htoken)|[Hsome Hpushed]].
  - unfold SectionNotions.textSoFar. rewrite Hnone, Htoken.
    cbn [SectionNotions.textOfSections append].
    destruct (0 <? String.length (FormatParser.pendingStartSeparator st))%nat
      eqn:Hlength; injection Hbuilt as <-.
    + cbn. unfold SectionNotions.sectionText. cbn.
      now rewrite !append_empty_r.
    + apply Nat.ltb_ge in Hlength.
      destruct (FormatParser.pendingStartSeparator st);
        [reflexivity|cbn in Hlength; lia].
  - destruct sections' as [|section others]; [now contradiction Hsome|].
    injection Hbuilt as <-. exact Hpushed.
Qed.

(** On the plain calendar, the format [dd 'of' MM yyyy]: the three
    sections read [dd of MM yyyy]. *)
Lemma buildSections_keeps_the_text_witness :
  let params :=
    PlainCalendar.parserParams "dd 'of' MM yyyy" None true in
  let escapedParts :=
    FormatParser.getEscapedPartsFromFormat params "dd 'of' MM yyyy" in
  exists sections,
    FormatParser.buildSections PlainCalendar.parserHelpers
      PlainCalendar.today params "dd 'of' MM yyyy" escapedParts
    = Some (FormatParser.Ok sections)
    /\ List.length sections = 3%nat
    /\ SectionNotions.textOfSections sections = "dd of MM yyyy".
Proof.
  intros params escapedParts.
  eexists. split; [vm_compute; reflexivity|].
  split; [reflexivity|].
  refine (buildSections_keeps_the_text PlainCalendar.PlainDate
            PlainCalendar.PlainDate PlainCalendar.parserHelpers
            PlainCalendar.today params "dd 'of' MM yyyy" _ _ _ _ _).
  - discriminate.
  - intros token Hin. cbn in Hin.
    repeat (destruct Hin as [<-|Hin]; [reflexivity|]).
    destruct Hin.
  - reflexivity.
  - vm_compute. reflexivity.
Defined.

Section SectionsOfTheLoop.
Import FormatParser ParserNotions SectionNotions.
Variables TDate Clock : Type.
Variable helpers : fieldUtils.t TDate Clock.
Variable clock : Clock.
Variable params : Params.t TDate Clock.
Variable now : TDate.
Variable alternatives : list string.
Variable escapedParts : FormatEscapedParts.

Lemma createSection_Ok_config (token separator : string)
    (section : FieldSection) :
  createSection helpers clock params now token separator = Ok section ->
  let config :=
    fieldUtils.getDateSectionConfigFromFormatToken helpers
      (Params.utils params) token in
  type section = cfg_type config
  /\ contentType section = cfg_contentType config.
Proof.
  unfold createSection.
  destruct token as [|c token]; [discriminate|].
  cbn [isEmptyString].
  repeat match goal with
         | |- context [if ?b then _ else _] =>
             match b with
             | context [if _ then _ else _] => fail 1
             | _ => destruct b
             end
         | |- context [match cfg_maxLength ?c with _ => _ end] =>
             destruct (cfg_maxLength c)
         end;
    try discriminate;
    intros Hsection; injection Hsection as <-; cbn; now split.
Qed.

Lemma appendToLastEndSeparator_Forall (Q : FieldSection -> Prop)
    (char : ascii) :
  (forall section, Q section -> Q (appendToEndSeparator char section)) ->
  forall sections : list FieldSection,
    Forall Q sections -> Forall Q (appendToLastEndSeparator char sections).
Proof.
  intros Hkeeps. induction 1 as [|section sections Hsection Hsections IH];
    [constructor|].
  destruct sections as [|section' sections].
  - constructor; [now apply Hkeeps|constructor].
  - change (appendToLastEndSeparator char (section :: section' :: sections))
      with (section :: appendToLastEndSeparator char (section' :: sections)).
    now constructor.
Qed.

Lemma appendToLastEndSeparator_tl (char : ascii)
    (sections : list FieldSection) :
  tl (appendToLastEndSeparator char sections)
  = appendToLastEndSeparator char (tl sections).
Proof.
  destruct sections as [|section [|section' sections]]; reflexivity.
Qed.

(** What the loop knows of the sections it has pushed. *)
Lemma buildSections_loop_sections (Q : FieldSection -> Prop) :
  (forall char section, Q section -> Q (appendToEndSeparator char section)) ->
  (forall token separator section,
     In token alternatives ->
     createSection helpers clock params now token separator = Ok section ->
     Q section) ->
  forall (rest : string) (skip i : nat) (st st' : LoopState),
    Forall Q (sections st) ->
    (currentTokenValue st = "" \/ In (currentTokenValue st) alternatives) ->
    (sections st <> [] -> pendingStartSeparator st = "") ->
    Forall (fun section => startSeparator section = "") (tl (sections st)) ->
    buildSections_loop helpers clock params now alternatives escapedParts
      skip i rest st = Some (Ok st') ->
    Forall Q (sections st')
    /\ (currentTokenValue st' = "" \/ In (currentTokenValue st') alternatives)
    /\ (sections st' <> [] -> pendingStartSeparator st' = "")
    /\ Forall (fun section => startSeparator section = "")
         (tl (sections st')).
Proof.
  intros Hkeeps Hcreated.
  induction rest as [|char rest' IH];
    intros skip i st st' Hsections Htoken Hsep Htail Hloop.
  { assert (Hst : st' = st) by (destruct skip; cbn in Hloop; congruence).
    subst st'. auto. }
  cbn [buildSections_loop] in Hloop.
  destruct skip as [|skip']; [|now apply IH in Hloop].
  destruct (isTokenStartRegExp_test alternatives (lastIndex st)
              (currentTokenValue st ++ String char rest'))
    as [regExpMatch lastIndex'] eqn:Htest.
  destruct (negb
              match findEscapedPart escapedParts i with
              | Some _ => true
              | None => false
              end && isLetter char && regExpMatch) eqn:Hbranch.
  - apply andb_prop in Hbranch as [_ ->].
    apply (isTokenStartRegExp_test_reads alternatives) in Htest
      as (_ & token & Hin & Hprefix & ->).
    destruct (String.length token) as [|m] eqn:Hm; [discriminate|].
    apply IH in Hloop; auto.
    cbn [currentTokenValue]. right.
    replace (substring 0 (S m) (currentTokenValue st ++ String char rest'))
      with token
      by (symmetry; rewrite <- Hm; now apply prefix_correct).
    exact Hin.
  - destruct (match findEscapedPart escapedParts i with
              | Some part => (start part =? i)%nat || (end_ part =? i)%nat
              | None => false
              end); [now apply IH in Hloop|].
    assert (Hflushed :
              forall sections',
                (if isEmptyString (currentTokenValue st)
                 then Ok (sections st)
                 else
                   match createSection helpers clock params now
                           (currentTokenValue st) (pendingStartSeparator st)
                   with
                   | Ok section => Ok (sections st ++ [section])%list
                   | Throw e => Throw e
                   end) = Ok sections' ->
                Forall Q sections'
                /\ Forall (fun section => startSeparator section = "")
                     (tl sections')).
    { intros sections'.
      destruct (currentTokenValue st) as [|c token] eqn:Hcurrent;
        cbn [isEmptyString].
      - intros Hok. injection Hok as <-. now split.
      - destruct Htoken as [Hempty|Hin]; [discriminate|].
        destruct (createSection helpers clock params now (String c token)
                    (pendingStartSeparator st)) as [section|e] eqn:Hsection;
          [|discriminate].
        intros Hok. injection Hok as <-.
        split.
        + apply Forall_app. split; [exact Hsections|].
          constructor; [|constructor].
          exact (Hcreated _ _ _ Hin Hsection).
        + destruct (sections st) as [|first others] eqn:Hfirst;
            [constructor|].
          cbn [tl app] in *. apply Forall_app. split; [exact Htail|].
          constructor; [|constructor].
          apply createSection_Ok in Hsection as (_ & -> & _).
          apply Hsep. discriminate. }
    match type of Hloop with
    | match ?flushed with _ => _ end = _ =>
        destruct flushed as [sections'|e] eqn:Hflush; [|discriminate]
    end.
    destruct (Hflushed sections' eq_refl) as [Hall Htail'].
    destruct sections' as [|section others].
    + apply IH in Hloop; cbn; auto; congruence.
    + apply IH in Hloop; cbn [sections pendingStartSeparator
                                currentTokenValue]; auto.
      * apply appendToLastEndSeparator_Forall; [apply Hkeeps|exact Hall].
      * rewrite appendToLastEndSeparator_tl.
        apply appendToLastEndSeparator_Forall; [now intros s Hs|exact Htail'].
Qed.

End SectionsOfTheLoop.

(** X15.  The sections [buildSections] returns are made of the tokens of
    the adapter.  Either the format held no token and the one section
    returned is the empty section, whose start separator is not empty; or
    every section has a key of the token map as its format, the type and
    the content type that the configuration of that key gives, and is not
    modified, and no section but the first has a start separator: the
    text between two sections is the end separator of the first of
    them. *)
Theorem buildSections_sections_are_tokens :
  forall (TDate Clock : Type)
         (helpers : FormatParser.fieldUtils.t TDate Clock) (clock : Clock)
         (params : FormatParser.Params.t TDate Clock)
         (expandedFormat : string)
         (escapedParts : FormatParser.FormatEscapedParts)
         (sections : list FormatParser.FieldSection),
    FormatParser.buildSections helpers clock params expandedFormat
      escapedParts = Some (FormatParser.Ok sections) ->
    let utils := FormatParser.Params.utils params in
    (exists separator,
       separator <> "" /\ sections = [FormatParser.emptySection separator])
    \/ (Forall
          (fun section =>
             In (FormatParser.format section)
               (FormatParser.utils.formatTokenMap_keys utils)
             /\ FormatParser.type section
                = FormatParser.cfg_type
                    (FormatParser.fieldUtils.getDateSectionConfigFromFormatToken
                       helpers utils (FormatParser.format section))
             /\ FormatParser.contentType section
                = FormatParser.cfg_contentType
                    (FormatParser.fieldUtils.getDateSectionConfigFromFormatToken
                       helpers utils (FormatParser.format section))
             /\ FormatParser.modified section = false)
          sections
        /\ Forall (fun section => FormatParser.startSeparator section = "")
             (tl sections)).
Proof.
  intros TDate Clock helpers clock params expandedFormat escapedParts
         sections Hbuilt utils.
  unfold FormatParser.buildSections in Hbuilt. fold utils in Hbuilt.
  set (now := FormatParser.utils.date_undefined utils clock None) in *.
  set (Q := fun section =>
              In (FormatParser.format section)
                (FormatParser.utils.formatTokenMap_keys utils)
              /\ FormatParser.type section
                 = FormatParser.cfg_type
                     (FormatParser.fieldUtils.getDateSectionConfigFromFormatToken
                        helpers utils (FormatParser.format section))
              /\ FormatParser.contentType section
                 = FormatParser.cfg_contentType
                     (FormatParser.fieldUtils.getDateSectionConfigFromFormatToken
                        helpers utils (FormatParser.format section))
              /\ FormatParser.modified section = false).
  assert (Hcreated :
            forall token separator section,
              In token (FormatParser.tokenAlternatives utils) ->
              FormatParser.createSection helpers clock params now token
                separator = FormatParser.Ok section ->
              Q section).
  { intros token separator section Hin Hsection.
    pose proof (createSection_Ok_config TDate Clock helpers clock params now
                  token separator section Hsection) as [Htype Hcontent].
    apply createSection_Ok in Hsection as (Hformat & _ & _ & Hmodified & Hne).
    unfold Q. rewrite Hformat.
    apply tokenAlternatives_In in Hin as [Hin|[_ Hempty]];
      [auto|now contradiction Hne]. }
  destruct (FormatParser.buildSections_loop helpers clock params now
              (FormatParser.tokenAlternatives utils) escapedParts 0 0
              expandedFormat
              {| FormatParser.sections := [];
                 FormatParser.pendingStartSeparator := "";
                 FormatParser.currentTokenValue := "";
                 FormatParser.lastIndex := 0 |})
    as [[st|e]|] eqn:Hloop; try discriminate.
  apply (buildSections_loop_sections TDate Clock helpers clock params now
           (FormatParser.tokenAlternatives utils) escapedParts Q) in Hloop;
    [|now intros char section Hsection|exact Hcreated|constructor|now left
     |cbn; congruence|constructor].
  destruct Hloop as (Hall & Htoken & Hsep & Htail).
  destruct (FormatParser.currentTokenValue st) as [|c token] eqn:Hcurrent;
    cbn [FormatParser.isEmptyString] in Hbuilt.
  - destruct (FormatParser.sections st) as [|first others] eqn:Hsections.
    + destruct (0 <? String.length (FormatParser.pendingStartSeparator st))%nat
        eqn:Hlength; injection Hbuilt as <-.
      * left. exists (FormatParser.pendingStartSeparator st).
        split; [|reflexivity].
        intros Hempty. rewrite Hempty in Hlength. discriminate.
      * right. split; constructor.
    + injection Hbuilt as <-. right. now split.
  - destruct Htoken as [Hempty|Hin]; [discriminate|].
    destruct (FormatParser.createSection helpers clock params now
                (String c token) (FormatParser.pendingStartSeparator st))
      as [section|e] eqn:Hsection; [|discriminate].
    assert (Hsections :
              sections = (FormatParser.sections st ++ [section])%list).
    { destruct (FormatParser.sections st ++ [section])%list
        as [|first others] eqn:Happ;
        [now destruct (FormatParser.sections st)|].
      now injection Hbuilt as <-. }
    right. subst sections. split.
    + apply Forall_app. split; [exact Hall|].
      constructor; [|constructor]. exact (Hcreated _ _ _ Hin Hsection).
    + destruct (FormatParser.sections st) as [|first others] eqn:Hfirst;
        [constructor|].
      cbn [tl app] in *. apply Forall_app. split; [exact Htail|].
      constructor; [|constructor].
      apply createSection_Ok in Hsection as (_ & -> & _).
      apply Hsep. discriminate.
Qed.

(** On the plain calendar, the sections of [MM/dd/yyyy] are made of the
    tokens [MM], [dd] and [yyyy]. *)
Lemma buildSections_sections_are_tokens_witness :
  exists sections,
    FormatParser.buildSections PlainCalendar.parserHelpers
      PlainCalendar.today (PlainCalendar.parserParams "MM/dd/yyyy" None true)
      "MM/dd/yyyy" []
    = Some (FormatParser.Ok sections)
    /\ map FormatParser.format sections = ["MM"; "dd"; "yyyy"]
    /\ ((exists separator,
           separator <> ""
           /\ sections = [FormatParser.emptySection separator])
        \/ (Forall
              (fun section =>
                 In (FormatParser.format section)
                   (FormatParser.utils.formatTokenMap_keys
                      PlainCalendar.parserUtils)
                 /\ FormatParser.type section
                    = FormatParser.cfg_type
                        (FormatParser.fieldUtils.getDateSectionConfigFromFormatToken
                           PlainCalendar.parserHelpers
                           PlainCalendar.parserUtils
                           (FormatParser.format section))
                 /\ FormatParser.contentType section
                    = FormatParser.cfg_contentType
                        (FormatParser.fieldUtils.getDateSectionConfigFromFormatToken
                           PlainCalendar.parserHelpers
                           PlainCalendar.parserUtils
                           (FormatParser.format section))
                 /\ FormatParser.modified section = false)
              sections
            /\ Forall
                 (fun section => FormatParser.startSeparator section = "")
                 (tl sections))).
Proof.
  eexists. split; [vm_compute; reflexivity|].
  split; [reflexivity|].
  refine (buildSections_sections_are_tokens PlainCalendar.PlainDate
            PlainCalendar.PlainDate PlainCalendar.parserHelpers
            PlainCalendar.today
            (PlainCalendar.parserParams "MM/dd/yyyy" None true)
            "MM/dd/yyyy" [] _ _).
  vm_compute. reflexivity.
Defined.

Section Separators.
Import FormatParser.

Lemma cleanSeparator_left_to_right_dense (separator : string) :
  cleanSeparator false dense separator = separator.
Proof. reflexivity. Qed.

Lemma cleanSeparator_left_to_right_twice (formatDensity : FormatDensity)
    (separator : string) :
  cleanSeparator false formatDensity
    (cleanSeparator false formatDensity separator)
  = cleanSeparator false formatDensity separator.
Proof.
  destruct formatDensity; [reflexivity|].
  unfold cleanSeparator. cbn [andb].
  destruct (separator =? "/") eqn:Hslash;
    [apply String.eqb_eq in Hslash; now subst separator|].
  destruct (separator =? ".") eqn:Hdot;
    [apply String.eqb_eq in Hdot; now subst separator|].
  destruct (separator =? "-") eqn:Hdash;
    [apply String.eqb_eq in Hdash; now subst separator|].
  cbn [orb]. now rewrite Hslash, Hdot, Hdash.
Qed.

Lemma includesChar_app (c : ascii) (a b : string) :
  includesChar c (a ++ b) = includesChar c a || includesChar c b.
Proof.
  induction a as [|x a IH]; cbn; [reflexivity|].
  now rewrite IH, orb_assoc.
Qed.

Lemma string_length_app (a b : string) :
  String.length (a ++ b) = (String.length a + String.length b)%nat.
Proof. induction a as [|x a IH]; cbn; [reflexivity|now rewrite IH]. Qed.

(** From right to left a separator that holds a space grows each time it
    is cleaned. *)
Lemma cleanSeparator_right_to_left_twice (formatDensity : FormatDensity)
    (separator : string) :
  includesChar " "%char separator = true ->
  (String.length (cleanSeparator true formatDensity separator)
   < String.length
       (cleanSeparator true formatDensity
          (cleanSeparator true formatDensity separator)))%nat.
Proof.
  intros Hspace.
  assert (Hwrapped :
            forall s,
              includesChar " "%char s = true ->
              cleanSeparator true formatDensity s
              = popDirectionalIsolate ++ s ++ leftToRightIsolate).
  { intros s Hs. unfold cleanSeparator. rewrite Hs. cbn [andb].
    now destruct formatDensity. }
  rewrite (Hwrapped separator Hspace).
  rewrite Hwrapped
    by (rewrite !includesChar_app, Hspace; now rewrite orb_true_r).
  rewrite !string_length_app. cbn. lia.
Qed.

Lemma postProcessSections_fixed (TDate Clock : Type)
    (params : Params.t TDate Clock) (sections : list FieldSection) :
  (forall separator,
     cleanSeparator (Params.isRTL params) (Params.formatDensity params)
       separator = separator) ->
  postProcessSections params sections = sections.
Proof.
  intros Hclean. unfold postProcessSections.
  induction sections as [|section sections IH]; [reflexivity|].
  cbn [map]. rewrite IH, !Hclean. now destruct section.
Qed.

Lemma postProcessSections_twice (TDate Clock : Type)
    (params : Params.t TDate Clock) (sections : list FieldSection) :
  (forall separator,
     cleanSeparator (Params.isRTL params) (Params.formatDensity params)
       (cleanSeparator (Params.isRTL params) (Params.formatDensity params)
          separator)
     = cleanSeparator (Params.isRTL params) (Params.formatDensity params)
         separator) ->
  postProcessSections params (postProcessSections params sections)
  = postProcessSections params sections.
Proof.
  intros Hclean. unfold postProcessSections.
  induction sections as [|section sections IH]; [reflexivity|].
  cbn [map]. rewrite IH. cbn. now rewrite !Hclean.
Qed.

End Separators.

(** X16.  [postProcessSections] only touches the separators, and how
    often it may run depends on the direction.  It keeps the number of the
    sections and, in each of them, every property but the two separators:
    the type, the content type, the maximal length, the format, the
    value, the placeholder, the two marks of the leading zeros and the
    mark of the modification; each of the two separators becomes what
    [cleanSeparator] makes of it.  From left to right it leaves a dense
    layout as it is and, whatever the density, running it a second time
    changes nothing.  From right to left a separator that holds a space is
    put between the two isolation marks each time it runs: running it a
    second time does change the sections. *)
Theorem postProcessSections_separators :
  forall (TDate Clock : Type) (params : FormatParser.Params.t TDate Clock)
         (sections : list FormatParser.FieldSection),
    let processed := FormatParser.postProcessSections params sections in
    let clean :=
      FormatParser.cleanSeparator (FormatParser.Params.isRTL params)
        (FormatParser.Params.formatDensity params) in
    List.length processed = List.length sections
    /\ map FormatParser.type processed = map FormatParser.type sections
    /\ map FormatParser.contentType processed
       = map FormatParser.contentType sections
    /\ map FormatParser.maxLength processed
       = map FormatParser.maxLength sections
    /\ map FormatParser.format processed = map FormatParser.format sections
    /\ map FormatParser.value processed = map FormatParser.value sections
    /\ map FormatParser.placeholder processed
       = map FormatParser.placeholder sections
    /\ map FormatParser.hasLeadingZerosInFormat processed
       = map FormatParser.hasLeadingZerosInFormat sections
    /\ map FormatParser.hasLeadingZerosInInput processed
       = map FormatParser.hasLeadingZerosInInput sections
    /\ map FormatParser.modified processed
       = map FormatParser.modified sections
    /\ map FormatParser.startSeparator processed
       = map clean (map FormatParser.startSeparator sections)
    /\ map FormatParser.endSeparator processed
       = map clean (map FormatParser.endSeparator sections)
    /\ (FormatParser.Params.isRTL params = false ->
        FormatParser.Params.formatDensity params = FormatParser.dense ->
        processed = sections)
    /\ (FormatParser.Params.isRTL params = false ->
        FormatParser.postProcessSections params processed = processed)
    /\ (FormatParser.Params.isRTL params = true ->
        forall section,
          FormatParser.includesChar " "%char
            (FormatParser.endSeparator section) = true ->
          FormatParser.postProcessSections params
            (FormatParser.postProcessSections params [section])
          <> FormatParser.postProcessSections params [section]).
Proof.
  intros TDate Clock params sections processed clean.
  subst processed clean.
  split; [apply length_map|].
  unfold FormatParser.postProcessSections at 1 2 3 4 5 6 7 8 9 10 11.
  rewrite !map_map.
  cbn [FormatParser.type FormatParser.contentType FormatParser.maxLength
       FormatParser.format FormatParser.value FormatParser.placeholder
       FormatParser.hasLeadingZerosInFormat
       FormatParser.hasLeadingZerosInInput FormatParser.modified
       FormatParser.startSeparator FormatParser.endSeparator].
  do 11 (split; [reflexivity|]).
  split; [|split].
  - intros Hltr Hdense. apply postProcessSections_fixed.
    intros separator. now rewrite Hltr, Hdense.
  - intros Hltr. apply postProcessSections_twice.
    intros separator. rewrite Hltr.
    apply cleanSeparator_left_to_right_twice.
  - intros Hrtl section Hspace Hsame.
    unfold FormatParser.postProcessSections in Hsame. cbn [map] in Hsame.
    injection Hsame as _ Hend. cbn in Hend.
    rewrite Hrtl in Hend.
    pose proof (cleanSeparator_right_to_left_twice
                  (FormatParser.Params.formatDensity params)
                  (FormatParser.endSeparator section) Hspace) as Hlonger.
    rewrite Hend in Hlonger. lia.
Qed.

Section GroupsOfTheFormat.
Import FormatParser.
Variable sep : ascii.

Lemma split_not_nil (s : string) : split sep s <> [].
Proof.
  induction s as [|c s IH]; cbn [split]; [discriminate|].
  destruct (Ascii.eqb c sep); [discriminate|].
  now destruct (split sep s).
Qed.

Lemma join_cons_char (c : ascii) (piece : string) (pieces : list string) :
  join (String sep "") (String c piece :: pieces)
  = String c (join (String sep "") (piece :: pieces)).
Proof. now destruct pieces. Qed.

Lemma join_split (s : string) : join (String sep "") (split sep s) = s.
Proof.
  induction s as [|c s IH]; [reflexivity|].
  cbn [split]. destruct (Ascii.eqb c sep) eqn:Hc.
  - apply Ascii.eqb_eq in Hc. subst c.
    pose proof (split_not_nil s) as Hne.
    destruct (split sep s) as [|piece pieces]; [now contradiction Hne|].
    change (join (String sep "") ("" :: piece :: pieces))
      with ("" ++ String sep "" ++ join (String sep "") (piece :: pieces)).
    rewrite IH. reflexivity.
  - pose proof (split_not_nil s) as Hne.
    destruct (split sep s) as [|piece pieces]; [now contradiction Hne|].
    now rewrite join_cons_char, IH.
Qed.

Lemma split_pieces (s : string) :
  Forall (fun piece => includesChar sep piece = false) (split sep s).
Proof.
  induction s as [|c s IH]; cbn [split]; [now constructor|].
  destruct (Ascii.eqb c sep) eqn:Hc; [now constructor|].
  destruct (split sep s) as [|piece pieces]; inversion IH; subst.
  - constructor; [|constructor]. cbn.
    now rewrite Ascii.eqb_sym, Hc.
  - constructor; [|assumption]. cbn [includesChar].
    rewrite Ascii.eqb_sym, Hc. assumption.
Qed.

Lemma split_one_piece (piece : string) :
  includesChar sep piece = false -> split sep piece = [piece].
Proof.
  induction piece as [|c piece IH]; [reflexivity|].
  cbn [includesChar split]. intros Hnone.
  apply orb_false_iff in Hnone as [Hc Hpiece].
  rewrite Ascii.eqb_sym in Hc. rewrite Hc, (IH Hpiece). reflexivity.
Qed.

Lemma split_first_piece (piece rest : string) :
  includesChar sep piece = false ->
  split sep (piece ++ String sep rest) = piece :: split sep rest.
Proof.
  induction piece as [|c piece IH]; intros Hnone.
  - cbn [append split]. now rewrite Ascii.eqb_refl.
  - cbn [includesChar] in Hnone.
    apply orb_false_iff in Hnone as [Hc Hpiece].
    rewrite Ascii.eqb_sym in Hc.
    cbn [append split]. now rewrite Hc, (IH Hpiece).
Qed.

Lemma split_join (pieces : list string) :
  pieces <> [] ->
  Forall (fun piece => includesChar sep piece = false) pieces ->
  split sep (join (String sep "") pieces) = pieces.
Proof.
  induction pieces as [|piece pieces IH]; intros Hne Hpieces;
    [now contradiction Hne|].
  inversion Hpieces as [|? ? Hpiece Hrest]; subst.
  destruct pieces as [|piece' pieces].
  - now apply split_one_piece.
  - change (join (String sep "") (piece :: piece' :: pieces))
      with (piece ++ String sep ""
            ++ join (String sep "") (piece' :: pieces)).
    cbn [append]. rewrite (split_first_piece _ _ Hpiece).
    now rewrite IH.
Qed.

End GroupsOfTheFormat.

(** X17.  The reversal of the groups of a format is its own inverse.  For
    a layout from right to left with the accessible structure,
    [buildSectionsFromFormat] reads the expanded format with the groups
    that its spaces part put in the reverse order.  The format is cut at
    every space and put together again with one space between two
    groups, so that reversing the groups a second time gives back the
    format, joining the groups as they were cut gives back the format,
    and a format without a space is left as it is. *)
Theorem reversing_the_groups_twice :
  forall expandedFormat : string,
    let reversed :=
      FormatParser.join " "
        (rev (FormatParser.split " "%char expandedFormat)) in
    FormatParser.join " " (rev (FormatParser.split " "%char reversed))
      = expandedFormat
    /\ FormatParser.join " " (FormatParser.split " "%char expandedFormat)
       = expandedFormat
    /\ List.length (FormatParser.split " "%char reversed)
       = List.length (FormatParser.split " "%char expandedFormat)
    /\ (FormatParser.includesChar " "%char expandedFormat = false ->
        reversed = expandedFormat).
Proof.
  intros expandedFormat reversed.
  assert (Hsplit :
            FormatParser.split " "%char reversed
            = rev (FormatParser.split " "%char expandedFormat)).
  { subst reversed. apply (split_join " "%char).
    - intros Hnil. apply (f_equal (@rev string)) in Hnil.
      rewrite rev_involutive in Hnil.
      exact (split_not_nil " "%char expandedFormat Hnil).
    - apply Forall_rev. apply split_pieces. }
  split; [|split; [|split]].
  - rewrite Hsplit, rev_involutive. apply (join_split " "%char).
  - apply (join_split " "%char).
  - now rewrite Hsplit, length_rev.
  - intros Hnone. subst reversed.
    now rewrite (split_one_piece " "%char expandedFormat Hnone).
Qed.

Section SeparatorsOfTheLoop.
Import FormatParser ParserNotions SectionNotions.
Variables TDate Clock : Type.
Variable helpers : fieldUtils.t TDate Clock.
Variable clock : Clock.
Variable params : Params.t TDate Clock.
Variable now : TDate.
Variable alternatives : list string.
Variable escapedParts : FormatEscapedParts.

Lemma appendToLastEndSeparator_last (char : ascii)
    (sections : list FieldSection) (section : FieldSection) :
  appendToLastEndSeparator char (sections ++ [section])
  = (sections ++ [appendToEndSeparator char section])%list.
Proof.
  induction sections as [|first sections IH]; [reflexivity|].
  cbn [app]. rewrite <- IH.
  now destruct (sections ++ [section])%list eqn:Happ;
    [destruct sections; discriminate|].
Qed.

Lemma appendToEndSeparator_not_empty (char : ascii) (section : FieldSection) :
  endSeparator (appendToEndSeparator char section) <> "".
Proof. cbn. now destruct (endSeparator section). Qed.

(** Every section the loop pushes gets, in the same turn, the character
    that made the loop push it. *)
Lemma buildSections_loop_endSeparators :
  forall (rest : string) (skip i : nat) (st st' : LoopState),
    Forall (fun section => endSeparator section <> "") (sections st) ->
    buildSections_loop helpers clock params now alternatives escapedParts
      skip i rest st = Some (Ok st') ->
    Forall (fun section => endSeparator section <> "") (sections st').
Proof.
  induction rest as [|char rest' IH]; intros skip i st st' Hsections Hloop.
  { assert (Hst : st' = st) by (destruct skip; cbn in Hloop; congruence).
    now subst st'. }
  cbn [buildSections_loop] in Hloop.
  destruct skip as [|skip']; [|now apply IH in Hloop].
  destruct (isTokenStartRegExp_test alternatives (lastIndex st)
              (currentTokenValue st ++ String char rest'))
    as [regExpMatch lastIndex'].
  destruct (negb
              match findEscapedPart escapedParts i with
              | Some _ => true
              | None => false
              end && isLetter char && regExpMatch).
  - destruct lastIndex'; [discriminate|]. now apply IH in Hloop.
  - destruct (match findEscapedPart escapedParts i with
              | Some part => (start part =? i)%nat || (end_ part =? i)%nat
              | None => false
              end); [now apply IH in Hloop|].
    destruct (isEmptyString (currentTokenValue st)).
    + destruct (sections st) as [|first others] eqn:Hfirst;
        apply IH in Hloop; auto.
      cbn [sections].
      apply appendToLastEndSeparator_Forall; [|exact Hsections].
      intros section _. apply appendToEndSeparator_not_empty.
    + destruct (createSection helpers clock params now
                  (currentTokenValue st) (pendingStartSeparator st))
        as [section|e]; [|discriminate].
      destruct (sections st ++ [section])%list as [|first others] eqn:Happ;
        [now destruct (sections st)|].
      apply IH in Hloop; [exact Hloop|].
      cbn [sections]. rewrite <- Happ, appendToLastEndSeparator_last.
      apply Forall_app. split; [exact Hsections|].
      constructor; [apply appendToEndSeparator_not_empty|constructor].
Qed.

(** The loop only fails when [createSection] fails on a token that
    [isTokenStartRegExp] has read. *)
Lemma buildSections_loop_throws :
  forall (rest : string) (skip i : nat) (st : LoopState) (e : ParserError),
    (currentTokenValue st = "" \/ In (currentTokenValue st) alternatives) ->
    buildSections_loop helpers clock params now alternatives escapedParts
      skip i rest st = Some (Throw e) ->
    exists token separator,
      In token alternatives /\ token <> ""
      /\ createSection helpers clock params now token separator = Throw e.
Proof.
  induction rest as [|char rest' IH]; intros skip i st e Htoken Hloop.
  { destruct skip; discriminate. }
  cbn [buildSections_loop] in Hloop.
  destruct skip as [|skip']; [|now apply IH in Hloop].
  destruct (isTokenStartRegExp_test alternatives (lastIndex st)
              (currentTokenValue st ++ String char rest'))
    as [regExpMatch lastIndex'] eqn:Htest.
  destruct (negb
              match findEscapedPart escapedParts i with
              | Some _ => true
              | None => false
              end && isLetter char && regExpMatch) eqn:Hbranch.
  - apply andb_prop in Hbranch as [_ ->].
    apply (isTokenStartRegExp_test_reads alternatives) in Htest
      as (_ & token & Hin & Hprefix & ->).
    destruct (String.length token) as [|m] eqn:Hm; [discriminate|].
    apply IH in Hloop; [exact Hloop|].
    cbn [currentTokenValue]. right.
    replace (substring 0 (S m) (currentTokenValue st ++ String char rest'))
      with token
      by (symmetry; rewrite <- Hm; now apply prefix_correct).
    exact Hin.
  - destruct (match findEscapedPart escapedParts i with
              | Some part => (start part =? i)%nat || (end_ part =? i)%nat
              | None => false
              end); [now apply IH in Hloop|].
    destruct (currentTokenValue st) as [|c token] eqn:Hcurrent;
      cbn [isEmptyString] in Hloop.
    + destruct (sections st); apply IH in Hloop; auto.
    + destruct Htoken as [Hempty|Hin]; [discriminate|].
      destruct (createSection helpers clock params now (String c token)
                  (pendingStartSeparator st)) as [section|e'] eqn:Hsection.
      * destruct (sections st ++ [section])%list;
          apply IH in Hloop; auto.
      * injection Hloop as ->.
        exists (String c token), (pendingStartSeparator st).
        split; [exact Hin|]. split; [discriminate|exact Hsection].
Qed.

Lemma createSection_Throw (token separator : string) (e : ParserError) :
  createSection helpers clock params now token separator = Throw e ->
  token <> "" ->
  let config :=
    fieldUtils.getDateSectionConfigFromFormatToken helpers
      (Params.utils params) token in
  e = MissingMaxLength token
  /\ Params.shouldRespectLeadingZeros params = false
  /\ cfg_contentType config = digit
  /\ cfg_maxLength config = None.
Proof.
  unfold createSection.
  destruct token as [|c token]; [intros _ Hne; now contradiction Hne|].
  cbn [isEmptyString]. intros Hthrown _. cbn zeta.
  destruct (Params.shouldRespectLeadingZeros params).
  - destruct (fieldUtils.doesSectionFormatHaveLeadingZeros _ _ _ _ _ _);
      discriminate.
  - destruct (contentType_eqb _ digit) eqn:Hdigit; [|discriminate].
    destruct (fieldUtils.doesSectionFormatHaveLeadingZeros _ _ _ _ _ _);
      [discriminate|].
    destruct (cfg_maxLength _) eqn:HmaxLength; [discriminate|].
    injection Hthrown as <-.
    repeat split.
    now destruct (cfg_contentType
                    (fieldUtils.getDateSectionConfigFromFormatToken helpers
                       (Params.utils params) (String c token))).
Qed.

End SeparatorsOfTheLoop.

Lemma expandFormat_loop_Throw (expand : string -> string) (overflow : nat) :
  forall (prevFormat nextFormat : string) (e : FormatParser.ParserError),
    FormatParser.expandFormat_loop expand overflow prevFormat nextFormat
      = FormatParser.Throw e ->
    e = FormatParser.FormatExpansionOverflow.
Proof.
  induction overflow as [|overflow IH]; intros prevFormat nextFormat e;
    cbn [FormatParser.expandFormat_loop];
    destruct (nextFormat =? prevFormat); try discriminate.
  - intros Hthrown. now injection Hthrown as <-.
  - apply IH.
Qed.

(** X18.  Two sections never touch.  Every section [buildSections]
    returns, but for the last one, has an end separator that is not
    empty: a section is only pushed, while the format is read, on a
    character that is then written at the end of its end separator.  In
    particular a token that comes right after another token is not read
    as a token from its first letter on: that letter goes to the
    separator. *)
Theorem buildSections_sections_never_touch :
  forall (TDate Clock : Type)
         (helpers : FormatParser.fieldUtils.t TDate Clock) (clock : Clock)
         (params : FormatParser.Params.t TDate Clock)
         (expandedFormat : string)
         (escapedParts : FormatParser.FormatEscapedParts)
         (sections : list FormatParser.FieldSection),
    FormatParser.buildSections helpers clock params expandedFormat
      escapedParts = Some (FormatParser.Ok sections) ->
    Forall (fun section => FormatParser.endSeparator section <> "")
      (removelast sections).
Proof.
  intros TDate Clock helpers clock params expandedFormat escapedParts
         sections Hbuilt.
  unfold FormatParser.buildSections in Hbuilt.
  destruct (FormatParser.buildSections_loop _ _ _ _ _ _ _ _ _ _)
    as [[st|e]|] eqn:Hloop; try discriminate.
  apply buildSections_loop_endSeparators in Hloop; [|constructor].
  assert (Hremovelast :
            forall l : list FormatParser.FieldSection,
              Forall (fun section => FormatParser.endSeparator section <> "")
                l ->
              Forall (fun section => FormatParser.endSeparator section <> "")
                (removelast l)).
  { induction 1 as [|first others Hfirst Hothers IH]; [constructor|].
    destruct others as [|second others]; [constructor|].
    change (removelast (first :: second :: others))
      with (first :: removelast (second :: others)).
    now constructor. }
  destruct (FormatParser.isEmptyString (FormatParser.currentTokenValue st)).
  - destruct (FormatParser.sections st) as [|first others] eqn:Hsections.
    + destruct (0 <? _)%nat; injection Hbuilt as <-; constructor.
    + injection Hbuilt as <-. now apply Hremovelast.
  - destruct (FormatParser.createSection _ _ _ _ _ _) as [section|e];
      [|discriminate].
    destruct (FormatParser.sections st ++ [section])%list
      as [|first others] eqn:Happ;
      [now destruct (FormatParser.sections st)|].
    injection Hbuilt as <-. rewrite <- Happ, removelast_last. exact Hloop.
Qed.

(** On the plain calendar, the format [MMdd]: the first [d] is read as the
    end separator of the month, and the day is the token [d]. *)
Lemma buildSections_sections_never_touch_witness :
  exists sections,
    FormatParser.buildSections PlainCalendar.parserHelpers
      PlainCalendar.today (PlainCalendar.parserParams "MMdd" None true)
      "MMdd" []
    = Some (FormatParser.Ok sections)
    /\ map (fun section =>
              (FormatParser.format section,
               FormatParser.endSeparator section)) sections
       = [("MM", "d"); ("d", "")]
    /\ Forall (fun section => FormatParser.endSeparator section <> "")
         (removelast sections).
Proof.
  eexists. split; [vm_compute; reflexivity|].
  split; [reflexivity|].
  refine (buildSections_sections_never_touch PlainCalendar.PlainDate
            PlainCalendar.PlainDate PlainCalendar.parserHelpers
            PlainCalendar.today (PlainCalendar.parserParams "MMdd" None true)
            "MMdd" [] _ _).
  vm_compute. reflexivity.
Defined.

(** X19.  The errors of the parser.  [buildSectionsFromFormat] throws in
    two cases only.  Either the expansion of the format does not settle,
    and the error is that of [expandFormat]; or a token of the adapter
    that the format holds has digits as its content and no maximal length
    in its configuration while the leading zeros of the format are not
    respected, and the error names that token.  The error of the empty
    token is never thrown: [createSection] is only called with a token
    that was read. *)
Theorem buildSectionsFromFormat_throws :
  forall (TDate Clock : Type)
         (helpers : FormatParser.fieldUtils.t TDate Clock) (clock : Clock)
         (params : FormatParser.Params.t TDate Clock)
         (e : FormatParser.ParserError),
    FormatParser.buildSectionsFromFormat helpers clock params
      = Some (FormatParser.Throw e) ->
    let utils := FormatParser.Params.utils params in
    (e = FormatParser.FormatExpansionOverflow
     /\ FormatParser.expandFormat params
        = FormatParser.Throw FormatParser.FormatExpansionOverflow)
    \/ exists token,
         e = FormatParser.MissingMaxLength token
         /\ In token (FormatParser.utils.formatTokenMap_keys utils)
         /\ FormatParser.Params.shouldRespectLeadingZeros params = false
         /\ FormatParser.cfg_contentType
              (FormatParser.fieldUtils.getDateSectionConfigFromFormatToken
                 helpers utils token) = FormatParser.digit
         /\ FormatParser.cfg_maxLength
              (FormatParser.fieldUtils.getDateSectionConfigFromFormatToken
                 helpers utils token) = None.
Proof.
  intros TDate Clock helpers clock params e Hthrown utils.
  unfold FormatParser.buildSectionsFromFormat in Hthrown.
  destruct (FormatParser.expandFormat params) as [expandedFormat0|e0]
    eqn:Hexpanded.
  - right.
    match type of Hthrown with
    | context [FormatParser.buildSections ?h ?c ?p ?f ?parts] =>
        destruct (FormatParser.buildSections h c p f parts)
          as [[sections|e1]|] eqn:Hbuilt; try discriminate
    end.
    injection Hthrown as ->.
    assert (Hcreated :
              exists token separator,
                In token (FormatParser.tokenAlternatives utils)
                /\ token <> ""
                /\ FormatParser.createSection helpers clock params
                     (FormatParser.utils.date_undefined utils clock None)
                     token separator = FormatParser.Throw e).
    { unfold FormatParser.buildSections in Hbuilt. fold utils in Hbuilt.
      destruct (FormatParser.buildSections_loop _ _ _ _ _ _ _ _ _ _)
        as [[st|e1]|] eqn:Hloop; try discriminate.
      - pose proof Hloop as Hsections.
        apply (buildSections_loop_sections TDate Clock helpers clock params
                 _ _ _ (fun _ => True)) in Hsections;
          [|auto|auto|constructor|now left|cbn; congruence|constructor].
        destruct Hsections as (_ & Htoken & _).
        destruct (FormatParser.currentTokenValue st) as [|c token]
          eqn:Hcurrent; cbn [FormatParser.isEmptyString] in Hbuilt.
        + destruct (FormatParser.sections st);
            [destruct (0 <? _)%nat|]; discriminate.
        + destruct Htoken as [Hempty|Hin]; [discriminate|].
          destruct (FormatParser.createSection _ _ _ _ _ _)
            as [section|e1] eqn:Hsection.
          * destruct (FormatParser.sections st ++ [section])%list;
              [destruct (0 <? _)%nat|]; discriminate.
          * injection Hbuilt as ->.
            exists (String c token),
              (FormatParser.pendingStartSeparator st).
            split; [exact Hin|]. split; [discriminate|exact Hsection].
      - injection Hbuilt as ->.
        apply buildSections_loop_throws in Hloop; [exact Hloop|now left]. }
    destruct Hcreated as (token & separator & Hin & Hne & Hcreated).
    apply createSection_Throw in Hcreated; [|exact Hne].
    destruct Hcreated as (-> & Hrespect & Hdigit & HmaxLength).
    exists token. split; [reflexivity|].
    apply tokenAlternatives_In in Hin as [Hin|[_ Hempty]];
      [auto|now contradiction Hne].
  - left. injection Hthrown as <-.
    unfold FormatParser.expandFormat in Hexpanded.
    pose proof (expandFormat_loop_Throw _ _ _ _ _ Hexpanded) as ->.
    now split.
Qed.

(** On the plain calendar, with helpers that know no maximal length for
    the months: the format [M] is refused when the leading zeros of the
    format are not respected. *)
Lemma buildSectionsFromFormat_throws_witness :
  let helpers :=
    {| FormatParser.fieldUtils.getDateSectionConfigFromFormatToken :=
         fun (_ : FormatParser.utils.t PlainCalendar.PlainDate
                    PlainCalendar.PlainDate) (_ : string) =>
           {| FormatParser.cfg_type := FormatParser.month;
              FormatParser.cfg_contentType := FormatParser.digit;
              FormatParser.cfg_maxLength := None |};
       FormatParser.fieldUtils.doesSectionFormatHaveLeadingZeros :=
         fun _ _ _ _ _ => false;
       FormatParser.fieldUtils.cleanLeadingZeros := fun valueStr _ => valueStr;
       FormatParser.fieldUtils.applyLocalizedDigits :=
         fun valueStr _ => valueStr;
       FormatParser.fieldUtils.removeLocalizedDigits :=
         fun valueStr _ => valueStr |} in
  let params := PlainCalendar.parserParams "M" None false in
  FormatParser.buildSectionsFromFormat helpers PlainCalendar.today params
    = Some (FormatParser.Throw (FormatParser.MissingMaxLength "M"))
  /\ ((FormatParser.MissingMaxLength "M"
       = FormatParser.FormatExpansionOverflow
       /\ FormatParser.expandFormat params
          = FormatParser.Throw FormatParser.FormatExpansionOverflow)
      \/ exists token,
           FormatParser.MissingMaxLength "M"
           = FormatParser.MissingMaxLength token
           /\ In token
                (FormatParser.utils.formatTokenMap_keys
                   (FormatParser.Params.utils params))
           /\ FormatParser.Params.shouldRespectLeadingZeros params = false
           /\ FormatParser.cfg_contentType
                (FormatParser.fieldUtils.getDateSectionConfigFromFormatToken
                   helpers (FormatParser.Params.utils params) token)
              = FormatParser.digit
           /\ FormatParser.cfg_maxLength
                (FormatParser.fieldUtils.getDateSectionConfigFromFormatToken
                   helpers (FormatParser.Params.utils params) token)
              = None).
Proof.
  intros helpers params.
  split; [vm_compute; reflexivity|].
  refine (buildSectionsFromFormat_throws PlainCalendar.PlainDate
            PlainCalendar.PlainDate helpers PlainCalendar.today params
            (FormatParser.MissingMaxLength "M") _).
  vm_compute. reflexivity.
Defined.

Section ValuesOfTheSections.
Import FormatParser ParserNotions SectionNotions.
Variables TDate Clock : Type.
Variable helpers : fieldUtils.t TDate Clock.
Variable clock : Clock.
Variable params : Params.t TDate Clock.
Variable now : TDate.

Lemma createSection_Ok_value (token separator : string)
    (section : FieldSection) :
  createSection helpers clock params now token separator = Ok section ->
  (match Params.date params with
   | Some date => utils.isValid (Params.utils params) date = false
   | None => True
   end ->
   value section = "")
  /\ (forall date,
        Params.date params = Some date ->
        utils.isValid (Params.utils params) date = true ->
        Params.shouldRespectLeadingZeros params = true ->
        value section
        = utils.formatByString (Params.utils params) date token).
Proof.
  unfold createSection.
  destruct token as [|c token]; [discriminate|].
  cbn [isEmptyString]. cbn zeta.
  destruct (Params.date params) as [date|].
  - destruct (utils.isValid (Params.utils params) date) eqn:Hvalid.
    + destruct (Params.shouldRespectLeadingZeros params).
      * destruct (fieldUtils.doesSectionFormatHaveLeadingZeros _ _ _ _ _ _);
          intros Hsection; injection Hsection as <-; cbn;
          (split; [discriminate|]);
          intros date' Hdate _ _; now injection Hdate as <-.
      * destruct (contentType_eqb _ digit);
          [destruct (fieldUtils.doesSectionFormatHaveLeadingZeros
                       _ _ _ _ _ _);
           [|destruct (cfg_maxLength _); [|discriminate]]|];
          intros Hsection; injection Hsection as <-; cbn;
          (split; [discriminate|]); intros date' _ _ Hrespect;
          discriminate.
    + repeat match goal with
             | |- context [if ?b then _ else _] =>
                 match b with
                 | context [if _ then _ else _] => fail 1
                 | _ => destruct b
                 end
             | |- context [match cfg_maxLength ?c with _ => _ end] =>
                 destruct (cfg_maxLength c)
             end;
        try discriminate;
        intros Hsection; injection Hsection as <-; cbn;
        (split; [reflexivity|]); intros date' Hdate Hvalid';
        injection Hdate as <-; congruence.
  - repeat match goal with
           | |- context [if ?b then _ else _] =>
               match b with
               | context [if _ then _ else _] => fail 1
               | _ => destruct b
               end
           | |- context [match cfg_maxLength ?c with _ => _ end] =>
               destruct (cfg_maxLength c)
           end;
      try discriminate;
      intros Hsection; injection Hsection as <-; cbn;
      (split; [reflexivity|]); intros date' Hdate; discriminate.
Qed.

(** [buildSections] by what it knows of every token section it creates:
    a property of the sections [createSection] returns that the writing
    of an end separator keeps is a property of every section returned,
    but for the empty section. *)
Lemma buildSections_Forall (Q : FieldSection -> Prop)
    (expandedFormat : string) (escapedParts : FormatEscapedParts)
    (sections : list FieldSection) :
  (forall char section, Q section -> Q (appendToEndSeparator char section)) ->
  (forall token separator section,
     createSection helpers clock params
       (utils.date_undefined (Params.utils params) clock None) token
       separator = Ok section ->
     Q section) ->
  (forall separator, Q (emptySection separator)) ->
  buildSections helpers clock params expandedFormat escapedParts
    = Some (Ok sections) ->
  Forall Q sections.
Proof.
  intros Hkeeps Hcreated Hempty Hbuilt.
  unfold buildSections in Hbuilt.
  destruct (buildSections_loop _ _ _ _ _ _ _ _ _ _) as [[st|e]|] eqn:Hloop;
    try discriminate.
  apply (buildSections_loop_sections TDate Clock helpers clock params _ _ _ Q)
    in Hloop;
    [|exact Hkeeps|intros token separator section _; apply Hcreated
     |constructor|now left|cbn; congruence|constructor].
  destruct Hloop as (Hall & _).
  destruct (isEmptyString (currentTokenValue st)).
  - destruct (FormatParser.sections st) as [|first others] eqn:Hsections.
    + destruct (0 <? _)%nat; injection Hbuilt as <-;
        [constructor; [apply Hempty|constructor]|constructor].
    + now injection Hbuilt as <-.
  - destruct (createSection _ _ _ _ _ _) as [section|e] eqn:Hsection;
      [|discriminate].
    destruct (FormatParser.sections st ++ [section])%list
      as [|first others] eqn:Happ;
      [now destruct (FormatParser.sections st)|].
    injection Hbuilt as <-. rewrite <- Happ.
    apply Forall_app. split; [exact Hall|].
    constructor; [|constructor]. exact (Hcreated _ _ _ Hsection).
Qed.

Lemma postProcessSections_Forall (Q : FieldSection -> Prop)
    (sections : list FieldSection) :
  (forall section startSeparator' endSeparator',
     Q section ->
     Q {| type := type section;
          contentType := contentType section;
          maxLength := maxLength section;
          format := format section;
          value := value section;
          placeholder := placeholder section;
          hasLeadingZerosInFormat := hasLeadingZerosInFormat section;
          hasLeadingZerosInInput := hasLeadingZerosInInput section;
          startSeparator := startSeparator';
          endSeparator := endSeparator';
          modified := modified section |}) ->
  Forall Q sections -> Forall Q (postProcessSections params sections).
Proof.
  intros Hkeeps. unfold postProcessSections.
  induction 1 as [|section sections Hsection Hsections IH]; cbn [map];
    constructor; [now apply Hkeeps|exact IH].
Qed.

End ValuesOfTheSections.

(** X20.  The values of the sections are the date, token by token.  When
    there is no date, or when the date is not valid, every section
    [buildSectionsFromFormat] returns has an empty value.  When the date
    is valid and the leading zeros of the format are respected, the value
    of every section is the date as the adapter writes it with the format
    of that section, but for the empty section of a format without token,
    whose format and value are empty. *)
Theorem buildSectionsFromFormat_values :
  forall (TDate Clock : Type)
         (helpers : FormatParser.fieldUtils.t TDate Clock) (clock : Clock)
         (params : FormatParser.Params.t TDate Clock)
         (sections : list FormatParser.FieldSection),
    FormatParser.buildSectionsFromFormat helpers clock params
      = Some (FormatParser.Ok sections) ->
    let utils := FormatParser.Params.utils params in
    (match FormatParser.Params.date params with
     | Some date => FormatParser.utils.isValid utils date = false
     | None => True
     end ->
     Forall (fun section => FormatParser.value section = "") sections)
    /\ (forall date,
          FormatParser.Params.date params = Some date ->
          FormatParser.utils.isValid utils date = true ->
          FormatParser.Params.shouldRespectLeadingZeros params = true ->
          Forall
            (fun section =>
               (FormatParser.format section = ""
                /\ FormatParser.value section = "")
               \/ FormatParser.value section
                  = FormatParser.utils.formatByString utils date
                      (FormatParser.format section))
            sections).
Proof.
  intros TDate Clock helpers clock params sections Hparsed utils.
  unfold FormatParser.buildSectionsFromFormat in Hparsed.
  destruct (FormatParser.expandFormat params) as [expandedFormat0|e];
    [|discriminate].
  match type of Hparsed with
  | context [FormatParser.buildSections ?h ?c ?p ?f ?parts] =>
      destruct (FormatParser.buildSections h c p f parts)
        as [[built|e]|] eqn:Hbuilt; try discriminate
  end.
  injection Hparsed as <-.
  split.
  - intros Hdate.
    apply postProcessSections_Forall; [now intros section s e Hsection|].
    apply (buildSections_Forall TDate Clock helpers clock params
             (fun section => FormatParser.value section = "") _ _ _)
      with (4 := Hbuilt); [now intros char section Hsection| |reflexivity].
    intros token separator section Hsection.
    now apply createSection_Ok_value in Hsection as [Hempty _]; auto.
  - intros date Hdate Hvalid Hrespect.
    apply postProcessSections_Forall; [now intros section s e Hsection|].
    apply (buildSections_Forall TDate Clock helpers clock params
             (fun section =>
                (FormatParser.format section = ""
                 /\ FormatParser.value section = "")
                \/ FormatParser.value section
                   = FormatParser.utils.formatByString utils date
                       (FormatParser.format section)) _ _ _)
      with (4 := Hbuilt);
      [now intros char section Hsection| |now left].
    intros token separator section Hsection. right.
    pose proof Hsection as Hfields.
    apply createSection_Ok in Hfields as (-> & _).
    apply createSection_Ok_value in Hsection as [_ Hvalue].
    exact (Hvalue date Hdate Hvalid Hrespect).
Qed.

(** On the plain calendar, the second of November 2026 in the format
    [MM/dd/yyyy]. *)
Lemma buildSectionsFromFormat_values_witness :
  let params :=
    PlainCalendar.parserParams "MM/dd/yyyy" (Some PlainCalendar.today) true in
  exists sections,
    FormatParser.buildSectionsFromFormat PlainCalendar.parserHelpers
      PlainCalendar.today params
    = Some (FormatParser.Ok sections)
    /\ map FormatParser.value sections = ["11"; "02"; "2026"]
    /\ Forall
         (fun section =>
            (FormatParser.format section = ""
             /\ FormatParser.value section = "")
            \/ FormatParser.value section
               = FormatParser.utils.formatByString
                   (FormatParser.Params.utils params) PlainCalendar.today
                   (FormatParser.format section))
         sections.
Proof.
  intros params.
  eexists. split; [vm_compute; reflexivity|].
  split; [reflexivity|].
  refine (proj2 (buildSectionsFromFormat_values PlainCalendar.PlainDate
                   PlainCalendar.PlainDate PlainCalendar.parserHelpers
                   PlainCalendar.today params _ _)
            PlainCalendar.today _ _ _);
    vm_compute; reflexivity.
Defined.

(* ================================================================== *)
(** * Part VIII. The parser from one run to the next *)
(* ================================================================== *)

Section RunOfTheParser.
Import FormatParser RunNotions.
Variables TDate Clock : Type.
Variable helpers : fieldUtils.t TDate Clock.

Lemma lastIndexOf_new (objects : ParserRun.RegExps) (lastIndex : nat) :
  ParserRun.lastIndexOf (objects ++ [lastIndex])%list (List.length objects)
  = lastIndex.
Proof.
  unfold ParserRun.lastIndexOf.
  rewrite app_nth2 by lia. now rewrite Nat.sub_diag.
Qed.

Lemma setLastIndex_new (objects : ParserRun.RegExps)
    (lastIndex lastIndex' : nat) :
  ParserRun.setLastIndex (objects ++ [lastIndex])%list (List.length objects)
    lastIndex'
  = (objects ++ [lastIndex'])%list.
Proof.
  induction objects as [|object objects IH]; cbn; [reflexivity|].
  now rewrite IH.
Qed.

(** What [exec] finds is what the scan of [FormatParser] finds first. *)
Lemma searchEscapedRun_scan (startChar endChar : ascii) (lastIndex : nat)
    (s : string) :
  forall index : nat,
    match
      ParserRun.searchEscapedRun startChar endChar lastIndex index s
    with
    | Some (found, len) =>
        getEscapedParts_scan startChar endChar (lastIndex - index) index s
        = {| start := found; end_ := found + len - 1 |}
          :: getEscapedParts_scan startChar endChar (found + len - index)
               index s
        /\ (lastIndex <= found)%nat
        /\ (index <= found)%nat
        /\ (2 <= len)%nat
        /\ (found + len <= index + String.length s)%nat
    | None =>
        getEscapedParts_scan startChar endChar (lastIndex - index) index s
        = []
    end.
Proof.
  induction s as [|c s' IH]; intros index; [reflexivity|].
  cbn [ParserRun.searchEscapedRun].
  destruct (index <? lastIndex)%nat eqn:Hbefore.
  - apply Nat.ltb_lt in Hbefore.
    specialize (IH (S index)).
    replace (lastIndex - index)%nat with (S (lastIndex - S index)) by lia.
    cbn [getEscapedParts_scan].
    destruct (ParserRun.searchEscapedRun startChar endChar lastIndex
                (S index) s') as [[found len]|]; [|exact IH].
    destruct IH as (Hscan & Hlast & Hindex & Hlen & Hend).
    replace (found + len - index)%nat with (S (found + len - S index))
      by lia.
    cbn [getEscapedParts_scan String.length].
    split; [exact Hscan|]. repeat split; lia.
  - apply Nat.ltb_ge in Hbefore.
    replace (lastIndex - index)%nat with 0%nat by lia.
    cbn [getEscapedParts_scan].
    destruct (matchEscapedRun startChar endChar (String c s')) as [len|]
      eqn:Hrun.
    + apply matchEscapedRun_reads in Hrun as (Hlen & _).
      replace (index + len - index)%nat with (S (len - 1)) by lia.
      cbn [getEscapedParts_scan String.length] in *.
      split; [reflexivity|]. repeat split; lia.
    + specialize (IH (S index)).
      replace (lastIndex - S index)%nat with 0%nat in IH by lia.
      destruct (ParserRun.searchEscapedRun startChar endChar lastIndex
                  (S index) s') as [[found len]|]; [|exact IH].
      destruct IH as (Hscan & Hlast & Hindex & Hlen & Hend).
      replace (found + len - index)%nat with (S (found + len - S index))
        by lia.
      cbn [getEscapedParts_scan String.length].
      split; [exact Hscan|]. repeat split; lia.
Qed.

(** The [while] loop finds the parts the scan finds, and leaves the
    [lastIndex] of its object at [0]. *)
Lemma getEscapedParts_while_scan (startChar endChar : ascii)
    (expandedFormat : string) (objects : ParserRun.RegExps) (turns : nat) :
  forall (lastIndex : nat) (escapedParts : FormatEscapedParts),
    (String.length expandedFormat - lastIndex < turns)%nat ->
    ParserRun.getEscapedParts_while startChar endChar (List.length objects)
      expandedFormat turns escapedParts (objects ++ [lastIndex])%list
    = Some
        ((escapedParts
          ++ getEscapedParts_scan startChar endChar lastIndex 0
               expandedFormat)%list,
         (objects ++ [0%nat])%list).
Proof.
  induction turns as [|turns IH]; intros lastIndex escapedParts Hturns;
    [lia|].
  - cbn [ParserRun.getEscapedParts_while]. unfold ParserRun.execEscapedRun.
    rewrite lastIndexOf_new.
    pose proof (searchEscapedRun_scan startChar endChar lastIndex
                  expandedFormat 0) as Hsearch.
    rewrite !Nat.sub_0_r in Hsearch.
    destruct (ParserRun.searchEscapedRun startChar endChar lastIndex 0
                expandedFormat) as [[found len]|].
    + destruct Hsearch as (Hscan & Hlast & _ & Hlen & Hend).
      rewrite Nat.sub_0_r in Hscan.
      rewrite setLastIndex_new, lastIndexOf_new.
      rewrite IH by lia.
      rewrite Hscan, <- app_assoc. reflexivity.
    + rewrite setLastIndex_new, Hsearch, app_nil_r. reflexivity.
Qed.

Lemma getEscapedPartsFromFormat_run (params : Params.t TDate Clock)
    (expandedFormat : string) (objects : ParserRun.RegExps) :
  ParserRun.getEscapedPartsFromFormat params expandedFormat objects
  = Some (getEscapedPartsFromFormat params expandedFormat,
          (objects ++ [0%nat])%list).
Proof.
  unfold ParserRun.getEscapedPartsFromFormat, getEscapedPartsFromFormat,
    ParserRun.newRegExp.
  destruct (utils.escapedCharacters (Params.utils params))
    as [startChar endChar].
  rewrite getEscapedParts_while_scan by lia. reflexivity.
Qed.

(** The loop of the run is the loop of [FormatParser], the [lastIndex] of
    its state being the one of the object. *)
Lemma buildSections_loop_run (clock : Clock) (params : Params.t TDate Clock)
    (now : TDate) (alternatives : list string)
    (escapedParts : FormatEscapedParts) (objects : ParserRun.RegExps)
    (rest : string) :
  forall (skip i : nat) (vars : ParserRun.LoopVariables) (lastIndex : nat),
    match
      buildSections_loop helpers clock params now alternatives escapedParts
        skip i rest (loopState vars lastIndex)
    with
    | None =>
        ParserRun.buildSections_loop helpers clock params now alternatives
          escapedParts (List.length objects) skip i rest vars
          (objects ++ [lastIndex])%list
        = None
    | Some (Ok st) =>
        ParserRun.buildSections_loop helpers clock params now alternatives
          escapedParts (List.length objects) skip i rest vars
          (objects ++ [lastIndex])%list
        = Some (Ok (variablesOf st),
                (objects ++ [FormatParser.lastIndex st])%list)
    | Some (Throw e) =>
        exists lastIndex',
          ParserRun.buildSections_loop helpers clock params now alternatives
            escapedParts (List.length objects) skip i rest vars
            (objects ++ [lastIndex])%list
          = Some (Throw e, (objects ++ [lastIndex'])%list)
    end.
Proof.
  induction rest as [|char rest' IH]; intros skip i vars lastIndex.
  { destruct skip, vars; reflexivity. }
  cbn [buildSections_loop ParserRun.buildSections_loop].
  destruct skip as [|skip']; [|apply IH].
  unfold ParserRun.testTokenStart. rewrite lastIndexOf_new.
  cbn [loopState currentTokenValue FormatParser.lastIndex sections
       pendingStartSeparator].
  destruct (isTokenStartRegExp_test alternatives lastIndex
              (ParserRun.currentTokenValueVar vars ++ String char rest'))
    as [regExpMatch lastIndex'].
  rewrite setLastIndex_new, lastIndexOf_new.
  destruct (negb
              match findEscapedPart escapedParts i with
              | Some _ => true
              | None => false
              end && isLetter char && regExpMatch).
  - destruct lastIndex' as [|skip']; [reflexivity|].
    exact (IH skip' (S i)
             {| ParserRun.sectionsVar := ParserRun.sectionsVar vars;
                ParserRun.startSeparatorVar :=
                  ParserRun.startSeparatorVar vars;
                ParserRun.currentTokenValueVar :=
                  substring 0 (S skip')
                    (ParserRun.currentTokenValueVar vars
                     ++ String char rest') |}
             (S skip')).
  - destruct (match findEscapedPart escapedParts i with
              | Some part => (start part =? i)%nat || (end_ part =? i)%nat
              | None => false
              end).
    + specialize (IH 0%nat (S i) vars lastIndex').
      now destruct vars.
    + destruct (if isEmptyString (ParserRun.currentTokenValueVar vars)
                then Ok (ParserRun.sectionsVar vars)
                else
                  match
                    createSection helpers clock params now
                      (ParserRun.currentTokenValueVar vars)
                      (ParserRun.startSeparatorVar vars)
                  with
                  | Ok section =>
                      Ok (ParserRun.sectionsVar vars ++ [section])%list
                  | Throw e => Throw e
                  end) as [sections'|e];
        [|now exists lastIndex'].
      destruct sections' as [|section sections'].
      * exact (IH 0%nat (S i)
                 {| ParserRun.sectionsVar := [];
                    ParserRun.startSeparatorVar :=
                      ParserRun.startSeparatorVar vars ++ String char "";
                    ParserRun.currentTokenValueVar := "" |}
                 lastIndex').
      * exact (IH 0%nat (S i)
                 {| ParserRun.sectionsVar :=
                      appendToLastEndSeparator char (section :: sections');
                    ParserRun.startSeparatorVar := "";
                    ParserRun.currentTokenValueVar := "" |}
                 lastIndex').
Qed.

Lemma buildSections_run (clock : Clock) (params : Params.t TDate Clock)
    (expandedFormat : string) (escapedParts : FormatEscapedParts)
    (objects : ParserRun.RegExps) :
  match
    buildSections helpers clock params expandedFormat escapedParts
  with
  | None =>
      ParserRun.buildSections helpers clock params expandedFormat
        escapedParts objects = None
  | Some answer =>
      exists lastIndex,
        ParserRun.buildSections helpers clock params expandedFormat
          escapedParts objects
        = Some (answer, (objects ++ [lastIndex])%list)
  end.
Proof.
  unfold buildSections, ParserRun.buildSections, ParserRun.newRegExp.
  pose proof (buildSections_loop_run clock params
                (utils.date_undefined (Params.utils params) clock None)
                (tokenAlternatives (Params.utils params)) escapedParts
                objects expandedFormat 0 0
                {| ParserRun.sectionsVar := [];
                   ParserRun.startSeparatorVar := "";
                   ParserRun.currentTokenValueVar := "" |} 0) as Hloop.
  change (loopState
            {| ParserRun.sectionsVar := [];
               ParserRun.startSeparatorVar := "";
               ParserRun.currentTokenValueVar := "" |} 0)
    with {| sections := [];
            pendingStartSeparator := "";
            currentTokenValue := "";
            lastIndex := 0 |} in Hloop.
  destruct (buildSections_loop helpers clock params
              (utils.date_undefined (Params.utils params) clock None)
              (tokenAlternatives (Params.utils params)) escapedParts 0 0
              expandedFormat
              {| sections := [];
                 pendingStartSeparator := "";
                 currentTokenValue := "";
                 lastIndex := 0 |}) as [[st|e]|].
  - rewrite Hloop. cbn [variablesOf ParserRun.currentTokenValueVar
                        ParserRun.sectionsVar ParserRun.startSeparatorVar].
    destruct (if isEmptyString (currentTokenValue st)
              then Ok (sections st)
              else
                match
                  createSection helpers clock params
                    (utils.date_undefined (Params.utils params) clock None)
                    (currentTokenValue st) (pendingStartSeparator st)
                with
                | Ok section => Ok (sections st ++ [section])%list
                | Throw e => Throw e
                end) as [[|section sections']|e];
      [destruct (0 <? String.length (pendingStartSeparator st))%nat| |];
      now exists (FormatParser.lastIndex st).
  - destruct Hloop as [lastIndex' Hloop]. rewrite Hloop.
    now exists lastIndex'.
  - now rewrite Hloop.
Qed.

(** A run answers what [FormatParser.buildSectionsFromFormat] answers,
    whatever the objects it is handed, and leaves these objects as they
    are: the objects it leaves are the ones it was handed, followed by
    the ones it has created. *)
Lemma buildSectionsFromFormat_run (clock : Clock)
    (params : Params.t TDate Clock) (objects : ParserRun.RegExps) :
  match buildSectionsFromFormat helpers clock params with
  | None => ParserRun.buildSectionsFromFormat helpers clock params objects
            = None
  | Some answer =>
      exists created,
        ParserRun.buildSectionsFromFormat helpers clock params objects
        = Some (answer, (objects ++ created)%list)
  end.
Proof.
  unfold buildSectionsFromFormat, ParserRun.buildSectionsFromFormat.
  destruct (expandFormat params) as [expandedFormat0|e];
    [|exists []; now rewrite app_nil_r].
  rewrite getEscapedPartsFromFormat_run.
  match goal with
  | |- context [buildSections helpers clock params ?f ?parts] =>
      pose proof (buildSections_run clock params f parts
                    (objects ++ [0%nat])%list) as Hbuilt;
      destruct (buildSections helpers clock params f parts)
        as [[sections|e]|]
  end.
  - destruct Hbuilt as [lastIndex Hbuilt]. rewrite Hbuilt.
    exists [0%nat; lastIndex]. now rewrite <- app_assoc.
  - destruct Hbuilt as [lastIndex Hbuilt]. rewrite Hbuilt.
    exists [0%nat; lastIndex]. now rewrite <- app_assoc.
  - now rewrite Hbuilt.
Qed.

End RunOfTheParser.

(** C7, amended.  Two runs of [buildSectionsFromFormat] yield the same
    answer, and so the same list of sections, as soon as they are given
    the same value of every parameter: the format, the date, the adapter,
    the locale text, the localized digits and the timezone, the density,
    the two direction flags, and [shouldRespectLeadingZeros] as well; and
    as soon as the adapter reads the same current date in both.  A run
    takes nothing from a run before it: whatever [RegExp] objects, with
    whatever [lastIndex], the runs before it or any other code have left,
    it answers the same, for the two objects it reads are the ones it
    creates itself; it leaves the objects it was handed as they are; and
    a parse that follows another parse answers what it answers alone. *)
Theorem buildSectionsFromFormat_deterministic :
  forall (TDate Clock : Type)
         (helpers : FormatParser.fieldUtils.t TDate Clock)
         (clock1 clock2 : Clock)
         (params1 params2 : FormatParser.Params.t TDate Clock)
         (objects1 objects2 : ParserRun.RegExps),
    FormatParser.Params.format params1 = FormatParser.Params.format params2 ->
    FormatParser.Params.date params1 = FormatParser.Params.date params2 ->
    FormatParser.Params.utils params1 = FormatParser.Params.utils params2 ->
    FormatParser.Params.localeText params1
      = FormatParser.Params.localeText params2 ->
    FormatParser.Params.localizedDigits params1
      = FormatParser.Params.localizedDigits params2 ->
    FormatParser.Params.timezone params1
      = FormatParser.Params.timezone params2 ->
    FormatParser.Params.formatDensity params1
      = FormatParser.Params.formatDensity params2 ->
    FormatParser.Params.isRTL params1 = FormatParser.Params.isRTL params2 ->
    FormatParser.Params.enableAccessibleFieldDOMStructure params1
      = FormatParser.Params.enableAccessibleFieldDOMStructure params2 ->
    FormatParser.Params.shouldRespectLeadingZeros params1
      = FormatParser.Params.shouldRespectLeadingZeros params2 ->
    (forall timezone,
       FormatParser.utils.date_undefined
         (FormatParser.Params.utils params1) clock1 timezone
       = FormatParser.utils.date_undefined
           (FormatParser.Params.utils params2) clock2 timezone) ->
    let run1 :=
      ParserRun.buildSectionsFromFormat helpers clock1 params1 objects1 in
    let run2 :=
      ParserRun.buildSectionsFromFormat helpers clock2 params2 objects2 in
    RunNotions.answerOf run1 = RunNotions.answerOf run2
    /\ RunNotions.answerOf run1
       = FormatParser.buildSectionsFromFormat helpers clock1 params1
    /\ (forall objects1',
          RunNotions.objectsAfter run1 = Some objects1' ->
          exists created, objects1' = (objects1 ++ created)%list)
    /\ (forall (clock0 : Clock) (params0 : FormatParser.Params.t TDate Clock),
          FormatParser.buildSectionsFromFormat helpers clock0 params0
            <> None ->
          RunNotions.answerOf
            (ParserRun.parseTwice helpers clock0 params0 clock1 params1
               objects1)
          = RunNotions.answerOf run2).
Proof.
  intros TDate Clock helpers clock1 clock2 params1 params2 objects1 objects2.
  destruct params1, params2. cbn [FormatParser.Params.format
    FormatParser.Params.date FormatParser.Params.utils
    FormatParser.Params.localeText FormatParser.Params.localizedDigits
    FormatParser.Params.timezone FormatParser.Params.formatDensity
    FormatParser.Params.isRTL
    FormatParser.Params.enableAccessibleFieldDOMStructure
    FormatParser.Params.shouldRespectLeadingZeros].
  intros Hformat Hdate Hutils HlocaleText Hdigits Htimezone Hdensity Hrtl
         Haccessible Hrespect Hreading.
  subst.
  match goal with
  | |- context [ParserRun.buildSectionsFromFormat _ clock2 ?p _] =>
      set (params := p) in *
  end.
  assert (Hpure :
            FormatParser.buildSectionsFromFormat helpers clock1 params
            = FormatParser.buildSectionsFromFormat helpers clock2 params)
    by (apply buildSectionsFromFormat_same_reading; exact Hreading).
  assert (Hanswer :
            forall clock objects,
              RunNotions.answerOf
                (ParserRun.buildSectionsFromFormat helpers clock params
                   objects)
              = FormatParser.buildSectionsFromFormat helpers clock params).
  { intros clock objects.
    pose proof (buildSectionsFromFormat_run TDate Clock helpers clock params
                  objects) as Hrun.
    destruct (FormatParser.buildSectionsFromFormat helpers clock params)
      as [answer|]; [destruct Hrun as [created Hrun]|]; now rewrite Hrun. }
  split; [now rewrite !Hanswer|].
  split; [apply Hanswer|].
  split.
  - intros objects1' Hafter.
    pose proof (buildSectionsFromFormat_run TDate Clock helpers clock1 params
                  objects1) as Hrun.
    destruct (FormatParser.buildSectionsFromFormat helpers clock1 params)
      as [answer|]; [destruct Hrun as [created Hrun]|];
      rewrite Hrun in Hafter; [|discriminate].
    injection Hafter as <-. now exists created.
  - intros clock0 params0 Hends. unfold ParserRun.parseTwice.
    pose proof (buildSectionsFromFormat_run TDate Clock helpers clock0
                  params0 objects1) as Hrun.
    destruct (FormatParser.buildSectionsFromFormat helpers clock0 params0)
      as [answer|]; [|now contradiction Hends].
    destruct Hrun as [created ->].
    now rewrite !Hanswer.
Qed.

(** The theorem at work on the plain calendar: the format [MM/dd/yyyy]
    parsed once while no [RegExp] object exists, and once while two
    objects exist whose [lastIndex] are 3 and 1; and parsed after a parse
    of the format [y 'of' M].  A parse leaves its [isTokenStartRegExp]
    with the [lastIndex] of the last token it has read, 4 after [yyyy]
    and 1 after [M], and the three runs answer the same three
    sections. *)
Lemma buildSectionsFromFormat_deterministic_witness :
  let params := PlainCalendar.parserParams "MM/dd/yyyy" None false in
  let earlier := PlainCalendar.parserParams "y 'of' M" None true in
  let run1 :=
    ParserRun.buildSectionsFromFormat PlainCalendar.parserHelpers
      PlainCalendar.today params [3%nat; 1%nat] in
  let run2 :=
    ParserRun.buildSectionsFromFormat PlainCalendar.parserHelpers
      PlainCalendar.today params [] in
  RunNotions.objectsAfter run1 = Some [3%nat; 1%nat; 0%nat; 4%nat]
  /\ RunNotions.objectsAfter run2 = Some [0%nat; 4%nat]
  /\ RunNotions.objectsAfter
       (ParserRun.buildSectionsFromFormat PlainCalendar.parserHelpers
          PlainCalendar.today earlier [3%nat; 1%nat])
     = Some [3%nat; 1%nat; 0%nat; 1%nat]
  /\ option_map
       (fun answer =>
          match answer with
          | FormatParser.Ok sections => map FormatParser.format sections
          | FormatParser.Throw _ => []
          end)
       (RunNotions.answerOf run2)
     = Some ["MM"; "dd"; "yyyy"]
  /\ RunNotions.answerOf run1 = RunNotions.answerOf run2
  /\ RunNotions.answerOf
       (ParserRun.parseTwice PlainCalendar.parserHelpers PlainCalendar.today
          earlier PlainCalendar.today params [3%nat; 1%nat])
     = RunNotions.answerOf run2.
Proof.
  intros params earlier run1 run2.
  destruct (buildSectionsFromFormat_deterministic PlainCalendar.PlainDate
              PlainCalendar.PlainDate PlainCalendar.parserHelpers
              PlainCalendar.today PlainCalendar.today params params
              [3%nat; 1%nat] [] eq_refl eq_refl eq_refl eq_refl eq_refl
              eq_refl eq_refl eq_refl eq_refl eq_refl (fun _ => eq_refl))
    as (Hsame & _ & _ & Htwice).
  split; [vm_compute; reflexivity|].
  split; [vm_compute; reflexivity|].
  split; [vm_compute; reflexivity|].
  split; [vm_compute; reflexivity|].
  split; [exact Hsame|].
  apply Htwice. vm_compute. discriminate.
Defined.

